(** * AutoDocu: a shallow embedding of the documentation pipeline

    The Python sources embedded here are
      - auto_comment_functions.py   (comment normaliser, mirrored output paths)
      - auto_docstring_functions.py (docstring inserter)
      - auto_summary.py             (file discovery, directory description, summaries)
      - auto_docu.py                (the orchestrator)

    Python values are modelled as follows.
      - [str] is [string]; a character is a code point below 256, so the
        Latin-1 line boundaries and white space of [str.splitlines] and
        [str.strip] are all present.
      - [pathlib.Path] (POSIX flavour) is a record of an anchor flag and the
        list of name components.
      - the file system is a finite map from absolute component lists to
        entries; the root directory always exists.
      - a function with effects is a state-and-exception computation over a
        [World]: the file system and the trace of every I/O event
        (prints, model calls, opens, mkdir, directory scans).
      - the model endpoint ([ollama.chat]) and the parser ([ast.parse]) are
        opaque: they are Section variables of the pipeline. *)

From Stdlib Require Import Ascii.
From stdpp Require Import gmap strings list fin_maps sorting pretty.

(** ** Python string methods *)

Module PyStr.

Definition ord (c : ascii) : N := N_of_ascii c.

Definition LF : ascii := "010"%char.
Definition CR : ascii := "013"%char.
Definition DQ : ascii := "034"%char.

Definition nl : string := String LF "".

(** [str.isspace] on one character: the white space of Unicode below 256. *)
Definition isspace (c : ascii) : bool :=
  let n := ord c in
  ((9 <=? n) && (n <=? 13) || (28 <=? n) && (n <=? 32) || (n =? 133) || (n =? 160))%N.

(** The line boundaries [str.splitlines] splits on (CR LF is handled apart). *)
Definition is_linebreak (c : ascii) : bool :=
  let n := ord c in
  ((10 <=? n) && (n <=? 13) || (28 <=? n) && (n <=? 30) || (n =? 133))%N.

Definition is_cr (c : ascii) : bool := (ord c =? 13)%N.
Definition is_lf (c : ascii) : bool := (ord c =? 10)%N.

(** [s.splitlines()]: the lines without their terminators; a terminator at
    the very end opens no further line, and the empty string has no line. *)
Fixpoint splitlines (s : string) : list string :=
  match s with
  | EmptyString => []
  | String c s' =>
      if is_cr c then
        match s' with
        | String c' s'' =>
            if is_lf c' then EmptyString :: splitlines s''
            else EmptyString :: splitlines s'
        | EmptyString => [EmptyString]
        end
      else if is_linebreak c then EmptyString :: splitlines s'
      else
        match splitlines s' with
        | [] => [String c EmptyString]
        | l :: ls => String c l :: ls
        end
  end.

(** Text-mode reading ([newline=None]): CR LF and a lone CR become LF. *)
Fixpoint universal_newlines (s : string) : string :=
  match s with
  | EmptyString => EmptyString
  | String c s' =>
      if is_cr c then
        match s' with
        | String c' s'' =>
            if is_lf c' then String LF (universal_newlines s'')
            else String LF (universal_newlines s')
        | EmptyString => nl
        end
      else String c (universal_newlines s')
  end.

(** [sep.join(l)] *)
Fixpoint join (sep : string) (l : list string) : string :=
  match l with
  | [] => EmptyString
  | [x] => x
  | x :: rest => x +:+ sep +:+ join sep rest
  end.

Fixpoint lstrip (s : string) : string :=
  match s with
  | EmptyString => EmptyString
  | String c s' => if isspace c then lstrip s' else s
  end.

Fixpoint rstrip (s : string) : string :=
  match s with
  | EmptyString => EmptyString
  | String c s' =>
      match rstrip s' with
      | EmptyString => if isspace c then EmptyString else String c EmptyString
      | r => String c r
      end
  end.

(** [s.strip()] *)
Definition strip (s : string) : string := rstrip (lstrip s).

Definition lower_char (c : ascii) : ascii :=
  let n := ord c in
  if ((65 <=? n) && (n <=? 90) || (192 <=? n) && (n <=? 222) && negb (n =? 215))%N
  then ascii_of_N (n + 32) else c.

(** [s.lower()] *)
Fixpoint lower (s : string) : string :=
  match s with
  | EmptyString => EmptyString
  | String c s' => String (lower_char c) (lower s')
  end.

(** [s.startswith(p)] *)
Definition startswith (s p : string) : bool := String.prefix p s.

(** [s.endswith(p)] *)
Definition endswith (s p : string) : bool :=
  String.prefix (String.rev p) (String.rev s).

(** [sub in s] *)
Fixpoint contains (sub s : string) : bool :=
  String.prefix sub s ||
  match s with
  | EmptyString => false
  | String _ s' => contains sub s'
  end.

(** [s.replace(old, new)]: the occurrences of [old] are replaced from the
    left and do not overlap; [skip] counts the characters of a matched
    occurrence that are still to be passed over. *)
Fixpoint replace_from (old new : string) (skip : nat) (s : string) : string :=
  match s with
  | EmptyString => EmptyString
  | String c s' =>
      match skip with
      | S k => replace_from old new k s'
      | O =>
          if String.prefix old s
          then new +:+ replace_from old new (String.length old - 1) s'
          else String c (replace_from old new 0 s')
      end
  end.

Fixpoint intersperse (new : string) (s : string) : string :=
  match s with
  | EmptyString => EmptyString
  | String c s' => String c (new +:+ intersperse new s')
  end.

Definition replace (s old new : string) : string :=
  match old with
  | EmptyString => new +:+ intersperse new s
  | _ => replace_from old new 0 s
  end.

(** [s[:n]] for a non-negative [n] *)
Fixpoint take_chars (n : nat) (s : string) : string :=
  match n, s with
  | S k, String c s' => String c (take_chars k s')
  | _, _ => EmptyString
  end.

(** [c * n]: the character repeated *)
Fixpoint repeat_char (c : ascii) (n : nat) : string :=
  match n with
  | O => EmptyString
  | S k => String c (repeat_char c k)
  end.

(** [s.split(sep)] for a one-character separator *)
Fixpoint split_on (sep : ascii) (s : string) : list string :=
  match s with
  | EmptyString => [EmptyString]
  | String c s' =>
      if Ascii.eqb c sep then EmptyString :: split_on sep s'
      else
        match split_on sep s' with
        | [] => [String c EmptyString]
        | l :: ls => String c l :: ls
        end
  end.

(** [f.readlines()] on a text already read: the lines with their LF. *)
Fixpoint readlines (s : string) : list string :=
  match s with
  | EmptyString => []
  | String c s' =>
      if is_lf c then String c EmptyString :: readlines s'
      else
        match readlines s' with
        | [] => [String c EmptyString]
        | l :: ls => String c l :: ls
        end
  end.

(** [s * n] *)
Fixpoint repeat_str (s : string) (n : nat) : string :=
  match n with
  | O => EmptyString
  | S k => s +:+ repeat_str s k
  end.

(** [''.join(l)] *)
Definition concat (l : list string) : string := join EmptyString l.

(** [bool(s)] *)
Definition nonempty (s : string) : bool :=
  match s with
  | EmptyString => false
  | _ => true
  end.

(** Three double quotes, the delimiter of a docstring. *)
Definition triple_quote : string := String DQ (String DQ (String DQ EmptyString)).

Definition str_of_bool (b : bool) : string := if b then "True" else "False".

End PyStr.


(** ** Python list operations with integer indices *)

Module PyList.

(** A slice bound as Python normalises it: a negative bound counts from the
    end, and the result is clamped to the list. *)
Definition clamp_index (len i : Z) : nat :=
  let j := if (i <? 0)%Z then (i + len)%Z else i in
  Z.to_nat (Z.max 0 (Z.min len j)).

(** [l.insert(i, x)]: an index past the end appends, a negative one counts
    from the end and stops at the front. *)
Definition insert {A} (i : Z) (x : A) (l : list A) : list A :=
  let n := clamp_index (Z.of_nat (length l)) i in
  take n l ++ x :: drop n l.

(** [l[lo:hi]] *)
Definition slice {A} (lo hi : Z) (l : list A) : list A :=
  let len := Z.of_nat (length l) in
  let a := clamp_index len lo in
  let b := clamp_index len hi in
  take (b - a) (drop a l).

(** [l[:-1]] *)
Definition drop_last {A} (l : list A) : list A := slice 0 (-1) l.

(** [l[1:]] *)
Definition drop_first {A} (l : list A) : list A := drop 1 l.

(** [l[-1]] of a list known to be non-empty *)
Definition last_item {A} (l : list A) : option A := last l.

End PyList.

(** ** pathlib.PurePosixPath *)

Module PosixPath.

(** [anchor] is the root [/]; [names] are the components after it.
    [Path('.')] has no component. A leading double slash, which POSIX lets
    an implementation treat apart, is read as a single root. *)
Record Path : Type := mkPath { anchor : bool; names : list string }.

#[global] Instance Path_eq_dec : EqDecision Path.
Proof. solve_decision. Defined.

Definition real_component (c : string) : bool :=
  negb (String.eqb c "") && negb (String.eqb c ".").

(** [Path(s)] *)
Definition of_str (s : string) : Path :=
  {| anchor := PyStr.startswith s "/";
     names := filter (fun c => real_component c = true) (PyStr.split_on "/" s) |}.

(** [str(p)] *)
Definition to_str (p : Path) : string :=
  if anchor p then "/" +:+ PyStr.join "/" (names p)
  else match names p with
       | [] => "."
       | ns => PyStr.join "/" ns
       end.

(** [p.parts] *)
Definition parts (p : Path) : list string :=
  if anchor p then "/" :: names p else names p.

(** [p.name] *)
Definition name (p : Path) : string := default "" (last (names p)).

(** [p.parent] *)
Definition parent (p : Path) : Path :=
  {| anchor := anchor p; names := removelast (names p) |}.

(** [p / q] *)
Definition joinpath (p q : Path) : Path :=
  if anchor q then q
  else {| anchor := anchor p; names := names p ++ names q |}.

(** [p / s] for a string [s] *)
Definition joinstr (p : Path) (s : string) : Path := joinpath p (of_str s).

Fixpoint strip_prefix (pre l : list string) : option (list string) :=
  match pre, l with
  | [], _ => Some l
  | x :: pre', y :: l' => if String.eqb x y then strip_prefix pre' l' else None
  | _ :: _, [] => None
  end.

(** [p.relative_to(other)]: [None] stands for the ValueError pathlib raises
    when [other] is not a leading part of [p]. *)
Definition relative_to (p other : Path) : option Path :=
  if Bool.eqb (anchor p) (anchor other) then
    match strip_prefix (names other) (names p) with
    | Some rest => Some {| anchor := false; names := rest |}
    | None => None
    end
  else None.

(** A component pathlib can hold: not empty, not a lone dot, no slash. *)
Definition valid_name (c : string) : bool :=
  real_component c && negb (PyStr.contains "/" c).

(** The paths pathlib builds: every component is one it can hold. *)
Definition well_formed (p : Path) : Prop :=
  Forall (fun c => valid_name c = true) (names p).

(** [repr(p)] *)
Definition repr (p : Path) : string := "PosixPath('" +:+ to_str p +:+ "')".

End PosixPath.

Export PosixPath(Path, mkPath, anchor, names).

(** A value that is either a [str] or a [Path]: the pipeline passes both to
    parameters annotated [str]. *)
Inductive pathlike : Type :=
| PStr (s : string)
| PPath (p : Path).

(** [Path(x)] *)
Definition as_path (x : pathlike) : Path :=
  match x with
  | PStr s => PosixPath.of_str s
  | PPath p => p
  end.

(** [os.fspath(x)] *)
Definition fspath (x : pathlike) : string :=
  match x with
  | PStr s => s
  | PPath p => PosixPath.to_str p
  end.

(** ** Exceptions, the world, and effectful computations *)

(** The classes of [Exception] the pipeline can meet. [ModelError] stands for
    whatever the model client raises (a refused connection, an unknown model,
    a malformed reply). Every class here derives from [Exception], which is
    what the [except Exception] clauses of the sources catch. *)
Inductive exn_class : Type :=
| FileNotFoundError
| FileExistsError
| NotADirectoryError
| IsADirectoryError
| TypeError
| ValueError
| IndexError
| UnboundLocalError
| SyntaxError
| ModelError.

Record exn : Type := mkExn { exn_kind : exn_class; exn_msg : string }.

#[global] Instance exn_class_eq_dec : EqDecision exn_class.
Proof. solve_decision. Defined.

#[global] Instance exn_eq_dec : EqDecision exn.
Proof. solve_decision. Defined.

Inductive result (A : Type) : Type :=
| Ok (a : A)
| Raise (e : exn).

Arguments Ok {A} a.
Arguments Raise {A} e.

(** An entry of the file system. A regular file holds its decoded text. *)
Inductive entry : Type :=
| File (text : string)
| Dir.

#[global] Instance entry_eq_dec : EqDecision entry.
Proof. solve_decision. Defined.

(** Every I/O effect of a run, in the order it happened. File-system events
    name the absolute component list of the entry and are recorded when the
    operation succeeded; [EvGlob] and [EvListdir] record the scan of a
    directory; [EvChat] records a request to the model. *)
Inductive event : Type :=
| EvPrint (line : string)
| EvChat (model prompt : string)
| EvRead (k : list string)
| EvWrite (k : list string) (text : string)
| EvMkdir (k : list string)
| EvListdir (k : list string)
| EvGlob (k : list string)
| EvRename (k k' : list string).

#[global] Instance event_eq_dec : EqDecision event.
Proof. solve_decision. Defined.

(** The model calls of a trace, as (model, prompt) pairs. *)
Fixpoint chats_of (tr : list event) : list (string * string) :=
  match tr with
  | [] => []
  | EvChat m p :: tr' => (m, p) :: chats_of tr'
  | _ :: tr' => chats_of tr'
  end.

(** The entries a trace wrote, one per write, in order. *)
Fixpoint writes_of (tr : list event) : list (list string) :=
  match tr with
  | [] => []
  | EvWrite k _ :: tr' => k :: writes_of tr'
  | _ :: tr' => writes_of tr'
  end.

Record World : Type := mkWorld {
  fs : gmap (list string) entry;
  cwd : list string;
  trace : list event
}.

Definition Py (A : Type) : Type := World -> World * result A.

Definition ret {A} (a : A) : Py A := fun w => (w, Ok a).

Definition raise {A} (c : exn_class) (msg : string) : Py A :=
  fun w => (w, Raise (mkExn c msg)).

Definition reraise {A} (e : exn) : Py A := fun w => (w, Raise e).

Definition bind {A B} (m : Py A) (k : A -> Py B) : Py B :=
  fun w =>
    match m w with
    | (w', Ok a) => k a w'
    | (w', Raise e) => (w', Raise e)
    end.

Declare Scope py_scope.
Delimit Scope py_scope with py.
Bind Scope py_scope with Py.

Notation "x <- m ;; k" := (bind m (fun x => k))
  (at level 100, m at next level, right associativity) : py_scope.
Notation "m ;; k" := (bind m (fun _ => k))
  (at level 100, right associativity) : py_scope.

Open Scope py_scope.

(** [try: body  except Exception as e: handler e] *)
Definition try_except {A} (body : Py A) (handler : exn -> Py A) : Py A :=
  fun w =>
    match body w with
    | (w', Ok a) => (w', Ok a)
    | (w', Raise e) => handler e w'
    end.

(** A [try] block that binds a local variable part of the way through:
    [upto] is the block up to and including the assignment, [rest] what
    follows it inside the block. The result tells whether the variable is
    bound once the statement is over, whichever way the block was left. *)
Definition try_except_binding {A} (upto : Py A) (rest : A -> Py unit)
    (handler : exn -> Py unit) : Py (option A) :=
  fun w =>
    match upto w with
    | (w1, Raise e) => (_ <- handler e ;; ret None) w1
    | (w1, Ok a) =>
        match rest a w1 with
        | (w2, Ok _) => (w2, Ok (Some a))
        | (w2, Raise e) => (_ <- handler e ;; ret (Some a)) w2
        end
    end.

(** Reading a local variable: UnboundLocalError when nothing was assigned. *)
Definition read_local {A} (var : string) (binding : option A) : Py A :=
  match binding with
  | Some a => ret a
  | None =>
      raise UnboundLocalError
        ("cannot access local variable '" +:+ var +:+
         "' where it is not associated with a value")
  end.

(** [for x in l: body x] *)
Fixpoint for_each {A} (l : list A) (body : A -> Py unit) : Py unit :=
  match l with
  | [] => ret tt
  | x :: l' => body x ;; for_each l' body
  end.

(** A loop that updates an accumulator: [for x in l: acc = body acc x] *)
Fixpoint for_fold {A S} (l : list A) (acc : S) (body : S -> A -> Py S) : Py S :=
  match l with
  | [] => ret acc
  | x :: l' => acc' <- body acc x ;; for_fold l' acc' body
  end.

Definition emit (ev : event) : Py unit :=
  fun w => (mkWorld (fs w) (cwd w) (trace w ++ [ev]), Ok tt).

(** [print(line)] *)
Definition print (line : string) : Py unit := emit (EvPrint line).

(** [str(e)] *)
Definition str_of_exn (e : exn) : string := exn_msg e.

(** ** The file system *)

Module Os.

(** The root directory is always there. *)
Definition entry_at (m : gmap (list string) entry) (k : list string) : option entry :=
  match k with
  | [] => Some Dir
  | _ => m !! k
  end.

Definition is_dir_entry (o : option entry) : bool :=
  match o with
  | Some Dir => true
  | _ => false
  end.

Definition is_file_entry (o : option entry) : bool :=
  match o with
  | Some (File _) => true
  | _ => false
  end.

(** The absolute components a path denotes: a relative path starts from the
    working directory, and [..] steps back to the parent. *)
Fixpoint walk (base : list string) (ns : list string) : list string :=
  match ns with
  | [] => base
  | c :: ns' =>
      if String.eqb c ".." then walk (removelast base) ns'
      else walk (base ++ [c]) ns'
  end.

Definition resolve (w : World) (p : Path) : list string :=
  walk (if anchor p then [] else cwd w) (names p).

Definition errno_msg (what : string) (p : string) : string :=
  what +:+ ": '" +:+ p +:+ "'".

Definition no_such_file (p : Path) : exn :=
  mkExn FileNotFoundError
    (errno_msg "[Errno 2] No such file or directory" (PosixPath.to_str p)).

Definition is_a_directory (p : Path) : exn :=
  mkExn IsADirectoryError
    (errno_msg "[Errno 21] Is a directory" (PosixPath.to_str p)).

Definition not_a_directory (p : Path) : exn :=
  mkExn NotADirectoryError
    (errno_msg "[Errno 20] Not a directory" (PosixPath.to_str p)).

Definition file_exists (p : Path) : exn :=
  mkExn FileExistsError
    (errno_msg "[Errno 17] File exists" (PosixPath.to_str p)).

(** [p.is_file()] *)
Definition is_file (p : Path) : Py bool :=
  fun w => (w, Ok (is_file_entry (entry_at (fs w) (resolve w p)))).

(** [p.is_dir()], [os.path.isdir] *)
Definition is_dir (p : Path) : Py bool :=
  fun w => (w, Ok (is_dir_entry (entry_at (fs w) (resolve w p)))).

(** [open(p, "r").read()] and [p.read_text()]: the text of a regular file,
    with the newline translation of text mode. *)
Definition read_text (p : Path) : Py string :=
  fun w =>
    let k := resolve w p in
    match entry_at (fs w) k with
    | Some (File text) =>
        (mkWorld (fs w) (cwd w) (trace w ++ [EvRead k]),
         Ok (PyStr.universal_newlines text))
    | Some Dir => (w, Raise (is_a_directory p))
    | None => (w, Raise (no_such_file p))
    end.

(** [open(p, "w").write(text)] and [p.write_text(text)]: the file is created
    or truncated and holds [text] afterwards. A new file needs the directory
    that is to hold it. *)
Definition write_text (p : Path) (text : string) : Py unit :=
  fun w =>
    let k := resolve w p in
    let written :=
      mkWorld (<[k := File text]> (fs w)) (cwd w) (trace w ++ [EvWrite k text]) in
    match entry_at (fs w) k with
    | Some Dir => (w, Raise (is_a_directory p))
    | Some (File _) => (written, Ok tt)
    | None =>
        match entry_at (fs w) (removelast k) with
        | Some Dir => (written, Ok tt)
        | Some (File _) => (w, Raise (not_a_directory p))
        | None => (w, Raise (no_such_file p))
        end
    end.

(** The directories [mkdir] has to pass or make below [pre], outermost
    first: [Inl] is a failure, [Inr] the new map with the keys it made. *)
Fixpoint mkdir_chain (m : gmap (list string) entry) (pre rest : list string)
    (made : list (list string))
    : exn_class + (gmap (list string) entry * list (list string)) :=
  match rest with
  | [] => inr (m, made)
  | c :: rest' =>
      let k := pre ++ [c] in
      match entry_at m k with
      | Some Dir => mkdir_chain m k rest' made
      | Some (File _) =>
          inl (match rest' with [] => FileExistsError | _ => NotADirectoryError end)
      | None => mkdir_chain (<[k := Dir]> m) k rest' (made ++ [k])
      end
  end.

(** [p.mkdir(parents=True, exist_ok=True)]: every missing directory on the
    way is made; a directory that is already there is accepted; a regular
    file at the path (FileExistsError) or on the way to it
    (NotADirectoryError) makes the call fail. *)
Definition mkdir_parents_exist_ok (p : Path) : Py unit :=
  fun w =>
    let k := resolve w p in
    match mkdir_chain (fs w) [] k [] with
    | inr (m, made) => (mkWorld m (cwd w) (trace w ++ map EvMkdir made), Ok tt)
    | inl FileExistsError => (w, Raise (file_exists p))
    | inl _ => (w, Raise (not_a_directory p))
    end.

(** Whether every directory between [d] and the entry [d ++ rel] exists. *)
Fixpoint dirs_along (m : gmap (list string) entry) (d rel : list string) : bool :=
  match rel with
  | [] => true
  | [_] => true
  | c :: rel' => is_dir_entry (entry_at m (d ++ [c])) && dirs_along m (d ++ [c]) rel'
  end.

(** The entries strictly below the directory [d], as components relative
    to it. *)
Definition below (m : gmap (list string) entry) (d : list string) : list (list string) :=
  if is_dir_entry (entry_at m d) then
    omap (fun kv : list string * entry =>
            match PosixPath.strip_prefix d (fst kv) with
            | Some (c :: rel) =>
                if dirs_along m d (c :: rel) then Some (c :: rel) else None
            | _ => None
            end) (map_to_list m)
  else [].

(** [fnmatch(name, "*" + suffix)] on POSIX *)
Definition matches_suffix (suffix : string) (rel : list string) : bool :=
  PyStr.endswith (default "" (last rel)) suffix.

(** [p.rglob("*" + suffix)]: every entry below [p], at any depth, whose name
    ends with [suffix], as a path that extends [p]. Nothing is found below
    something that is not a directory. *)
Definition rglob_suffix (p : Path) (suffix : string) : Py (list Path) :=
  fun w =>
    let d := resolve w p in
    (mkWorld (fs w) (cwd w) (trace w ++ [EvGlob d]),
     Ok (map (fun rel => PosixPath.joinpath p (mkPath false rel))
             (filter (fun rel => matches_suffix suffix rel = true) (below (fs w) d)))).

(** The names of the entries directly inside [d]. *)
Definition children (m : gmap (list string) entry) (d : list string) : list string :=
  omap (fun kv : list string * entry =>
          match PosixPath.strip_prefix d (fst kv) with
          | Some [c] => Some c
          | _ => None
          end) (map_to_list m).

(** [os.listdir(p)] *)
Definition listdir (p : Path) : Py (list string) :=
  fun w =>
    let d := resolve w p in
    match entry_at (fs w) d with
    | Some Dir =>
        (mkWorld (fs w) (cwd w) (trace w ++ [EvListdir d]), Ok (children (fs w) d))
    | Some (File _) => (w, Raise (not_a_directory p))
    | None => (w, Raise (no_such_file p))
    end.

(** [os.replace(src, dst)] for a regular file *)
Definition rename (p q : Path) : Py unit :=
  fun w =>
    let k := resolve w p in
    let k' := resolve w q in
    match entry_at (fs w) k with
    | Some (File text) =>
        match entry_at (fs w) k', entry_at (fs w) (removelast k') with
        | Some Dir, _ => (w, Raise (is_a_directory q))
        | _, Some Dir =>
            (mkWorld (<[k' := File text]> (delete k (fs w))) (cwd w)
                     (trace w ++ [EvRename k k']), Ok tt)
        | _, _ => (w, Raise (no_such_file q))
        end
    | _ => (w, Raise (no_such_file p))
    end.

(** [os.path.join(a, b)] *)
Definition path_join (a b : string) : string :=
  if PyStr.startswith b "/" then b
  else if String.eqb a "" || PyStr.endswith a "/" then a +:+ b
  else a +:+ "/" +:+ b.

(** [os.path.basename(os.path.abspath(p))] *)
Definition abs_basename (p : string) : Py string :=
  fun w => (w, Ok (default "" (last (resolve w (PosixPath.of_str p))))).

End Os.

(** ** The syntax trees of the [ast] module *)

Module Ast.

(** What the pipeline looks at in a tree: function definitions, expression
    statements and constants (a docstring is a string constant standing as
    the first statement of a body); [Node] is every other kind of node
    (Module, ClassDef, Return, arguments, ...). A node without a position,
    such as Module, carries the line 0. The children are in the order
    [ast.iter_child_nodes] yields them: for a function definition the
    arguments, the body, then decorators, return annotation and type
    parameters. *)
#[local] Set Warnings "-register-all".

Inductive ast : Type :=
| FunctionDef (name : string) (lineno end_lineno col_offset : Z)
    (args : list ast) (body : list ast) (trailer : list ast)
| Expr (lineno : Z) (value : ast)
| Constant (lineno : Z) (str_value : option string)
| Node (lineno : Z) (children : list ast).

Definition iter_child_nodes (node : ast) : list ast :=
  match node with
  | FunctionDef _ _ _ _ args body trailer => args ++ body ++ trailer
  | Expr _ value => [value]
  | Constant _ _ => []
  | Node _ children => children
  end.

Fixpoint size (node : ast) : nat :=
  match node with
  | FunctionDef _ _ _ _ args body trailer =>
      S (list_sum (map size args) + list_sum (map size body) + list_sum (map size trailer))
  | Expr _ value => S (size value)
  | Constant _ _ => 1
  | Node _ children => S (list_sum (map size children))
  end.

(** The loop of [ast.walk]: take the first node of the queue, put its
    children at the end of the queue, yield the node. [fuel] bounds the
    number of nodes taken. *)
Fixpoint walk_queue (fuel : nat) (todo : list ast) : list ast :=
  match fuel, todo with
  | S n, node :: rest => node :: walk_queue n (rest ++ iter_child_nodes node)
  | _, _ => []
  end.

(** [ast.walk(tree)] *)
Definition walk (tree : ast) : list ast := walk_queue (size tree) [tree].

(** [isinstance(node, ast.FunctionDef)] *)
Definition is_function_def (node : ast) : bool :=
  match node with
  | FunctionDef _ _ _ _ _ _ _ => true
  | _ => false
  end.

Definition node_name (node : ast) : string :=
  match node with
  | FunctionDef name _ _ _ _ _ _ => name
  | _ => ""
  end.

Definition node_lineno (node : ast) : Z :=
  match node with
  | FunctionDef _ lineno _ _ _ _ _ => lineno
  | Expr lineno _ => lineno
  | Constant lineno _ => lineno
  | Node lineno _ => lineno
  end.

Definition node_end_lineno (node : ast) : Z :=
  match node with
  | FunctionDef _ _ end_lineno _ _ _ _ => end_lineno
  | _ => node_lineno node
  end.

Definition node_col_offset (node : ast) : Z :=
  match node with
  | FunctionDef _ _ _ col_offset _ _ _ => col_offset
  | _ => 0
  end.

Definition node_body (node : ast) : list ast :=
  match node with
  | FunctionDef _ _ _ _ _ body _ => body
  | _ => []
  end.

(** [ast.get_docstring(node) is None] for a function definition: there is a
    docstring when the body starts with an expression statement whose value
    is a string constant. *)
Definition lacks_docstring (node : ast) : bool :=
  match node_body node with
  | Expr _ (Constant _ (Some _)) :: _ => false
  | _ => true
  end.

End Ast.

Export Ast(ast, FunctionDef, Expr, Constant, Node).

(** ** The pipeline *)

(** A text given line by line, as the triple-quoted literals of the sources
    are laid out. A character of such a literal beyond code point 255 stands
    as its UTF-8 bytes. *)
Definition text_of_lines (ls : list string) : string := PyStr.join PyStr.nl ls.

Section Pipeline.

(** [ollama.chat(model=model, messages=[{"role": "user", "content": prompt}])]
    followed by [response["message"]["content"]]: the reply, or the exception
    the client raised. The endpoint is a black box; what it answers may
    depend on everything that happened before. *)
Variable ollama_chat : list event -> string -> string -> result string.

Definition chat (model prompt : string) : Py string :=
  fun w =>
    (mkWorld (fs w) (cwd w) (trace w ++ [EvChat model prompt]),
     ollama_chat (trace w) model prompt).

(** *** auto_comment_functions.py *)

(** [src.parts[0]] *)
Definition first_part (src : Path) : Py string :=
  match PosixPath.parts src with
  | c :: _ => ret c
  | [] => raise IndexError "tuple index out of range"
  end.

Definition get_auto_docu_path (src new_branch_root : Path) : Py Path :=
  is_f <- Os.is_file src ;;
  if negb is_f then
    raise FileNotFoundError (PosixPath.repr src +:+ " does not exist")
  else
    part0 <- first_part src ;;
    let project_root := PosixPath.parent (PosixPath.of_str part0) in
    sub_dirs <-
      match PosixPath.relative_to (PosixPath.parent src) project_root with
      | Some rel => ret rel
      | None =>
          raise ValueError
            (PosixPath.repr (PosixPath.parent src) +:+ " is not in the subpath of " +:+
             PosixPath.repr project_root)
      end ;;
    let dst_dir := PosixPath.joinpath new_branch_root sub_dirs in
    Os.mkdir_parents_exist_ok dst_dir ;;
    let dst_file := PosixPath.joinstr dst_dir (PosixPath.name src) in
    ret dst_file.

(** The first test of [clean_markdown_code_fence]:
    [lines and lines[0].strip().lower() == "```python"] *)
Definition opens_fence (lines : list string) : bool :=
  match lines with
  | [] => false
  | l :: _ => String.eqb (PyStr.lower (PyStr.strip l)) "```python"
  end.

(** The second test: [lines and lines[-1].strip() == "```"] *)
Definition closes_fence (lines : list string) : bool :=
  match last lines with
  | None => false
  | Some l => String.eqb (PyStr.strip l) "```"
  end.

(** The text [clean_markdown_code_fence] writes back for the text it read. *)
Definition cleaned_text (text : string) : string :=
  let lines := PyStr.splitlines text in
  let lines := if opens_fence lines then PyList.drop_first lines else lines in
  let lines := if closes_fence lines then PyList.drop_last lines else lines in
  PyStr.join PyStr.nl lines +:+ PyStr.nl.

Definition clean_markdown_code_fence (file_path : Path) : Py unit :=
  text <- Os.read_text file_path ;;
  Os.write_text file_path (cleaned_text text).

Definition style_prompt (original_code : string) : string :=
  text_of_lines [
    " You are a Python commenting assistant. Read the following code and determine what commenting style is applied.";
    "    Just reply a single phrase between 1 and 3 words long (ex. extensive, light) that describes the verbosity of commenting that you find in this file, no explanations or details.    ";
    "    ```python";
    "    " +:+ original_code;
    "    " ].

Definition compare_prompt (existing_commenting commenting_style : string) : string :=
  text_of_lines [
    "Answer how similar or different the phrase " +:+ existing_commenting +:+
      " is from the phrase " +:+ commenting_style +:+
      " in terms of code commenting verbosity.";
    "    Simply reply with very different, different, similar, or very similar. Just give your answer. No explanation is needed.";
    "    " ].

Definition uncomment_prompt (original_code : string) : string :=
  text_of_lines [
    " You are a Python commenting assistant. ";
    "        Read the following code and return the same code, but remove the existing comments";
    "        Return ONLY the modified code with comments removed. Do not summarize or explain. ";
    "        ```python";
    "        " +:+ original_code;
    "        " ].

Definition recomment_prompt (commenting_style un_commented_code : string) : string :=
  text_of_lines [
    " You are a Python commenting assistant. ";
    "        Read the following code and return the same code, but with " +:+
      commenting_style +:+ " inline comments.";
    "        Return ONLY the modified code with comments. Do not summarize or explain. ";
    "        ```python";
    "        " +:+ un_commented_code;
    "        " ].

Definition error_reading (file_path : Path) (e : exn) : string :=
  "[Error reading code " +:+ PosixPath.name file_path +:+ "]: " +:+ str_of_exn e.

Definition error_commenting (file_path : Path) (e : exn) : string :=
  "[Error commenting " +:+ PosixPath.name file_path +:+ "]: " +:+ str_of_exn e.

(** The first [try] statement of [auto_comment]: the model names the
    commenting style it finds in the code. *)
Definition classify_comments (file_path : Path) (model original_code : string)
    : Py string :=
  try_except
    (response <- chat model (style_prompt original_code) ;;
     let existing_commenting := PyStr.replace response "commenting" "" in
     print existing_commenting ;;
     ret existing_commenting)
    (fun e => print (error_reading file_path e) ;; ret "unknown").

(** The second [try] statement: the model compares the style found with the
    style wanted, and [needs_commenting] is whether its lowercased reply
    contains [different]. *)
Definition decide_needs_commenting (file_path : Path)
    (model existing_commenting commenting_style : string) : Py bool :=
  try_except
    (response <- chat model (compare_prompt existing_commenting commenting_style) ;;
     let commenting_diff_scale := PyStr.lower response in
     let needs_commenting := PyStr.contains "different" commenting_diff_scale in
     print ("commenting_diff_scale: " +:+ commenting_diff_scale) ;;
     print ("needs_commenting: " +:+ PyStr.str_of_bool needs_commenting) ;;
     ret needs_commenting)
    (fun e => print (error_reading file_path e) ;; ret false).

(** The third [try] statement. The local [new_path] of [auto_comment] is
    assigned inside the [try] blocks only, so whether it is bound afterwards
    is part of the result. *)
Definition remove_comments (file_path auto_docu_root : Path)
    (model original_code : string) : Py (option (string * Path)) :=
  try_except_binding
    (un_commented_code <- chat model (uncomment_prompt original_code) ;;
     new_path <- get_auto_docu_path file_path auto_docu_root ;;
     ret (un_commented_code, new_path))
    (fun bound =>
       let '(un_commented_code, new_path) := bound in
       Os.write_text new_path un_commented_code ;;
       clean_markdown_code_fence new_path ;;
       print ("Original comments removed from " +:+ PosixPath.name new_path))
    (fun e => print (error_commenting file_path e)).

(** The fourth [try] statement. *)
Definition add_comments (file_path auto_docu_root : Path)
    (model commenting_style un_commented_code : string) : Py unit :=
  try_except
    (commented_code <- chat model (recomment_prompt commenting_style un_commented_code) ;;
     new_path <- get_auto_docu_path file_path auto_docu_root ;;
     Os.write_text new_path commented_code ;;
     clean_markdown_code_fence new_path ;;
     print ("New comments added to " +:+ PosixPath.name new_path))
    (fun e => print (error_commenting file_path e)).

(** The [else] branch: [new_path] is read, for the message, before anything
    was assigned to it on this path. *)
Definition keep_comments (file_path auto_docu_root : Path) (original_code : string)
    : Py unit :=
  new_path <- read_local "new_path" (@None Path) ;;
  print ("No Comments style change needed for " +:+ PosixPath.name new_path) ;;
  new_path <- get_auto_docu_path file_path auto_docu_root ;;
  Os.write_text new_path original_code.

Definition auto_comment (file_path auto_docu_root : Path)
    (model commenting_style : string) : Py unit :=
  original_code <- Os.read_text file_path ;;
  existing_commenting <- classify_comments file_path model original_code ;;
  needs_commenting <-
    decide_needs_commenting file_path model existing_commenting commenting_style ;;
  if needs_commenting then
    bound <- remove_comments file_path auto_docu_root model original_code ;;
    new_path <- read_local "new_path" (snd <$> bound) ;;
    un_commented_code <- Os.read_text new_path ;;
    add_comments file_path auto_docu_root model commenting_style un_commented_code
  else
    keep_comments file_path auto_docu_root original_code.

(** *** auto_docstring_functions.py *)

(** [ast.parse(source)]: the tree of a source text, or the SyntaxError. *)
Variable ast_parse : string -> result ast.

Definition parse (source : string) : Py ast :=
  fun w => (w, ast_parse source).

(** The source text of a function, [lines[node.lineno - 1 : node.end_lineno]]
    joined by newlines. *)
Definition func_source (lines : list string) (node : ast) : string :=
  PyStr.join PyStr.nl
    (PyList.slice (Ast.node_lineno node - 1) (Ast.node_end_lineno node) lines).

(** The list comprehension over [ast.walk(tree)]. *)
Definition functions_missing_docstrings (source : string) (tree : ast)
    : list (ast * string) :=
  let lines := PyStr.splitlines source in
  map (fun node => (node, func_source lines node))
      (filter (fun node => Ast.is_function_def node && Ast.lacks_docstring node = true)
              (Ast.walk tree)).

Definition extract_functions_missing_docstrings (file_path : string)
    : Py (string * list (ast * string)) :=
  source <- Os.read_text (PosixPath.of_str file_path) ;;
  tree <- parse source ;;
  ret (source, functions_missing_docstrings source tree).

Definition docstring_prompt (function_code : string) : string :=
  text_of_lines [
    "You are a helpful Python documentation assistant. Read the following Python ";
    "    function and write a clear, concise google style docstring in triple quotes. Only output ";
    "    the docstring starting your reply with triple quotes.";
    "    ```python";
    "    " +:+ function_code;
    "    ```" ].

Definition suggest_docstring_with_ollama (function_code model : string) : Py string :=
  chat model (docstring_prompt function_code).

(** [node.body[0].lineno] *)
Definition body_start (node : ast) : result Z :=
  match Ast.node_body node with
  | first :: _ => Ok (Ast.node_lineno first)
  | [] => Raise (mkExn IndexError "list index out of range")
  end.

(** The text inserted for one docstring: its lines, stripped as a whole and
    indented four columns deeper than the [def], joined by newlines. *)
Definition indented_doc (node : ast) (doc : string) : string :=
  let indent := PyStr.repeat_char " " (Z.to_nat (Ast.node_col_offset node + 4)) in
  PyStr.join PyStr.nl
    (map (fun line => indent +:+ line) (PyStr.splitlines (PyStr.strip doc))).

(** One turn of the loop of [insert_docstrings]. *)
Definition splice_one (lines : list string) (item : (ast * string) * string)
    : result (list string) :=
  let '((node, _), doc) := item in
  match body_start node with
  | Ok insert_line => Ok (PyList.insert (insert_line - 1) (indented_doc node doc) lines)
  | Raise e => Raise e
  end.

(** The loop, over [reversed(list(zip(func_nodes, docstrings)))]. *)
Fixpoint splice_all (lines : list string) (items : list ((ast * string) * string))
    : result (list string) :=
  match items with
  | [] => Ok lines
  | item :: items' =>
      match splice_one lines item with
      | Ok lines' => splice_all lines' items'
      | Raise e => Raise e
      end
  end.

Definition insert_docstrings (source : string) (func_nodes : list (ast * string))
    (docstrings : list string) : result string :=
  let lines := PyStr.splitlines source in
  match splice_all lines (reverse (zip func_nodes docstrings)) with
  | Ok lines' => Ok (PyStr.join PyStr.nl lines')
  | Raise e => Raise e
  end.

Definition lift_result {A} (r : result A) : Py A := fun w => (w, r).

Definition todo_docstring : string :=
  PyStr.triple_quote +:+ "TODO: Add docstring" +:+ PyStr.triple_quote.

(** One turn of the loop of [generate_docstring_suggestions]: the list of
    docstrings gains the reply of the model, or the placeholder when the
    call raised. *)
Definition suggest_one (model : string) (docstrings : list string)
    (item : ast * string) : Py (list string) :=
  let '(node, func_src) := item in
  print (PyStr.repeat_char "=" 80) ;;
  print ("Function: " +:+ Ast.node_name node +:+ " (Line " +:+
         pretty (Ast.node_lineno node) +:+ ")") ;;
  print "- Suggested Docstring -" ;;
  docstrings' <-
    try_except
      (doc <- suggest_docstring_with_ollama func_src model ;;
       print doc ;;
       ret (docstrings ++ [doc]))
      (fun e =>
         print ("[Error generating docstring] " +:+ str_of_exn e) ;;
         ret (docstrings ++ [todo_docstring])) ;;
  print "" ;;
  ret docstrings'.

Definition docstrings_added (file_path : string) : string :=
  PyStr.nl +:+ "âœ… Docstrings added to: " +:+ file_path.

Definition generate_docstring_suggestions (file_path auto_docu_root model : string)
    : Py unit :=
  extracted <- extract_functions_missing_docstrings file_path ;;
  let '(source, missing_funcs) := extracted in
  docstrings <- for_fold missing_funcs [] (suggest_one model) ;;
  match missing_funcs with
  | _ :: _ =>
      new_source <- lift_result (insert_docstrings source missing_funcs docstrings) ;;
      Os.write_text (PosixPath.of_str file_path) new_source ;;
      print (docstrings_added file_path)
  | [] => print "No functions missing docstrings found."
  end.

(** *** auto_summary.py *)

(** [any(part in exclude_dirs for part in path.parts)] *)
Definition has_excluded_part (exclude_dirs : list string) (path : Path) : bool :=
  existsb (fun part => bool_decide (part ∈ exclude_dirs)) (PosixPath.parts path).

Definition find_all_python_files (directory : pathlike)
    (exclude_dirs : option (list string)) : Py (list Path) :=
  let exclude_dirs := default [] exclude_dirs in
  found <- Os.rglob_suffix (as_path directory) ".py" ;;
  let all_py_files :=
    filter (fun path => has_excluded_part exclude_dirs path = false) found in
  ret all_py_files.

(** [item in exclude_dirs] where [exclude_dirs] may be [None] *)
Definition member_of_optional (item : string) (exclude_dirs : option (list string))
    : Py bool :=
  match exclude_dirs with
  | Some l => ret (bool_decide (item ∈ l))
  | None => raise TypeError "argument of type 'NoneType' is not iterable"
  end.

Definition previewable (item : string) : bool :=
  PyStr.endswith item ".py" || PyStr.endswith item ".md" || PyStr.endswith item ".txt".

Definition preview_block (indent preview : string) : string :=
  text_of_lines [
    indent +:+ "    Preview:";
    indent +:+ "    " +:+ PyStr.triple_quote;
    indent +:+ "    " +:+ preview;
    indent +:+ "    " +:+ PyStr.triple_quote ].

(** The inner function [walk_dir] of [describe_directory_structure].
    [levels] is the number of levels still to be listed: the test
    [indent_level > max_depth] holds when it is 0. The list [output] the
    Python function appends to is passed along. *)
Fixpoint walk_dir (levels : nat) (exclude_dirs : option (list string))
    (show_file_preview : bool) (preview_lines : Z)
    (current_path : string) (indent_level : nat) (output : list string)
    : Py (list string) :=
  match levels with
  | O => ret output
  | S levels' =>
      listed <- Os.listdir (PosixPath.of_str current_path) ;;
      let items := merge_sort String.le listed in
      for_fold items output (fun output item =>
        let full_path := Os.path_join current_path item in
        let indent := PyStr.repeat_str "  " indent_level in
        is_d <- Os.is_dir (PosixPath.of_str full_path) ;;
        if is_d then
          excluded <- member_of_optional item exclude_dirs ;;
          if excluded || PyStr.startswith item "." then ret output
          else
            walk_dir levels' exclude_dirs show_file_preview preview_lines
              full_path (S indent_level) (output ++ [indent +:+ "- " +:+ item +:+ "/"])
        else if PyStr.startswith item "." then ret output
        else
          let output := output ++ [indent +:+ "- " +:+ item] in
          if show_file_preview && previewable item then
            try_except
              (text <- Os.read_text (PosixPath.of_str full_path) ;;
               let preview :=
                 PyStr.strip
                   (PyStr.concat (PyList.slice 0 preview_lines (PyStr.readlines text))) in
               if PyStr.nonempty preview
               then ret (output ++ [preview_block indent preview])
               else ret output)
              (fun e =>
                 ret (output ++ [indent +:+ "    [Preview Error: " +:+ str_of_exn e +:+ "]"]))
          else ret output)
  end.

Definition describe_directory_structure (directory output_path : pathlike)
    (exclude_dirs : option (list string)) (max_depth : Z)
    (show_file_preview : bool) (preview_lines : Z) : Py unit :=
  base <- Os.abs_basename (fspath directory) ;;
  let output := ["# Directory structure for `" +:+ base +:+ "`"] in
  output <-
    walk_dir (Z.to_nat (max_depth + 1)) exclude_dirs show_file_preview preview_lines
      (fspath directory) 0 output ;;
  let output := PyStr.join PyStr.nl output in
  let directory_desc_path :=
    PosixPath.joinstr (as_path output_path) "README_1_directory_structure.txt" in
  Os.write_text directory_desc_path output.

(** A call of [describe_directory_structure]: the parameters [directory]
    and [output_path] have no default, so a call that leaves [output_path]
    out raises TypeError when the arguments are bound; [exclude_dirs]
    defaults to [None], [max_depth] to 3, [show_file_preview] to [False]
    and [preview_lines] to 3. *)
Definition call_describe_directory_structure (directory : pathlike)
    (output_path : option pathlike) (exclude_dirs : option (list string)) : Py unit :=
  match output_path with
  | Some output_path =>
      describe_directory_structure directory output_path exclude_dirs 3 false 3
  | None =>
      raise TypeError
        "describe_directory_structure() missing 1 required positional argument: 'output_path'"
  end.

(** [p.replace(...)] on a [Path]: the method takes the target alone and
    renames the file to it; [args] are the arguments of the call. *)
Definition Path_replace (p : Path) (args : list string) : Py Path :=
  match args with
  | [target] =>
      Os.rename p (PosixPath.of_str target) ;;
      ret (PosixPath.of_str target)
  | _ =>
      raise TypeError
        ("Path.replace() takes 2 positional arguments but " +:+
         pretty (S (length args)) +:+ " were given")
  end.

Definition summary_prompt (code : string) : string :=
  text_of_lines [
    "You're a Python code summarizer. Read the file content and briefly describe at a high level what it contains in 1–3 sentences. You wrote this code and are certain about your summary.";
    "    " +:+ PyStr.take_chars 2000 code;
    "            ";
    "            " ].

Definition processes_prompt (code : string) : string :=
  text_of_lines [
    "You're a Python code summarizer. Read the file content and scan for any user defined function calling or any other detailed processes. Keep track of the order of function calls. Additionally Describe the identified processes in 2–4 sentences. You wrote this code and are certain about your summary.";
    "    " +:+ PyStr.take_chars 2000 code;
    "            ";
    "            " ].

Definition directory_prompt (job_summaries : string) : string :=
  text_of_lines [
    "You're a Python code summarizer. Read the file that explains what each python script in the directory contains and briefly describe what the entire directory does holistically, in 2–4 sentences. You wrote this code and are certain about your summary.";
    job_summaries +:+ " ";
    "        " ].

(** One turn of the loop of [summarize_directory]. *)
Definition summarize_one (model : string) (summary_txt : string) (py_file : Path)
    : Py string :=
  try_except
    (code <- Os.read_text py_file ;;
     response <- chat model (summary_prompt code) ;;
     let file_summary := PyStr.strip response in
     response <- chat model (processes_prompt code) ;;
     let file_processes := PyStr.strip response in
     shown <- Path_replace py_file ["auto_docu_output/"; ""] ;;
     ret (summary_txt +:+
          text_of_lines [
            "### " +:+ PosixPath.to_str shown;
            "file_summary: " +:+ file_summary;
            "file_processes: " +:+ file_processes;
            "";
            "" ]))
    (fun e =>
       shown <- Path_replace py_file ["auto_docu_output/"; ""] ;;
       ret (summary_txt +:+
            text_of_lines [
              "### " +:+ PosixPath.to_str shown;
              "[Error reading or summarizing file: " +:+ str_of_exn e +:+ "]";
              "";
              "" ])).

Definition summarize_directory (directory : pathlike)
    (exclude_dirs : option (list string)) (model : string) : Py unit :=
  call_describe_directory_structure directory None None ;;
  py_files <- find_all_python_files directory exclude_dirs ;;
  summary_txt <- for_fold py_files "" (summarize_one model) ;;
  let job_summary_path :=
    PosixPath.joinstr (as_path directory) "README_3_job_summaries.txt" in
  Os.write_text job_summary_path
    (text_of_lines ["# Codebase Summary"; ""; ""] +:+ summary_txt) ;;
  directory_summary <-
    try_except
      (job_summaries <- Os.read_text job_summary_path ;;
       response <- chat model (directory_prompt job_summaries) ;;
       ret (PyStr.strip response))
      (fun e =>
         ret (text_of_lines [
                "###";
                "[Error reading or summarizing directory: " +:+ str_of_exn e +:+ "]";
                "";
                "" ])) ;;
  Os.write_text
    (PosixPath.joinstr (as_path directory) "README_2_directory_summary.txt")
    (text_of_lines ["# Directory Summary"; ""; ""] +:+ directory_summary) ;;
  print "Summary written to README_summary.txt".

Definition readme_prompt (combined_description : string) : string :=
  text_of_lines [
    "";
    "You are an expert software documentarian. You are given descriptions of various Python files that are part of a project.";
    "Using the descriptions below, create a professional, helpful, and clean README.md for the project that would be suitable for GitHub.";
    "";
    "Descriptions:";
    combined_description;
    "";
    "The README should include:";
    "- A project title";
    "- A brief description of what the project does";
    "- Installation or setup instructions (generic, if details are not available)";
    "- An overview of the directory structure";
    "- A section briefly explaining the role of each major Python file";
    "- Usage examples if possible";
    "- Any other relevant GitHub-style sections";
    "";
    "Output ONLY the markdown content of the README.";
    "    " ].

(** [output_path + '/README.md']: defined for a [str], a TypeError for a
    [Path]. *)
Definition add_str (x : pathlike) (s : string) : Py string :=
  match x with
  | PStr a => ret (a +:+ s)
  | PPath _ =>
      raise TypeError "unsupported operand type(s) for +: 'PosixPath' and 'str'"
  end.

Definition generate_readme (txt_dir output_path : pathlike) (model : string) : Py unit :=
  listed <- Os.listdir (as_path txt_dir) ;;
  txt_contents <-
    for_fold (merge_sort String.le listed) [] (fun txt_contents filename =>
      if PyStr.endswith filename ".txt" then
        let filepath := Os.path_join (fspath txt_dir) filename in
        text <- Os.read_text (PosixPath.of_str filepath) ;;
        ret (txt_contents ++ [text])
      else ret txt_contents) ;;
  match txt_contents with
  | [] => raise ValueError "No .txt files found in the directory."
  | _ =>
      let combined_description :=
        PyStr.join (PyStr.nl +:+ PyStr.nl) txt_contents in
      response <- chat model (readme_prompt combined_description) ;;
      let result := PyStr.strip response in
      readme_path <- add_str output_path "/README.md" ;;
      Os.write_text (PosixPath.of_str readme_path) (PyStr.strip result) ;;
      print ("README generated at " +:+ fspath output_path)
  end.

(** *** auto_docu.py *)

(** [exclude_dirs + ['venv', '__pycache__']]: list concatenation, a
    TypeError when [exclude_dirs] is [None]. *)
Definition add_default_excludes (exclude_dirs : option (list string))
    : Py (list string) :=
  match exclude_dirs with
  | Some l => ret (l ++ ["venv"; "__pycache__"])
  | None =>
      raise TypeError "unsupported operand type(s) for +: 'NoneType' and 'list'"
  end.

Definition orchestrate_all (directory : string) (exclude_dirs : option (list string))
    (commenting_style model : string) : Py unit :=
  let commenting_style := PyStr.replace commenting_style "commenting" "" in
  let auto_docu_path := PosixPath.of_str (directory +:+ "/auto_docu_output") in
  print ("Scanning directory: " +:+ directory) ;;
  exclude_dirs <- add_default_excludes exclude_dirs ;;
  all_files <- find_all_python_files (PStr directory) (Some exclude_dirs) ;;
  for_each all_files (fun f => print (PosixPath.name f)) ;;
  print (PyStr.nl +:+ "Adding {" +:+ commenting_style +:+ "} comments...") ;;
  for_each all_files (fun file_path =>
    print (PosixPath.to_str file_path) ;;
    auto_comment file_path auto_docu_path model commenting_style) ;;
  print (PyStr.nl +:+ "Generating docstrings...") ;;
  all_files <- find_all_python_files (PStr (PosixPath.to_str auto_docu_path)) None ;;
  for_each all_files (fun file_path =>
    print (PosixPath.to_str file_path) ;;
    generate_docstring_suggestions (PosixPath.to_str file_path)
      (PosixPath.to_str auto_docu_path) model) ;;
  print (PyStr.nl +:+ " Describing directory...") ;;
  call_describe_directory_structure (PStr directory) (Some (PPath auto_docu_path))
    (Some exclude_dirs) ;;
  print (PyStr.nl +:+ "Summarizing directory...") ;;
  summarize_directory (PPath auto_docu_path) (Some exclude_dirs) model ;;
  print "Creating comprehensive README file..." ;;
  generate_readme (PPath auto_docu_path) (PPath auto_docu_path) "llama3.1:8b" ;;
  print (PyStr.nl +:+ "Done!").

End Pipeline.

(** ** Definitions the statements use *)

(** The path [get_auto_docu_path] builds: every component of [src] below
    [new_branch_root]. *)
Definition mirrored (src new_branch_root : Path) : Path :=
  mkPath (anchor new_branch_root) (names new_branch_root ++ names src).

(** The directory it makes for it. *)
Definition mirrored_dir (src new_branch_root : Path) : Path :=
  mkPath (anchor new_branch_root) (names new_branch_root ++ removelast (names src)).

(** What the list of docstrings holds for one function: the reply of the
    model to the request for that function, or the placeholder when that
    request raised. [tr] is the trace at the time of the request. *)
Definition docstring_for (ollama_chat : list event -> string -> string -> result string)
    (model : string) (item : ast * string) (doc : string) : Prop :=
  exists tr,
    ollama_chat tr model (docstring_prompt item.2) = Ok doc \/
    ((exists e, ollama_chat tr model (docstring_prompt item.2) = Raise e) /\
     doc = todo_docstring).
(** The verdict of the style comparison, read off the reply: whether the
    lowercased reply contains [different]; a call that raised counts as no. *)
Definition verdict (reply : result string) : bool :=
  match reply with
  | Ok text => PyStr.contains "different" (PyStr.lower text)
  | Raise _ => false
  end.

(** A world in which the mirrored file of [src] can be written at once:
    [src] is a regular file, every directory down to the mirrored directory
    is there, and no directory stands at the mirrored path. *)
Definition settled (src root : Path) (w : World) : Prop :=
  Os.is_file_entry (Os.entry_at (fs w) (Os.resolve w src)) = true /\
  (forall i, 0 < i <= length (Os.resolve w (mirrored_dir src root)) ->
     Os.entry_at (fs w) (take i (Os.resolve w (mirrored_dir src root))) = Some Dir) /\
  Os.entry_at (fs w) (Os.resolve w (mirrored src root)) <> Some Dir.
(** A computation that writes nothing: whatever it returns or raises, the
    file system and the working directory are as before and the trace has
    no further write. *)
Definition quiet {A} (m : Py A) : Prop :=
  forall w w' r, m w = (w', r) ->
    fs w' = fs w /\ cwd w' = cwd w /\ writes_of (trace w') = writes_of (trace w).
(** A node occurs in a tree: it is the tree, or it occurs in a child. *)
Inductive occurs_in (x : ast) : ast -> Prop :=
| occurs_here : occurs_in x x
| occurs_below (t c : ast) :
    c ∈ Ast.iter_child_nodes t -> occurs_in x c -> occurs_in x t.

(** ** Concrete inputs *)

Module Sample.

(** The layout the docstring of [get_auto_docu_path] speaks of: the file
    A/B/C.py, to be mirrored under A/D. *)
Definition abc_fs : gmap (list string) entry :=
  <[ ["A"; "B"; "C.py"] := File "x = 1" ]>
    (<[ ["A"; "B"] := Dir ]> (<[ ["A"] := Dir ]> ∅)).

Definition abc_world : World := mkWorld abc_fs [] [].

Definition abc_src : Path := mkPath false ["A"; "B"; "C.py"].

Definition abc_root : Path := mkPath false ["A"; "D"].


(** A file that holds a fenced reply of the model. *)
Definition fenced_text : string :=
  text_of_lines ["```Python"; "x = 1"; "  ```  "].

Definition fenced_world : World :=
  mkWorld (<[ ["out"; "C.py"] := File fenced_text ]> (<[ ["out"] := Dir ]> ∅)) [] [].

Definition fenced_path : Path := mkPath false ["out"; "C.py"].

(** A model that finds every style similar. *)
Definition similar_oracle (tr : list event) (model prompt : string) : result string :=
  Ok "similar".

(** A class with a method, then a function: neither has a docstring. *)
Definition class_source : string :=
  text_of_lines [
    "class A:";
    "    def m(self):";
    "        return 1";
    "def f():";
    "    return 2" ].

(** The function definitions of [class_source], as [ast.parse] gives them:
    [m] on lines 2 to 3 at column 4, its body on line 3; [f] on lines 4 to
    5 at column 0, its body on line 5. *)
Definition def_m : ast :=
  FunctionDef "m" 2 3 4 [Node 0 [Node 2 []]] [Node 3 [Constant 3 None]] [].

Definition def_f : ast :=
  FunctionDef "f" 4 5 0 [Node 0 []] [Node 5 [Constant 5 None]] [].

(** The module: the class statement, which holds [m], then [f]. *)
Definition class_tree : ast := Node 0 [Node 1 [def_m]; def_f].

Definition class_parse (source : string) : result ast := Ok class_tree.

Definition doc_m : string := PyStr.triple_quote +:+ "M" +:+ PyStr.triple_quote.

Definition doc_f : string := PyStr.triple_quote +:+ "F" +:+ PyStr.triple_quote.

(** A model that answers the request for [m] and fails on every other. *)
Definition failing_oracle (tr : list event) (model prompt : string) : result string :=
  if PyStr.contains "def m" prompt then Ok doc_m
  else Raise (mkExn ModelError "connection refused").

Definition class_world : World :=
  mkWorld (<[ ["out"; "a.py"] := File class_source ]> (<[ ["out"] := Dir ]> ∅)) [] [].

(** A project of one file, and a model that finds its comments light, the
    styles very different, and returns fenced code on the next two requests
    and a docstring on every later one. *)
Definition proj_world : World :=
  mkWorld (<[ ["proj"; "a.py"] := File class_source ]> (<[ ["proj"] := Dir ]> ∅)) [] [].

Definition fenced (code : string) : string :=
  text_of_lines ["```python"; code; "```"].

Definition eager_oracle (tr : list event) (model prompt : string) : result string :=
  match length (chats_of tr) with
  | 0 => Ok "light commenting"
  | 1 => Ok "Very different"
  | 2 => Ok (fenced class_source)
  | 3 => Ok (fenced class_source)
  | _ => Ok doc_m
  end.

(** A model that answers every request with the same fenced text, in which
    the word different occurs. *)
Definition different_oracle (tr : list event) (model prompt : string) : result string :=
  Ok (fenced "# a different style").

Definition proj_src : Path := mkPath false ["proj"; "a.py"].

Definition proj_out : Path := mkPath false ["proj"; "auto_docu_output"].

End Sample.

(** ** Further definitions the statements use *)

(** The nodes of a tree, each one once: the node, then the nodes of its
    children, depth first. *)
Fixpoint nodes_of (t : ast) : list ast :=
  t :: match t with
       | FunctionDef _ _ _ _ args body trailer =>
           flat_map nodes_of args ++ flat_map nodes_of body ++ flat_map nodes_of trailer
       | Expr _ value => nodes_of value
       | Constant _ _ => []
       | Node _ children => flat_map nodes_of children
       end.

(** A function definition without a docstring: the test of the loop of
    [extract_functions_missing_docstrings]. *)
Definition missing_docstring (node : ast) : bool :=
  Ast.is_function_def node && Ast.lacks_docstring node.

(** A text without a line boundary in it: what one item of
    [str.splitlines] can be. *)
Fixpoint plain_line (s : string) : bool :=
  match s with
  | EmptyString => true
  | String c s' => negb (PyStr.is_linebreak c) && plain_line s'
  end.

(** The error of reading the local variable [new_path] of [auto_comment]
    before anything was assigned to it. *)
Definition unbound_new_path : exn :=
  mkExn UnboundLocalError
    "cannot access local variable 'new_path' where it is not associated with a value".

(** One turn of the loop of [walk_dir], for the item [item] of the listing
    of [current_path]; [levels] is the number of levels left below. *)
Definition walk_dir_item (levels : nat) (exclude_dirs : option (list string))
    (show_file_preview : bool) (preview_lines : Z)
    (current_path : string) (indent_level : nat)
    (output : list string) (item : string) : Py (list string) :=
  let full_path := Os.path_join current_path item in
  let indent := PyStr.repeat_str "  " indent_level in
  is_d <- Os.is_dir (PosixPath.of_str full_path) ;;
  if is_d then
    excluded <- member_of_optional item exclude_dirs ;;
    if excluded || PyStr.startswith item "." then ret output
    else
      walk_dir levels exclude_dirs show_file_preview preview_lines
        full_path (S indent_level) (output ++ [indent +:+ "- " +:+ item +:+ "/"])
  else if PyStr.startswith item "." then ret output
  else
    let output := output ++ [indent +:+ "- " +:+ item] in
    if show_file_preview && previewable item then
      try_except
        (text <- Os.read_text (PosixPath.of_str full_path) ;;
         let preview :=
           PyStr.strip
             (PyStr.concat (PyList.slice 0 preview_lines (PyStr.readlines text))) in
         if PyStr.nonempty preview
         then ret (output ++ [preview_block indent preview])
         else ret output)
        (fun e =>
           ret (output ++ [indent +:+ "    [Preview Error: " +:+ str_of_exn e +:+ "]"]))
    else ret output.

(** Whether [os.path.isdir] holds of the item [item] of [current_path]. *)
Definition item_is_dir (w : World) (current_path item : string) : bool :=
  Os.is_dir_entry
    (Os.entry_at (fs w)
       (Os.resolve w (PosixPath.of_str (Os.path_join current_path item)))).


(** The first line of the listing. *)
Definition listing_header (base : string) : string :=
  "# Directory structure for `" +:+ base +:+ "`".

(** The error of [item in exclude_dirs] when [exclude_dirs] is [None]. *)
Definition none_not_iterable : exn :=
  mkExn TypeError "argument of type 'NoneType' is not iterable".

(** The error of [py_file.replace('auto_docu_output/', '')] on a [Path]. *)
Definition replace_arity : exn :=
  mkExn TypeError "Path.replace() takes 2 positional arguments but 3 were given".

(** The error of [output_path + '/README.md'] on a [Path]. *)
Definition path_plus_str : exn :=
  mkExn TypeError "unsupported operand type(s) for +: 'PosixPath' and 'str'".

(** The error of [generate_readme] on a directory without a .txt file. *)
Definition no_txt_files : exn :=
  mkExn ValueError "No .txt files found in the directory.".

(** The world [w'] differs from [w] at the path [p] only: the working
    directory is the same, every entry of the file system other than the
    one [p] names is still there and holds what it held, and every write
    the trace has gained went to the entry [p] names. *)
Definition stays_within (p : Path) (w w' : World) : Prop :=
  cwd w' = cwd w /\
  (forall k e, k <> Os.resolve w p ->
     Os.entry_at (fs w) k = Some e -> Os.entry_at (fs w') k = Some e) /\
  exists ks,
    writes_of (trace w') = writes_of (trace w) ++ ks /\
    Forall (fun k => k = Os.resolve w p) ks.

(** A computation confined to the path [p], whatever it returns or
    raises. *)
Definition confined {A} (p : Path) (m : Py A) : Prop :=
  forall w w' r, m w = (w', r) -> stays_within p w w'.

(** ** Further concrete inputs *)

Module Inputs.

(** A file whose only function has a docstring, and its tree: [g] on lines
    1 to 3, the docstring on line 2, the body proper on line 3. *)
Definition documented_source : string :=
  text_of_lines [
    "def g():";
    "    " +:+ PyStr.triple_quote +:+ "G" +:+ PyStr.triple_quote;
    "    return 3" ].

Definition def_g : ast :=
  FunctionDef "g" 1 3 0 [Node 0 []]
    [Expr 2 (Constant 2 (Some "G")); Node 3 [Constant 3 None]] [].

Definition documented_tree : ast := Node 0 [def_g].

Definition documented_parse (source : string) : result ast := Ok documented_tree.

Definition documented_world : World :=
  mkWorld (<[ ["out"; "g.py"] := File documented_source ]> (<[ ["out"] := Dir ]> ∅)) [] [].

(** A parser that rejects what it is given. *)
Definition broken_parse (source : string) : result ast :=
  Raise (mkExn SyntaxError "invalid syntax").

(** What a prompt of [auto_comment] asks for, told by how it starts. *)
Definition asks_comparison (prompt : string) : bool :=
  PyStr.startswith prompt "Answer how".

Definition asks_removal (prompt : string) : bool :=
  PyStr.startswith prompt
    (" You are a Python commenting assistant. " +:+ PyStr.nl +:+
     "        Read the following code and return the same code, but remove").

Definition asks_recomment (prompt : string) : bool :=
  PyStr.startswith prompt
    (" You are a Python commenting assistant. " +:+ PyStr.nl +:+
     "        Read the following code and return the same code, but with").

(** A model that finds the styles different and fails on the request to
    remove the comments. *)
Definition no_removal_oracle (tr : list event) (model prompt : string) : result string :=
  if asks_comparison prompt then Ok "Different"
  else if asks_removal prompt then Raise (mkExn ModelError "connection refused")
  else Ok "light".

(** A model that finds the styles different, returns fenced code without
    comments, and fails on the request to add comments. *)
Definition no_recomment_oracle (tr : list event) (model prompt : string) : result string :=
  if asks_comparison prompt then Ok "Different"
  else if asks_removal prompt then Ok (Sample.fenced "x = 1")
  else if asks_recomment prompt then Raise (mkExn ModelError "connection refused")
  else Ok "light".

(** A directory [proj] with a hidden directory, two files and a package
    directory. *)
Definition tree_world : World :=
  mkWorld
    (<[ ["proj"; "pkg"; "m.py"] := File "y = 2" ]>
       (<[ ["proj"; "pkg"] := Dir ]>
          (<[ ["proj"; "b.py"] := File "x = 1" ]>
             (<[ ["proj"; "a.txt"] := File "notes" ]>
                (<[ ["proj"; ".git"] := Dir ]>
                   (<[ ["out"] := Dir ]> (<[ ["proj"] := Dir ]> ∅)))))))
    [] [].

(** A directory [flat] that holds files only, one of them hidden. *)
Definition flat_world : World :=
  mkWorld
    (<[ ["flat"; "b.py"] := File "x = 1" ]>
       (<[ ["flat"; "a.txt"] := File "notes" ]>
          (<[ ["flat"; ".env"] := File "KEY=1" ]>
             (<[ ["out"] := Dir ]> (<[ ["flat"] := Dir ]> ∅)))))
    [] [].

(** A directory [docs] without a Python file. *)
Definition docs_world : World :=
  mkWorld (<[ ["docs"; "notes.txt"] := File "notes" ]> (<[ ["docs"] := Dir ]> ∅)) [] [].

End Inputs.

(** * Properties *)

(** ** List and string helpers *)

Lemma drop_last_snoc {A} (l : list A) (x : A) : PyList.drop_last (l ++ [x]) = l.
Proof.
  unfold PyList.drop_last, PyList.slice, PyList.clamp_index.
  rewrite length_app. simpl.
  replace (Z.to_nat (Z.max 0 (Z.min (Z.of_nat (length l + 1)) 0))) with 0 by lia.
  replace (Z.to_nat (Z.max 0 (Z.min (Z.of_nat (length l + 1)) (-1 + Z.of_nat (length l + 1)))))
    with (length l) by lia.
  rewrite drop_0, Nat.sub_0_r. by rewrite take_app_length.
Qed.

(** ** The fence cleaner *)

(** What [cleaned_text] keeps of the lines of a text: all of them but a
    leading fence line and a trailing fence line. *)
Lemma cleaned_text_decompose (text : string) :
  let lines := PyStr.splitlines text in
  exists first kept final,
    lines = first ++ kept ++ final /\
    ((exists l, first = [l] /\ PyStr.lower (PyStr.strip l) = "```python") \/
     (first = [] /\ forall l rest, lines = l :: rest ->
                     PyStr.lower (PyStr.strip l) <> "```python")) /\
    ((exists l, final = [l] /\ PyStr.strip l = "```") \/
     (final = [] /\ forall init l, kept = init ++ [l] -> PyStr.strip l <> "```")) /\
    cleaned_text text = PyStr.join PyStr.nl kept +:+ PyStr.nl.
Proof.
  intros lines. unfold cleaned_text. fold lines.
  assert (Hfirst : exists first mid,
    lines = first ++ mid /\
    (if opens_fence lines then PyList.drop_first lines else lines) = mid /\
    ((exists l, first = [l] /\ PyStr.lower (PyStr.strip l) = "```python") \/
     (first = [] /\ forall l rest, lines = l :: rest ->
                     PyStr.lower (PyStr.strip l) <> "```python"))).
  { destruct lines as [|l rest] eqn:E; simpl.
    - exists [], []. repeat split; try done. right. split; [done|]. intros; discriminate.
    - destruct (String.eqb _ _) eqn:Heq.
      + apply String.eqb_eq in Heq. exists [l], rest. repeat split; eauto.
      + apply String.eqb_neq in Heq. exists [], (l :: rest). repeat split; try done.
        right. split; [done|]. intros l' rest' [= -> _]. done. }
  destruct Hfirst as (first & mid & Hl & -> & Hf).
  unfold closes_fence.
  destruct (last mid) as [x|] eqn:Hlast.
  - apply last_Some in Hlast as [init ->].
    destruct (String.eqb (PyStr.strip x) "```") eqn:Heq.
    + apply String.eqb_eq in Heq. rewrite drop_last_snoc.
      exists first, init, [x]. repeat split; eauto.
    + apply String.eqb_neq in Heq.
      exists first, (init ++ [x]), []. rewrite app_nil_r. repeat split; eauto.
      right. split; [done|]. intros init' l' Hx. apply app_inj_tail in Hx as [_ ->]. done.
  - apply last_None in Hlast as ->.
    exists first, [], []. repeat split; eauto.
    right. split; [done|]. intros [|??] ? ?; discriminate.
Qed.

(** What [clean_markdown_code_fence] does to a world in which the file is
    there: one read, one write of the cleaned text. *)
Lemma clean_markdown_code_fence_run (w : World) (file_path : Path) (raw : string) :
  Os.entry_at (fs w) (Os.resolve w file_path) = Some (File raw) ->
  let k := Os.resolve w file_path in
  let text := cleaned_text (PyStr.universal_newlines raw) in
  clean_markdown_code_fence file_path w =
    (mkWorld (<[k := File text]> (fs w)) (cwd w)
             (trace w ++ [EvRead k; EvWrite k text]), Ok tt).
Proof.
  intros H k text. subst k text.
  unfold clean_markdown_code_fence, bind, Os.read_text, Os.write_text, Os.resolve in *.
  rewrite H. cbn [fs cwd trace]. rewrite H.
  by rewrite <- app_assoc.
Qed.

(** C10. [clean_markdown_code_fence] removes the first line of the file
    exactly when that line, stripped and lowercased, is the opening fence
    of a Python block; it then removes the last of the lines that remain
    exactly when that line strips to a closing fence; the lines it keeps are
    the other lines, unchanged and in order; and it writes them back joined
    by newlines with one newline appended, so that an empty file becomes a
    single newline. *)
Theorem clean_markdown_code_fence_spec (w : World) (file_path : Path) (raw : string) :
  Os.entry_at (fs w) (Os.resolve w file_path) = Some (File raw) ->
  let k := Os.resolve w file_path in
  let lines := PyStr.splitlines (PyStr.universal_newlines raw) in
  exists first kept final,
    lines = first ++ kept ++ final /\
    ((exists l, first = [l] /\ PyStr.lower (PyStr.strip l) = "```python") \/
     (first = [] /\ forall l rest, lines = l :: rest ->
                     PyStr.lower (PyStr.strip l) <> "```python")) /\
    ((exists l, final = [l] /\ PyStr.strip l = "```") \/
     (final = [] /\ forall init l, kept = init ++ [l] -> PyStr.strip l <> "```")) /\
    clean_markdown_code_fence file_path w =
      (mkWorld (<[k := File (PyStr.join PyStr.nl kept +:+ PyStr.nl)]> (fs w)) (cwd w)
               (trace w ++ [EvRead k; EvWrite k (PyStr.join PyStr.nl kept +:+ PyStr.nl)]),
       Ok tt) /\
    (raw = "" -> PyStr.join PyStr.nl kept +:+ PyStr.nl = PyStr.nl).
Proof.
  intros H k lines.
  destruct (cleaned_text_decompose (PyStr.universal_newlines raw))
    as (first & kept & final & Hl & Hf & Hc & Htext).
  exists first, kept, final. repeat split; try done.
  - rewrite <- Htext. by apply clean_markdown_code_fence_run.
  - intros ->. by rewrite <- Htext.
Qed.

Lemma clean_markdown_code_fence_spec_witness :
  Os.entry_at (fs Sample.fenced_world)
    (Os.resolve Sample.fenced_world Sample.fenced_path) = Some (File Sample.fenced_text) /\
  exists w', clean_markdown_code_fence Sample.fenced_path Sample.fenced_world = (w', Ok tt).
Proof.
  split; [reflexivity|].
  destruct (clean_markdown_code_fence_spec Sample.fenced_world Sample.fenced_path
              Sample.fenced_text eq_refl)
    as (first & kept & final & _ & _ & _ & Hrun & _).
  eexists. exact Hrun.
Defined.

(** ** Mirrored output paths *)

Lemma split_on_no_sep (c : string) :
  PyStr.contains "/" c = false -> PyStr.split_on "/" c = [c].
Proof.
  induction c as [|a c IH]; [done|].
  cbn [PyStr.contains PyStr.split_on String.prefix].
  destruct (Ascii.eqb a "/") eqn:Ha.
  - apply Ascii.eqb_eq in Ha as ->. destruct c; discriminate.
  - intros H. apply orb_false_iff in H as [_ H]. by rewrite (IH H).
Qed.

Lemma startswith_no_sep (c : string) :
  PyStr.contains "/" c = false -> PyStr.startswith c "/" = false.
Proof.
  unfold PyStr.startswith. destruct c as [|a c]; [done|].
  cbn [PyStr.contains]. intros H. by apply orb_false_iff in H as [H _].
Qed.

(** [Path(c)] of a single component is the path of that component. *)
Lemma of_str_valid_name (c : string) :
  PosixPath.valid_name c = true -> PosixPath.of_str c = mkPath false [c].
Proof.
  unfold PosixPath.valid_name. intros H.
  apply andb_true_iff in H as [Hreal Hsep]. apply negb_true_iff in Hsep.
  unfold PosixPath.of_str.
  rewrite (startswith_no_sep _ Hsep), (split_on_no_sep _ Hsep).
  rewrite filter_cons, filter_nil. by rewrite decide_True.
Qed.

Lemma of_str_root : PosixPath.of_str "/" = mkPath true [].
Proof. reflexivity. Qed.

Lemma removelast_last_app {A} (l : list A) (x : A) :
  last l = Some x -> removelast l ++ [x] = l.
Proof.
  intros H. apply last_Some in H as [l' ->].
  by rewrite removelast_last.
Qed.

(** A well-formed path with a component has a valid name. *)
Lemma well_formed_name (p : Path) :
  PosixPath.well_formed p -> names p <> [] ->
  PosixPath.valid_name (PosixPath.name p) = true /\
  last (names p) = Some (PosixPath.name p).
Proof.
  unfold PosixPath.well_formed, PosixPath.name. intros Hwf Hne.
  destruct (last (names p)) as [x|] eqn:Hlast.
  - split; [|done]. simpl. apply last_Some in Hlast as [l' Hl].
    rewrite Hl in Hwf. apply Forall_app in Hwf as [_ Hx]. by inversion Hx.
  - by apply last_None in Hlast.
Qed.


(** When [src] is a regular file, the call makes the directory and returns
    [mirrored src new_branch_root], or fails as [mkdir] fails. *)
Lemma get_auto_docu_path_file (w : World) (src new_branch_root : Path) :
  PosixPath.well_formed src ->
  names src <> [] ->
  Os.is_file_entry (Os.entry_at (fs w) (Os.resolve w src)) = true ->
  get_auto_docu_path src new_branch_root w =
    (Os.mkdir_parents_exist_ok (mirrored_dir src new_branch_root) ;;
     ret (mirrored src new_branch_root)) w.
Proof.
  intros Hwf Hne Hfile.
  destruct (well_formed_name src Hwf Hne) as [Hname Hlast].
  unfold get_auto_docu_path, bind, Os.is_file. rewrite Hfile. cbn [negb].
  assert (Hsub : exists part0,
    first_part src w = (w, Ok part0) /\
    PosixPath.relative_to (PosixPath.parent src)
      (PosixPath.parent (PosixPath.of_str part0)) =
    Some (mkPath false (removelast (names src)))).
  { unfold first_part, PosixPath.parts, PosixPath.relative_to, PosixPath.parent.
    destruct src as [[] ns]; cbn [anchor names] in *.
    - exists "/". split; [done|]. by rewrite of_str_root.
    - destruct ns as [|c ns]; [done|]. exists c. split; [done|].
      apply Forall_cons in Hwf as [Hc _]. by rewrite (of_str_valid_name c Hc). }
  destruct Hsub as (part0 & -> & ->).
  unfold ret.
  replace (PosixPath.joinpath new_branch_root (mkPath false (removelast (names src))))
    with (mirrored_dir src new_branch_root) by done.
  destruct (Os.mkdir_parents_exist_ok _ w) as [w' [[]|e]]; [|done].
  unfold PosixPath.joinstr. rewrite (of_str_valid_name _ Hname).
  unfold PosixPath.joinpath, mirrored, mirrored_dir. cbn [anchor names].
  by rewrite <- app_assoc, (removelast_last_app _ _ Hlast).
Qed.

(** A relative path without components names the working directory, and an
    anchored one the root: when such a path is taken for a regular file,
    the call still returns no path. *)
Lemma get_auto_docu_path_no_name (w : World) (src new_branch_root : Path) :
  names src = [] ->
  forall w' p, get_auto_docu_path src new_branch_root w <> (w', Ok p).
Proof.
  intros Hnil w' p. unfold get_auto_docu_path, bind, Os.is_file, Os.resolve.
  destruct src as [[] ns]; cbn [anchor names] in *; subst ns; cbn; [done|].
  by destruct (Os.is_file_entry _).
Qed.

(** C4. On the layout its own docstring gives, [get_auto_docu_path] does
    not return the mirrored path A/D/B/C.py for the file A/B/C.py and the
    output root A/D: the project root it computes is the parent of the first
    component, which is the empty relative path and not A, so every
    component of the source path, A included, is repeated below the output
    root, and the directories A/D, A/D/A and A/D/A/B are made. *)
Theorem get_auto_docu_path_docstring_layout :
  let run := get_auto_docu_path Sample.abc_src Sample.abc_root Sample.abc_world in
  snd run = Ok (mkPath false ["A"; "D"; "A"; "B"; "C.py"]) /\
  trace (fst run) = [EvMkdir ["A"; "D"]; EvMkdir ["A"; "D"; "A"]; EvMkdir ["A"; "D"; "A"; "B"]] /\
  snd run <> Ok (mkPath false ["A"; "D"; "B"; "C.py"]).
Proof. vm_compute. repeat split. discriminate. Qed.





(** ** The summariser and the orchestrator *)

(** C2. [summarize_directory] raises TypeError at its first statement,
    whatever the directory: it calls [describe_directory_structure] with the
    directory alone, and that function has a second parameter without a
    default. No file is summarised, no model call is made and neither
    README_3_job_summaries.txt nor README_2_directory_summary.txt is
    written: the world is the one the call started from. *)
Theorem summarize_directory_raises
    (ollama_chat : list event -> string -> string -> result string)
    (w : World) (directory : pathlike) (exclude_dirs : option (list string))
    (model : string) :
  summarize_directory ollama_chat directory exclude_dirs model w =
    (w, Raise (mkExn TypeError
       "describe_directory_structure() missing 1 required positional argument: 'output_path'")).
Proof.
  unfold summarize_directory, bind.
  unfold call_describe_directory_structure, raise.
  reflexivity.
Qed.

(** C8. With [exclude_dirs = None], its default, [orchestrate_all] raises
    TypeError where it appends the default exclusions: by then it has
    printed one line and nothing else has happened, so no file was scanned
    and no model call was made. With a list the concatenation goes through,
    so only then can the pipeline go on. *)
Theorem orchestrate_all_without_excludes
    (ollama_chat : list event -> string -> string -> result string)
    (ast_parse : string -> result ast)
    (w : World) (directory commenting_style model : string) :
  orchestrate_all ollama_chat ast_parse directory None commenting_style model w =
    (mkWorld (fs w) (cwd w) (trace w ++ [EvPrint ("Scanning directory: " +:+ directory)]),
     Raise (mkExn TypeError "unsupported operand type(s) for +: 'NoneType' and 'list'")) /\
  (forall exclude_dirs : list string,
     add_default_excludes (Some exclude_dirs) w =
       (w, Ok (exclude_dirs ++ ["venv"; "__pycache__"]))).
Proof.
  split.
  - unfold orchestrate_all, bind at 1, print, emit.
    unfold bind, add_default_excludes, raise. reflexivity.
  - intros exclude_dirs. reflexivity.
Qed.

(** ** The comment normaliser *)

Lemma writes_of_app (tr tr' : list event) :
  writes_of (tr ++ tr') = writes_of tr ++ writes_of tr'.
Proof. induction tr as [|[] tr IH]; cbn; by rewrite ?IH. Qed.

Lemma chats_of_app (tr tr' : list event) :
  chats_of (tr ++ tr') = chats_of tr ++ chats_of tr'.
Proof. induction tr as [|[] tr IH]; cbn; by rewrite ?IH. Qed.

Lemma writes_of_prints (lines : list string) : writes_of (map EvPrint lines) = [].
Proof. by induction lines. Qed.

Lemma chats_of_prints (lines : list string) : chats_of (map EvPrint lines) = [].
Proof. by induction lines. Qed.

Section Normaliser.

Variable ollama_chat : list event -> string -> string -> result string.

(** The first [try] statement always completes: one model call, one line
    printed, the file system untouched. *)
Lemma classify_comments_run (w : World) (file_path : Path) (model code : string) :
  exists existing line,
    classify_comments ollama_chat file_path model code w =
      (mkWorld (fs w) (cwd w)
               (trace w ++ [EvChat model (style_prompt code); EvPrint line]),
       Ok existing).
Proof.
  unfold classify_comments, try_except, bind, chat, print, emit, ret.
  destruct (ollama_chat (trace w) model (style_prompt code)) as [reply|e];
    cbn [fs cwd trace]; rewrite <- app_assoc; eauto.
Qed.

(** The second [try] statement always completes as well: one model call,
    lines printed, and the verdict of the reply. *)
Lemma decide_needs_commenting_run (w : World) (file_path : Path)
    (model existing style : string) :
  exists lines,
    decide_needs_commenting ollama_chat file_path model existing style w =
      (mkWorld (fs w) (cwd w)
               (trace w ++ EvChat model (compare_prompt existing style) :: map EvPrint lines),
       Ok (verdict (ollama_chat (trace w) model (compare_prompt existing style)))).
Proof.
  unfold decide_needs_commenting, try_except, bind, chat, print, emit, ret.
  destruct (ollama_chat (trace w) model (compare_prompt existing style)) as [reply|e];
    cbn [fs cwd trace verdict].
  - eexists [_; _]. by rewrite <- !app_assoc.
  - eexists [_]. by rewrite <- !app_assoc.
Qed.

(** The [else] branch raises before it does anything. *)
Lemma keep_comments_raises (w : World) (file_path auto_docu_root : Path) (code : string) :
  keep_comments file_path auto_docu_root code w =
    (w, Raise (mkExn UnboundLocalError
       "cannot access local variable 'new_path' where it is not associated with a value")).
Proof. reflexivity. Qed.

(** C3. When the reply to the style comparison does not contain
    [different] (or the comparison call raised), [auto_comment] makes no
    further model call, as the claim says, but it does not write the
    original content to the mirrored path: it raises UnboundLocalError at
    the message that reads [new_path], and the file system is the one it
    started from. Two model calls were made and nothing was written. *)
Theorem auto_comment_same_style_raises (w w1 : World)
    (file_path auto_docu_root : Path) (model style raw existing : string) :
  Os.entry_at (fs w) (Os.resolve w file_path) = Some (File raw) ->
  classify_comments ollama_chat file_path model (PyStr.universal_newlines raw)
    (mkWorld (fs w) (cwd w) (trace w ++ [EvRead (Os.resolve w file_path)])) =
    (w1, Ok existing) ->
  (forall reply,
     ollama_chat (trace w1) model (compare_prompt existing style) = Ok reply ->
     PyStr.contains "different" (PyStr.lower reply) = false) ->
  exists w2,
    auto_comment ollama_chat file_path auto_docu_root model style w =
      (w2, Raise (mkExn UnboundLocalError
         "cannot access local variable 'new_path' where it is not associated with a value")) /\
    fs w2 = fs w /\
    writes_of (trace w2) = writes_of (trace w) /\
    length (chats_of (trace w2)) = length (chats_of (trace w)) + 2.
Proof.
  intros Hfile Hclass Hreply.
  set (w0 := mkWorld (fs w) (cwd w) (trace w ++ [EvRead (Os.resolve w file_path)])) in *.
  destruct (classify_comments_run w0 file_path model (PyStr.universal_newlines raw))
    as (existing' & line & Hrun).
  rewrite Hrun in Hclass. injection Hclass as <- <-.
  set (w1 := mkWorld (fs w0) (cwd w0) _) in *.
  destruct (decide_needs_commenting_run w1 file_path model existing' style)
    as (lines & Hdec).
  assert (Hv : verdict (ollama_chat (trace w1) model (compare_prompt existing' style)) = false).
  { destruct (ollama_chat (trace w1) model (compare_prompt existing' style))
      as [reply|e] eqn:E; [|done].
    by apply Hreply. }
  rewrite Hv in Hdec.
  eexists. split.
  - unfold auto_comment, bind at 1, Os.read_text. rewrite Hfile. fold w0.
    unfold bind at 1. rewrite Hrun. fold w1.
    unfold bind. rewrite Hdec. apply keep_comments_raises.
  - subst w1 w0. cbn [fs cwd trace].
    rewrite !writes_of_app, !chats_of_app. cbn [writes_of chats_of].
    rewrite writes_of_prints, chats_of_prints.
    rewrite !app_nil_r, !length_app. cbn. repeat split; lia.
Qed.

End Normaliser.

Lemma auto_comment_same_style_raises_witness :
  exists w2,
    auto_comment Sample.similar_oracle Sample.abc_src Sample.abc_root
      "llama3.1:8b" "moderate" Sample.abc_world =
      (w2, Raise (mkExn UnboundLocalError
         "cannot access local variable 'new_path' where it is not associated with a value")) /\
    fs w2 = fs Sample.abc_world /\
    writes_of (trace w2) = writes_of (trace Sample.abc_world) /\
    length (chats_of (trace w2)) = length (chats_of (trace Sample.abc_world)) + 2.
Proof.
  eapply (auto_comment_same_style_raises Sample.similar_oracle Sample.abc_world).
  - reflexivity.
  - vm_compute. reflexivity.
  - intros reply H. vm_compute in H. injection H as <-. reflexivity.
Defined.

(** ** The docstring inserter *)



(** The size of a node counts the node and the sizes of its children. *)
Lemma size_children (t : ast) :
  Ast.size t = S (list_sum (map Ast.size (Ast.iter_child_nodes t))).
Proof.
  destruct t; cbn [Ast.size Ast.iter_child_nodes].
  - rewrite !map_app, !list_sum_app. lia.
  - cbn. lia.
  - done.
  - done.
Qed.




Section Docstrings.

Variable ollama_chat : list event -> string -> string -> result string.
Variable ast_parse : string -> result ast.

(** One turn of the loop: one model call, the file system untouched, and
    one docstring more, the reply or the placeholder. *)
Lemma suggest_one_run (w : World) (model : string) (docstrings : list string)
    (item : ast * string) :
  exists w' doc,
    suggest_one ollama_chat model docstrings item w = (w', Ok (docstrings ++ [doc])) /\
    docstring_for ollama_chat model item doc /\
    fs w' = fs w /\ cwd w' = cwd w /\
    writes_of (trace w') = writes_of (trace w) /\
    length (chats_of (trace w')) = S (length (chats_of (trace w))).
Proof.
  destruct item as [node func_src].
  unfold suggest_one, suggest_docstring_with_ollama, try_except, bind, chat, print, emit, ret.
  cbn [fs cwd trace].
  destruct (ollama_chat _ model (docstring_prompt func_src)) as [doc|e] eqn:E;
    cbn [fs cwd trace].
  - eexists _, doc. split; [done|]. split; [eexists; left; exact E|].
    cbn [fs cwd trace]. rewrite !writes_of_app, !chats_of_app, !length_app. cbn.
    rewrite !app_nil_r. repeat split; lia.
  - eexists _, todo_docstring. split; [done|].
    split; [eexists; right; split; [exists e; exact E|done]|].
    cbn [fs cwd trace]. rewrite !writes_of_app, !chats_of_app, !length_app. cbn.
    rewrite !app_nil_r. repeat split; lia.
Qed.

(** The whole loop: it never stops early, whatever the model does. *)
Lemma suggest_all_run (missing : list (ast * string)) (w : World) (model : string)
    (docstrings : list string) :
  exists w' docs,
    for_fold missing docstrings (suggest_one ollama_chat model) w =
      (w', Ok (docstrings ++ docs)) /\
    Forall2 (docstring_for ollama_chat model) missing docs /\
    fs w' = fs w /\ cwd w' = cwd w /\
    writes_of (trace w') = writes_of (trace w) /\
    length (chats_of (trace w')) = length (chats_of (trace w)) + length missing.
Proof.
  revert w docstrings. induction missing as [|item missing IH]; intros w docstrings.
  - exists w, []. rewrite app_nil_r. cbn. repeat split; [constructor|lia].
  - destruct (suggest_one_run w model docstrings item)
      as (w1 & doc & Hone & Hdoc & Hfs & Hcwd & Hwr & Hch).
    destruct (IH w1 (docstrings ++ [doc]))
      as (w' & docs & Hall & Hdocs & Hfs' & Hcwd' & Hwr' & Hch').
    exists w', (doc :: docs). cbn [for_fold]. unfold bind. rewrite Hone, Hall.
    rewrite <- app_assoc. cbn [app length].
    repeat split; [by constructor|congruence..|lia].
Qed.



End Docstrings.


(** The run of the witness, evaluated: the request for [f] raises and [f]
    gets the placeholder, the request for [m] is answered, and both are
    written. *)
Example generate_docstring_suggestions_with_failure :
  let run := generate_docstring_suggestions Sample.failing_oracle Sample.class_parse
               "out/a.py" "out" "llama3.1:8b" Sample.class_world in
  snd run = Ok tt /\
  fs (fst run) !! ["out"; "a.py"] =
    Some (File (text_of_lines [
      "class A:";
      "    def m(self):";
      "        " +:+ Sample.doc_m;
      "        return 1";
      "    " +:+ todo_docstring;
      "def f():";
      "    return 2" ])).
Proof. vm_compute. done. Qed.

(** C1. On a class with a method followed by a function, the docstrings
    are not spliced in decreasing order of body-start lines and one of them
    lands at the wrong place. [ast.walk] is breadth first, so the list of
    functions is [f; m]; the loop over the reversed list splices [m] (body
    line 3) before [f] (body line 5); the first insertion moves every later
    line down by one, and the docstring of [f] is put before the line
    [def f():] and not before [return 2], the first line of its body. *)
Theorem insert_docstrings_class_then_function :
  let missing := functions_missing_docstrings Sample.class_source Sample.class_tree in
  map (fun item => Ast.node_name item.1) missing = ["f"; "m"] /\
  map (fun item => body_start item.1.1)
      (reverse (zip missing [Sample.doc_f; Sample.doc_m])) = [Ok 3%Z; Ok 5%Z] /\
  insert_docstrings Sample.class_source missing [Sample.doc_f; Sample.doc_m] =
    Ok (text_of_lines [
      "class A:";
      "    def m(self):";
      "        " +:+ Sample.doc_m;
      "        return 1";
      "    " +:+ Sample.doc_f;
      "def f():";
      "    return 2" ]).
Proof. vm_compute. done. Qed.

(** ** File discovery *)

Lemma is_dir_entry_true (o : option entry) :
  Os.is_dir_entry o = true <-> o = Some Dir.
Proof. destruct o as [[]|]; cbn; split; congruence. Qed.

Lemma strip_prefix_spec (pre l rest : list string) :
  PosixPath.strip_prefix pre l = Some rest <-> l = pre ++ rest.
Proof.
  revert l. induction pre as [|x pre IH]; intros l; cbn.
  - split; congruence.
  - destruct l as [|y l]; [split; discriminate|].
    destruct (String.eqb x y) eqn:E.
    + apply String.eqb_eq in E as ->. rewrite IH. split; congruence.
    + apply String.eqb_neq in E. split; [discriminate|]. intros [= -> _]. done.
Qed.



Lemma has_excluded_part_false (exclude_dirs : list string) (p : Path) :
  has_excluded_part exclude_dirs p = false <->
  (forall part, part ∈ PosixPath.parts p -> part ∉ exclude_dirs).
Proof.
  unfold has_excluded_part. rewrite <- not_true_iff_false, existsb_exists. split.
  - intros H part Hin Hex. apply H. exists part. split.
    + by apply list_elem_of_In.
    + by apply bool_decide_eq_true.
  - intros H (part & Hin & Hex). apply bool_decide_eq_true in Hex.
    apply list_elem_of_In in Hin. by apply (H part).
Qed.



(** ** Writes of a pipeline run *)

Lemma entry_at_insert (m : gmap (list string) entry) (k k' : list string) (e : entry) :
  k <> [] ->
  Os.entry_at (<[k := e]> m) k' = if decide (k = k') then Some e else Os.entry_at m k'.
Proof.
  intros Hk. unfold Os.entry_at. destruct k' as [|c k'].
  - by rewrite decide_False.
  - by rewrite lookup_insert.
Qed.

(** [mkdir] leaves every entry that was there as it was. *)
Lemma mkdir_chain_preserves (rest : list string) (m m' : gmap (list string) entry)
    (pre : list string) (made made' : list (list string)) :
  Os.mkdir_chain m pre rest made = inr (m', made') ->
  forall k e, Os.entry_at m k = Some e -> Os.entry_at m' k = Some e.
Proof.
  revert m pre made. induction rest as [|c rest IH]; intros m pre made Hmk k e Hk.
  - cbn in Hmk. by injection Hmk as <- _.
  - cbn [Os.mkdir_chain] in Hmk.
    destruct (Os.entry_at m (pre ++ [c])) as [[text|]|] eqn:Hc; [done|by eapply IH|].
    eapply IH; [exact Hmk|].
    rewrite entry_at_insert by by destruct pre.
    destruct (decide (pre ++ [c] = k)) as [<-|]; [congruence|done].
Qed.

(** After [mkdir], every directory on the way is there. *)
Lemma mkdir_chain_dirs (rest : list string) (m m' : gmap (list string) entry)
    (pre : list string) (made made' : list (list string)) :
  Os.mkdir_chain m pre rest made = inr (m', made') ->
  forall i, 0 < i <= length rest -> Os.entry_at m' (pre ++ take i rest) = Some Dir.
Proof.
  revert m pre made. induction rest as [|c rest IH]; intros m pre made Hmk i Hi.
  - cbn in Hi. lia.
  - cbn [Os.mkdir_chain] in Hmk. cbn [length] in Hi.
    assert (Hhere : forall m0 made0,
      Os.mkdir_chain m0 (pre ++ [c]) rest made0 = inr (m', made') ->
      Os.entry_at m0 (pre ++ [c]) = Some Dir ->
      Os.entry_at m' (pre ++ take i (c :: rest)) = Some Dir).
    { intros m0 made0 Hmk0 Hdir. destruct i as [|[|i]]; [lia|..].
      - cbn [take]. by eapply mkdir_chain_preserves.
      - cbn [take]. replace (pre ++ c :: take (S i) rest)
          with ((pre ++ [c]) ++ take (S i) rest) by by rewrite <- app_assoc.
        eapply IH; [exact Hmk0|lia]. }
    destruct (Os.entry_at m (pre ++ [c])) as [[text|]|] eqn:Hc; [done|by eapply Hhere|].
    eapply Hhere; [exact Hmk|].
    rewrite entry_at_insert by by destruct pre. by rewrite decide_True.
Qed.

(** When they are all there, [mkdir] makes nothing. *)
Lemma mkdir_chain_existing (rest : list string) (m : gmap (list string) entry)
    (pre : list string) (made : list (list string)) :
  (forall i, 0 < i <= length rest -> Os.entry_at m (pre ++ take i rest) = Some Dir) ->
  Os.mkdir_chain m pre rest made = inr (m, made).
Proof.
  revert pre. induction rest as [|c rest IH]; intros pre Hdirs; [done|].
  cbn [Os.mkdir_chain].
  assert (Hc : Os.entry_at m (pre ++ [c]) = Some Dir) by (apply (Hdirs 1); cbn; lia).
  rewrite Hc. apply IH. intros i Hi.
  replace ((pre ++ [c]) ++ take i rest) with (pre ++ take (S i) (c :: rest))
    by by rewrite <- app_assoc.
  apply Hdirs. cbn. lia.
Qed.

Lemma walk_snoc (ns : list string) (base : list string) (c : string) :
  c <> ".." -> Os.walk base (ns ++ [c]) = Os.walk base ns ++ [c].
Proof.
  intros Hc. revert base. induction ns as [|x ns IH]; intros base; cbn.
  - by rewrite (proj2 (String.eqb_neq c "..") Hc).
  - destruct (String.eqb x ".."); apply IH.
Qed.

(** The mirrored path lies in the mirrored directory, under the name of the
    source. *)
Lemma resolve_mirrored (w : World) (src root : Path) :
  names src <> [] -> PosixPath.name src <> ".." ->
  Os.resolve w (mirrored src root) =
  Os.resolve w (mirrored_dir src root) ++ [PosixPath.name src].
Proof.
  intros Hne Hdots. unfold Os.resolve, mirrored, mirrored_dir. cbn [anchor names].
  rewrite <- walk_snoc by done. f_equal. rewrite <- app_assoc. f_equal.
  symmetry. apply removelast_last_app. unfold PosixPath.name.
  destruct (last (names src)) eqn:E; [done|]. by apply last_None in E.
Qed.

Lemma writes_of_mkdirs (made : list (list string)) : writes_of (map EvMkdir made) = [].
Proof. by induction made. Qed.

Lemma chats_of_mkdirs (made : list (list string)) : chats_of (map EvMkdir made) = [].
Proof. by induction made. Qed.

Lemma resolve_cwd (w w' : World) (p : Path) :
  cwd w' = cwd w -> Os.resolve w' p = Os.resolve w p.
Proof. intros H. unfold Os.resolve. by rewrite H. Qed.


Section Mirror.

Variables src root : Path.
Hypothesis Hwf : PosixPath.well_formed src.
Hypothesis Hne : names src <> [].
Hypothesis Hdots : PosixPath.name src <> "..".

(** Once [mkdir] went through, the world is settled. *)
Lemma settled_after_mkdir (w : World) (m : gmap (list string) entry)
    (made : list (list string)) (tr : list event) :
  Os.is_file_entry (Os.entry_at (fs w) (Os.resolve w src)) = true ->
  Os.mkdir_chain (fs w) [] (Os.resolve w (mirrored_dir src root)) [] = inr (m, made) ->
  Os.entry_at m (Os.resolve w (mirrored src root)) <> Some Dir ->
  settled src root (mkWorld m (cwd w) tr).
Proof.
  intros Hfile Hmk Hnodir. unfold settled.
  rewrite !(resolve_cwd w (mkWorld m (cwd w) tr)) by done. cbn [fs].
  split; [|split; [|done]].
  - destruct (Os.entry_at (fs w) (Os.resolve w src)) as [[text|]|] eqn:E; try done.
    by rewrite (mkdir_chain_preserves _ _ _ _ _ _ Hmk _ _ E).
  - intros i Hi. by apply (mkdir_chain_dirs _ _ _ _ _ _ Hmk i).
Qed.


(** Writing a text to the mirrored path and cleaning it: two writes of the
    same entry, and the world stays settled. *)
Lemma write_and_clean (w : World) (text line : string) :
  settled src root w ->
  let k := Os.resolve w (mirrored src root) in
  let cleaned := cleaned_text (PyStr.universal_newlines text) in
  let w' := mkWorld (<[k := File cleaned]> (fs w)) (cwd w)
              (trace w ++ [EvWrite k text; EvRead k; EvWrite k cleaned; EvPrint line]) in
  (Os.write_text (mirrored src root) text ;;
   clean_markdown_code_fence (mirrored src root) ;;
   print line) w = (w', Ok tt) /\
  settled src root w'.
Proof.
  intros (Hfile & Hdirs & Hnodir) k cleaned w'.
  assert (Hk : k = Os.resolve w (mirrored_dir src root) ++ [PosixPath.name src])
    by by apply resolve_mirrored.
  assert (Hknil : k <> []) by (rewrite Hk; by destruct (Os.resolve w (mirrored_dir src root))).
  set (w1 := mkWorld (<[k := File text]> (fs w)) (cwd w) (trace w ++ [EvWrite k text])).
  assert (Hwrite : Os.write_text (mirrored src root) text w = (w1, Ok tt)).
  { unfold Os.write_text. fold k.
    destruct (Os.entry_at (fs w) k) as [[old|]|] eqn:E; [done|done|].
    assert (Hparent : Os.entry_at (fs w) (removelast k) = Some Dir).
    { rewrite Hk, removelast_last.
      destruct (Os.resolve w (mirrored_dir src root)) as [|c kd] eqn:Ekd; [done|].
      rewrite <- (firstn_all (c :: kd)). apply Hdirs. cbn. lia. }
    by rewrite Hparent. }
  assert (Hclean : clean_markdown_code_fence (mirrored src root) w1 =
            (mkWorld (<[k := File cleaned]> (fs w)) (cwd w)
               (trace w1 ++ [EvRead k; EvWrite k cleaned]), Ok tt)).
  { rewrite (clean_markdown_code_fence_run w1 (mirrored src root) text).
    - rewrite (resolve_cwd w w1) by done. fold k. cbn [fs cwd w1].
      by rewrite insert_insert_eq.
    - rewrite (resolve_cwd w w1) by done. fold k. cbn [fs w1].
      rewrite entry_at_insert by done. by rewrite decide_True. }
  split.
  - unfold bind at 1. rewrite Hwrite. unfold bind. rewrite Hclean.
    unfold print, emit. cbn [fs cwd trace w1]. by rewrite <- !app_assoc.
  - unfold settled. rewrite !(resolve_cwd w w') by done. fold k. cbn [fs w'].
    rewrite !entry_at_insert by done. split; [|split].
    + destruct (decide (k = Os.resolve w src)); [done|exact Hfile].
    + intros i Hi. rewrite entry_at_insert by done.
      rewrite decide_False; [by apply Hdirs|].
      intros Heq. apply (f_equal length) in Heq.
      rewrite Hk, length_app, length_take in Heq. cbn in Heq. lia.
    + by rewrite decide_True.
Qed.

End Mirror.

Section Rewriting.

Variable ollama_chat : list event -> string -> string -> result string.
Variables file_path auto_docu_root : Path.
Variables model style : string.
Hypothesis Hwf : PosixPath.well_formed file_path.
Hypothesis Hne : names file_path <> [].
Hypothesis Hdots : PosixPath.name file_path <> "..".
Hypothesis Hreplies : forall tr prompt, exists reply, ollama_chat tr model prompt = Ok reply.

(** The first call of [get_auto_docu_path] makes the directories. *)
Lemma get_auto_docu_path_mkdir (w : World) (m : gmap (list string) entry)
    (made : list (list string)) :
  Os.is_file_entry (Os.entry_at (fs w) (Os.resolve w file_path)) = true ->
  Os.mkdir_chain (fs w) [] (Os.resolve w (mirrored_dir file_path auto_docu_root)) [] =
    inr (m, made) ->
  get_auto_docu_path file_path auto_docu_root w =
    (mkWorld m (cwd w) (trace w ++ map EvMkdir made),
     Ok (mirrored file_path auto_docu_root)).
Proof.
  intros Hfile Hmk.
  rewrite (get_auto_docu_path_file w file_path auto_docu_root Hwf Hne Hfile).
  unfold bind, Os.mkdir_parents_exist_ok, ret. by rewrite Hmk.
Qed.




End Rewriting.

(** *** Computations that write nothing *)

Lemma quiet_ret {A} (a : A) : quiet (ret a).
Proof. intros w w' r [= <- _]. done. Qed.

Lemma quiet_raise {A} (c : exn_class) (msg : string) : quiet (@raise A c msg).
Proof. intros w w' r [= <- _]. done. Qed.

Lemma quiet_bind {A B} (m : Py A) (k : A -> Py B) :
  quiet m -> (forall a, quiet (k a)) -> quiet (bind m k).
Proof.
  intros Hm Hk w w' r. unfold bind.
  destruct (m w) as [w1 [a|e]] eqn:E; destruct (Hm _ _ _ E) as (Hfs & Hcwd & Hwr).
  - intros Hrun. destruct (Hk a _ _ _ Hrun) as (Hfs' & Hcwd' & Hwr'). repeat split; congruence.
  - intros [= <- _]. done.
Qed.

Lemma quiet_try_except {A} (body : Py A) (handler : exn -> Py A) :
  quiet body -> (forall e, quiet (handler e)) -> quiet (try_except body handler).
Proof.
  intros Hb Hh w w' r. unfold try_except.
  destruct (body w) as [w1 [a|e]] eqn:E; destruct (Hb _ _ _ E) as (Hfs & Hcwd & Hwr).
  - intros [= <- _]. done.
  - intros Hrun. destruct (Hh e _ _ _ Hrun) as (Hfs' & Hcwd' & Hwr'). repeat split; congruence.
Qed.

Lemma quiet_for_fold {A S} (l : list A) (body : S -> A -> Py S) (acc : S) :
  (forall acc x, x ∈ l -> quiet (body acc x)) -> quiet (for_fold l acc body).
Proof.
  revert acc. induction l as [|x l IH]; intros acc Hbody; cbn [for_fold].
  - apply quiet_ret.
  - apply quiet_bind; [apply Hbody; by left|].
    intros acc'. apply IH. intros ???. apply Hbody. by right.
Qed.


Lemma quiet_abs_basename (p : string) : quiet (Os.abs_basename p).
Proof. intros w w' r [= <- _]. done. Qed.

Lemma quiet_listdir (p : Path) : quiet (Os.listdir p).
Proof.
  intros w w' r. unfold Os.listdir.
  destruct (Os.entry_at _ _) as [[|]|]; intros [= <- _]; cbn [fs cwd trace]; try done.
  rewrite writes_of_app. cbn. by rewrite app_nil_r.
Qed.

Lemma quiet_read_text (p : Path) : quiet (Os.read_text p).
Proof.
  intros w w' r. unfold Os.read_text.
  destruct (Os.entry_at _ _) as [[|]|]; intros [= <- _]; cbn [fs cwd trace]; try done.
  rewrite writes_of_app. cbn. by rewrite app_nil_r.
Qed.







(** * Further properties *)

(** ** The docstring inserter, continued *)

(** *** Splicing in line order *)


Section Insert.

Context {A : Type}.
Variables (l : list A) (x : A) (z : Z).
Hypothesis Hz : (0 <= z <= Z.of_nat (length l))%Z.





End Insert.







(** *** No line is lost *)

Lemma insert_sublist {A} (i : Z) (x : A) (l : list A) : sublist l (PyList.insert i x l).
Proof.
  unfold PyList.insert. set (n := PyList.clamp_index _ _).
  rewrite <- (take_drop n l) at 1.
  apply sublist_app; [done|]. by apply sublist_cons.
Qed.

Lemma insert_length_any {A} (i : Z) (x : A) (l : list A) :
  length (PyList.insert i x l) = S (length l).
Proof.
  unfold PyList.insert. set (n := PyList.clamp_index _ _).
  rewrite length_app. cbn [length]. rewrite length_take, length_drop. lia.
Qed.

Lemma splice_all_keeps_lines (items : list ((ast * string) * string))
    (lines lines' : list string) :
  splice_all lines items = Ok lines' ->
  length lines' = length lines + length items /\ sublist lines lines'.
Proof.
  revert lines. induction items as [|[[node src] doc] items IH]; intros lines Hrun.
  - cbn in Hrun. injection Hrun as <-. cbn. split; [lia|done].
  - cbn [splice_all splice_one] in Hrun.
    destruct (body_start node) as [L|e]; [|done].
    destruct (IH _ Hrun) as [Hlen Hsub]. rewrite insert_length_any in Hlen.
    cbn [length]. split; [lia|].
    etrans; [apply insert_sublist|exact Hsub].
Qed.

(** X2. Whenever [insert_docstrings] returns a text, its lines are the lines
    of the source, all of them and in their order, with one further item
    for each (function, docstring) pair: nothing is removed or moved, and
    a docstring or a function beyond the length of the shorter list is
    ignored, as [zip] pairs them. *)
Theorem insert_docstrings_keeps_lines (source new_source : string)
    (func_nodes : list (ast * string)) (docstrings : list string) :
  insert_docstrings source func_nodes docstrings = Ok new_source ->
  exists lines',
    new_source = PyStr.join PyStr.nl lines' /\
    length lines' =
      length (PyStr.splitlines source) + min (length func_nodes) (length docstrings) /\
    sublist (PyStr.splitlines source) lines'.
Proof.
  unfold insert_docstrings. intros Hrun.
  destruct (splice_all _ _) as [lines'|e] eqn:Hsplice; [|done].
  injection Hrun as <-. exists lines'. split; [done|].
  apply splice_all_keeps_lines in Hsplice as [Hlen Hsub].
  by rewrite length_reverse, length_zip_with in Hlen.
Qed.

Lemma insert_docstrings_keeps_lines_witness :
  exists lines',
    text_of_lines [
      "class A:";
      "    def m(self):";
      "        " +:+ Sample.doc_m;
      "        return 1";
      "    " +:+ Sample.doc_f;
      "def f():";
      "    return 2" ] = PyStr.join PyStr.nl lines' /\
    length lines' = 5 + 2 /\
    sublist (PyStr.splitlines Sample.class_source) lines'.
Proof.
  apply (insert_docstrings_keeps_lines Sample.class_source _
           (functions_missing_docstrings Sample.class_source Sample.class_tree)
           [Sample.doc_f; Sample.doc_m]).
  vm_compute. reflexivity.
Defined.

(** *** The functions found *)

Lemma nodes_of_children (t : ast) :
  nodes_of t = t :: flat_map nodes_of (Ast.iter_child_nodes t).
Proof.
  destruct t; cbn [nodes_of Ast.iter_child_nodes flat_map];
    by rewrite ?flat_map_app, ?app_nil_r.
Qed.

Lemma size_child (t c : ast) : c ∈ Ast.iter_child_nodes t -> Ast.size c < Ast.size t.
Proof.
  rewrite (size_children t). generalize (Ast.iter_child_nodes t). intros l Hin.
  induction Hin as [c l|c y l Hin IH]; unfold list_sum in *; cbn in *; lia.
Qed.

(** The queue of [ast.walk], given fuel for all of it, yields the nodes of
    its trees, each one once. *)
Lemma walk_queue_nodes (fuel : nat) (todo : list ast) :
  list_sum (map Ast.size todo) <= fuel ->
  Ast.walk_queue fuel todo ≡ₚ flat_map nodes_of todo.
Proof.
  revert todo. induction fuel as [|fuel IH]; intros [|node rest] Hfuel; try done.
  - change (list_sum (map Ast.size (node :: rest)))
      with (Ast.size node + list_sum (map Ast.size rest)) in Hfuel.
    rewrite size_children in Hfuel. lia.
  - change (list_sum (map Ast.size (node :: rest)))
      with (Ast.size node + list_sum (map Ast.size rest)) in Hfuel.
    rewrite size_children in Hfuel.
    cbn [Ast.walk_queue flat_map]. rewrite nodes_of_children. cbn [app].
    constructor. rewrite IH.
    + rewrite flat_map_app. apply Permutation_app_comm.
    + rewrite map_app, list_sum_app. lia.
Qed.

Lemma walk_nodes (tree : ast) : Ast.walk tree ≡ₚ nodes_of tree.
Proof.
  unfold Ast.walk. rewrite walk_queue_nodes by (cbn; lia).
  cbn [flat_map]. by rewrite app_nil_r.
Qed.

Lemma nodes_of_occurs (x t : ast) : x ∈ nodes_of t <-> occurs_in x t.
Proof.
  split.
  - remember (Ast.size t) as n eqn:Hn. revert t Hn.
    induction (lt_wf n) as [n _ IH]. intros t -> Hin.
    rewrite nodes_of_children in Hin. apply elem_of_cons in Hin as [->|Hin]; [constructor|].
    apply list_elem_of_In, in_flat_map in Hin as (c & Hc & Hx).
    apply list_elem_of_In in Hc, Hx.
    apply (occurs_below x t c Hc).
    by apply (IH (Ast.size c) (size_child t c Hc) c).
  - induction 1 as [|t c Hc _ IH]; rewrite nodes_of_children; [by left|].
    right. apply list_elem_of_In, in_flat_map. exists c.
    split; by apply list_elem_of_In.
Qed.

(** X3. On a file that can be read and parses,
    [extract_functions_missing_docstrings] returns the source it read and a
    list that holds the function definitions of the tree without a
    docstring, each one as often as it is in the tree and nothing else: a
    node is listed exactly when it occurs in the tree, is a function
    definition and has no docstring. *)
Theorem extract_functions_missing_docstrings_exact
    (ast_parse : string -> result ast) (w : World) (file_path raw : string) (tree : ast) :
  Os.entry_at (fs w) (Os.resolve w (PosixPath.of_str file_path)) = Some (File raw) ->
  ast_parse (PyStr.universal_newlines raw) = Ok tree ->
  exists missing,
    extract_functions_missing_docstrings ast_parse file_path w =
      (mkWorld (fs w) (cwd w)
         (trace w ++ [EvRead (Os.resolve w (PosixPath.of_str file_path))]),
       Ok (PyStr.universal_newlines raw, missing)) /\
    missing.*1 ≡ₚ filter (fun node => missing_docstring node = true) (nodes_of tree) /\
    (forall node,
       node ∈ missing.*1 <->
       occurs_in node tree /\ Ast.is_function_def node = true /\
       Ast.lacks_docstring node = true).
Proof.
  intros Hfile Hparse.
  exists (functions_missing_docstrings (PyStr.universal_newlines raw) tree).
  assert (Hfst : (functions_missing_docstrings (PyStr.universal_newlines raw) tree).*1 =
                 filter (fun node => missing_docstring node = true) (Ast.walk tree)).
  { unfold functions_missing_docstrings.
    rewrite <- list_fmap_compose. change (fst ∘ _) with (@id ast). by rewrite list_fmap_id. }
  split; [|split].
  - unfold extract_functions_missing_docstrings, bind, Os.read_text, parse.
    by rewrite Hfile, Hparse.
  - by rewrite Hfst, walk_nodes.
  - intros node. rewrite Hfst, list_elem_of_filter, walk_nodes, nodes_of_occurs.
    unfold missing_docstring. rewrite andb_true_iff. tauto.
Qed.

Lemma extract_functions_missing_docstrings_exact_witness :
  exists missing,
    extract_functions_missing_docstrings Sample.class_parse "out/a.py" Sample.class_world =
      (mkWorld (fs Sample.class_world) (cwd Sample.class_world)
         (trace Sample.class_world ++ [EvRead ["out"; "a.py"]]),
       Ok (Sample.class_source, missing)) /\
    missing.*1 ≡ₚ [Sample.def_m; Sample.def_f] /\
    (forall node,
       node ∈ missing.*1 <->
       occurs_in node Sample.class_tree /\ Ast.is_function_def node = true /\
       Ast.lacks_docstring node = true).
Proof.
  exact (extract_functions_missing_docstrings_exact Sample.class_parse Sample.class_world
           "out/a.py" Sample.class_source Sample.class_tree eq_refl eq_refl).
Defined.

(** X4. The source text kept for a function, and sent to the model, is
    made of the lines [lineno] to [end_lineno] of the file, counted from 1
    and both included: when [lineno - 1] lines stand before them and
    [end_lineno] is the line of the last one, they are joined by newlines
    and nothing of the lines around them is taken. *)
Theorem func_source_lines (pre mid post : list string) (node : ast) :
  Ast.node_lineno node = (Z.of_nat (length pre) + 1)%Z ->
  Ast.node_end_lineno node = Z.of_nat (length pre + length mid) ->
  func_source (pre ++ mid ++ post) node = PyStr.join PyStr.nl mid.
Proof.
  intros Hfirst Hlast. unfold func_source, PyList.slice. rewrite Hfirst, Hlast.
  rewrite !length_app.
  replace (PyList.clamp_index _ (Z.of_nat (length pre) + 1 - 1)) with (length pre)
    by (unfold PyList.clamp_index; destruct (Z.ltb_spec (Z.of_nat (length pre) + 1 - 1) 0); lia).
  replace (PyList.clamp_index _ (Z.of_nat (length pre + length mid)))
    with (length pre + length mid)
    by (unfold PyList.clamp_index;
        destruct (Z.ltb_spec (Z.of_nat (length pre + length mid)) 0); lia).
  rewrite drop_app_length.
  replace (length pre + length mid - length pre) with (length mid) by lia.
  by rewrite take_app_length.
Qed.

Lemma func_source_lines_witness :
  func_source (["class A:"] ++ ["    def m(self):"; "        return 1"] ++
               ["def f():"; "    return 2"]) Sample.def_m =
  PyStr.join PyStr.nl ["    def m(self):"; "        return 1"].
Proof.
  apply (func_source_lines ["class A:"] ["    def m(self):"; "        return 1"]
           ["def f():"; "    return 2"] Sample.def_m); reflexivity.
Defined.

(** *** Runs that leave the file alone *)

Lemma filter_none {A} (P : A -> Prop) `{!forall x, Decision (P x)} (l : list A) :
  (forall x, x ∈ l -> ~ P x) -> filter P l = [].
Proof.
  intros Hnone. apply elem_of_nil_inv. intros x Hin.
  apply list_elem_of_filter in Hin as [HP Hin]. by apply (Hnone x).
Qed.

(** X5. When every function definition of the file has a docstring,
    [generate_docstring_suggestions] reads the file, prints that nothing is
    missing and returns: it makes no model call and does not write the
    file. *)
Theorem generate_docstring_suggestions_nothing_missing
    (ollama_chat : list event -> string -> string -> result string)
    (ast_parse : string -> result ast)
    (w : World) (file_path auto_docu_root model raw : string) (tree : ast) :
  Os.entry_at (fs w) (Os.resolve w (PosixPath.of_str file_path)) = Some (File raw) ->
  ast_parse (PyStr.universal_newlines raw) = Ok tree ->
  (forall node,
     occurs_in node tree -> Ast.is_function_def node = true ->
     Ast.lacks_docstring node = false) ->
  generate_docstring_suggestions ollama_chat ast_parse file_path auto_docu_root model w =
    (mkWorld (fs w) (cwd w)
       (trace w ++ [EvRead (Os.resolve w (PosixPath.of_str file_path));
                    EvPrint "No functions missing docstrings found."]),
     Ok tt).
Proof.
  intros Hfile Hparse Hdocs.
  assert (Hnone : functions_missing_docstrings (PyStr.universal_newlines raw) tree = []).
  { unfold functions_missing_docstrings. rewrite filter_none; [done|].
    intros node Hin Hmiss. apply andb_true_iff in Hmiss as [Hdef Hlacks].
    rewrite walk_nodes, nodes_of_occurs in Hin.
    rewrite (Hdocs node Hin Hdef) in Hlacks. done. }
  unfold generate_docstring_suggestions, bind at 1.
  unfold extract_functions_missing_docstrings, bind, Os.read_text, parse.
  rewrite Hfile, Hparse. unfold ret. rewrite Hnone. cbn [for_fold]. unfold ret, print, emit.
  cbn [fs cwd trace]. by rewrite <- app_assoc.
Qed.

Lemma generate_docstring_suggestions_nothing_missing_witness :
  generate_docstring_suggestions Sample.failing_oracle Inputs.documented_parse
    "out/g.py" "out" "llama3.1:8b" Inputs.documented_world =
    (mkWorld (fs Inputs.documented_world) []
       [EvRead ["out"; "g.py"]; EvPrint "No functions missing docstrings found."],
     Ok tt).
Proof.
  apply (generate_docstring_suggestions_nothing_missing Sample.failing_oracle
           Inputs.documented_parse Inputs.documented_world "out/g.py" "out" "llama3.1:8b"
           Inputs.documented_source Inputs.documented_tree); [reflexivity..|].
  intros node Hin Hdef. apply nodes_of_occurs in Hin. cbn in Hin.
  repeat (apply elem_of_cons in Hin as [->|Hin]; [done || discriminate Hdef|]).
  by apply elem_of_nil in Hin.
Defined.

(** X6. A run of [generate_docstring_suggestions] writes at most once,
    and only the file it was given: either the file system is left as it
    was and nothing was written, or the run returned and the file, and that
    entry alone, was rewritten once. A run that raises, at whatever point
    (the file cannot be read, it does not parse, a function has no body to
    insert before, the file cannot be written), is of the first kind. *)
Theorem generate_docstring_suggestions_writes_at_most_once
    (ollama_chat : list event -> string -> string -> result string)
    (ast_parse : string -> result ast)
    (w w' : World) (file_path auto_docu_root model : string) (r : result unit) :
  generate_docstring_suggestions ollama_chat ast_parse file_path auto_docu_root model w =
    (w', r) ->
  let k := Os.resolve w (PosixPath.of_str file_path) in
  ((fs w' = fs w /\ writes_of (trace w') = writes_of (trace w)) \/
   (r = Ok tt /\
    (exists text, fs w' = <[k := File text]> (fs w)) /\
    writes_of (trace w') = writes_of (trace w) ++ [k])) /\
  (forall e, r = Raise e ->
     fs w' = fs w /\ writes_of (trace w') = writes_of (trace w)).
Proof.
  intros Hrun k.
  assert (Hcases :
    (fs w' = fs w /\ writes_of (trace w') = writes_of (trace w)) \/
    (r = Ok tt /\
     (exists text, fs w' = <[k := File text]> (fs w)) /\
     writes_of (trace w') = writes_of (trace w) ++ [k])).
  { revert Hrun. unfold generate_docstring_suggestions, bind at 1.
    unfold extract_functions_missing_docstrings, bind at 1, Os.read_text. fold k.
    destruct (Os.entry_at (fs w) k) as [[raw|]|]; [|intros [= <- _]; by left..].
    unfold bind at 1, parse.
    destruct (ast_parse _) as [tree|e']; [|intros [= <- _]; cbn [fs trace]].
    2:{ left. rewrite writes_of_app. cbn. by rewrite app_nil_r. }
    unfold ret at 1. set (w0 := mkWorld _ _ _).
    set (missing := functions_missing_docstrings _ tree).
    destruct (suggest_all_run ollama_chat missing w0 model [])
      as (w1 & docs & Hall & _ & Hfs & Hcwd & Hwr & _).
    assert (Hw1 : fs w1 = fs w /\ writes_of (trace w1) = writes_of (trace w)).
    { rewrite Hfs, Hwr. subst w0. cbn [fs trace]. rewrite writes_of_app. cbn.
      by rewrite app_nil_r. }
    destruct Hw1 as [Hfs1 Hwr1].
    assert (Hk : Os.resolve w1 (PosixPath.of_str file_path) = k).
    { unfold k. apply resolve_cwd. by rewrite Hcwd. }
    unfold bind at 1. rewrite Hall. cbn [app].
    destruct missing as [|item rest].
    { unfold print, emit. intros [= <- _]. left. cbn [fs trace].
      rewrite writes_of_app. cbn. by rewrite app_nil_r. }
    unfold bind at 1, lift_result.
    destruct (insert_docstrings _ _ _) as [new_source|e']; [|intros [= <- _]; by left].
    unfold bind, Os.write_text, print, emit. rewrite Hk, Hfs1.
    assert (Hwritten : forall tr,
      (mkWorld (<[k := File new_source]> (fs w)) (cwd w1)
         ((trace w1 ++ [EvWrite k new_source]) ++ tr), @Ok unit tt) = (w', r) ->
      writes_of tr = [] ->
      r = Ok tt /\
      (exists text, fs w' = <[k := File text]> (fs w)) /\
      writes_of (trace w') = writes_of (trace w) ++ [k]).
    { intros tr [= <- <-] Htr. split; [done|]. split; [by eexists|].
      cbn [trace]. rewrite !writes_of_app, Hwr1, Htr. cbn. by rewrite app_nil_r. }
    destruct (Os.entry_at (fs w) k) as [[old|]|]; [|intros [= <- _]; by left|].
    - intros Hrun. right. by apply (Hwritten _ Hrun).
    - destruct (Os.entry_at (fs w) (removelast k)) as [[old|]|];
        [intros [= <- _]; by left| |intros [= <- _]; by left].
      intros Hrun. right. by apply (Hwritten _ Hrun). }
  split; [exact Hcases|].
  intros e ->. by destruct Hcases as [?|[? _]].
Qed.

Lemma generate_docstring_suggestions_writes_at_most_once_witness :
  let run := generate_docstring_suggestions Sample.failing_oracle Inputs.broken_parse
               "out/a.py" "out" "llama3.1:8b" Sample.class_world in
  snd run = Raise (mkExn SyntaxError "invalid syntax") /\
  fs (fst run) = fs Sample.class_world /\
  writes_of (trace (fst run)) = writes_of (trace Sample.class_world).
Proof.
  split; [reflexivity|].
  refine (proj2 (generate_docstring_suggestions_writes_at_most_once Sample.failing_oracle
                   Inputs.broken_parse Sample.class_world
                   (fst (generate_docstring_suggestions Sample.failing_oracle
                           Inputs.broken_parse "out/a.py" "out" "llama3.1:8b"
                           Sample.class_world))
                   "out/a.py" "out" "llama3.1:8b"
                   (Raise (mkExn SyntaxError "invalid syntax")) _)
                (mkExn SyntaxError "invalid syntax") eq_refl).
  reflexivity.
Defined.

(** ** Mirrored output paths, continued *)


(** The steps of a call of [get_auto_docu_path] that returns a path. *)
Lemma get_auto_docu_path_run (w : World) (src new_branch_root rel : Path)
    (text part0 : string) (parts : list string)
    (m : gmap (list string) entry) (made : list (list string)) :
  Os.entry_at (fs w) (Os.resolve w src) = Some (File text) ->
  PosixPath.parts src = part0 :: parts ->
  PosixPath.relative_to (PosixPath.parent src)
    (PosixPath.parent (PosixPath.of_str part0)) = Some rel ->
  Os.mkdir_chain (fs w) [] (Os.resolve w (PosixPath.joinpath new_branch_root rel)) [] =
    inr (m, made) ->
  get_auto_docu_path src new_branch_root w =
    (mkWorld m (cwd w) (trace w ++ map EvMkdir made),
     Ok (PosixPath.joinstr (PosixPath.joinpath new_branch_root rel) (PosixPath.name src))).
Proof.
  intros Hsrc Hparts Hrel Hmk.
  unfold get_auto_docu_path, bind, Os.is_file, first_part, Os.mkdir_parents_exist_ok, ret.
  rewrite Hsrc. cbn [Os.is_file_entry negb]. rewrite Hparts. cbv beta iota.
  rewrite Hrel. cbv beta iota. by rewrite Hmk.
Qed.

Lemma get_auto_docu_path_ok (w w1 : World) (src new_branch_root p : Path) :
  get_auto_docu_path src new_branch_root w = (w1, Ok p) ->
  exists rel text part0 parts m made,
    Os.entry_at (fs w) (Os.resolve w src) = Some (File text) /\
    PosixPath.parts src = part0 :: parts /\
    PosixPath.relative_to (PosixPath.parent src)
      (PosixPath.parent (PosixPath.of_str part0)) = Some rel /\
    Os.mkdir_chain (fs w) [] (Os.resolve w (PosixPath.joinpath new_branch_root rel)) [] =
      inr (m, made) /\
    w1 = mkWorld m (cwd w) (trace w ++ map EvMkdir made) /\
    p = PosixPath.joinstr (PosixPath.joinpath new_branch_root rel) (PosixPath.name src).
Proof.
  unfold get_auto_docu_path, bind, Os.is_file, first_part, Os.mkdir_parents_exist_ok.
  destruct (Os.entry_at (fs w) (Os.resolve w src)) as [[text|]|]; try done.
  cbn [Os.is_file_entry negb].
  destruct (PosixPath.parts src) as [|part0 parts]; [done|]. unfold ret at 1.
  destruct (PosixPath.relative_to _ _) as [rel|] eqn:Hrel; [|done]. unfold ret at 1.
  destruct (Os.mkdir_chain _ _ _ _) as [c|[m made]] eqn:Hmk; [by destruct c|].
  unfold ret. intros [= <- <-]. by exists rel, text, part0, parts, m, made.
Qed.

(** A call of [get_auto_docu_path] that raises has changed nothing. *)
Lemma get_auto_docu_path_raise (w w' : World) (src new_branch_root : Path) (e : exn) :
  get_auto_docu_path src new_branch_root w = (w', Raise e) -> w' = w.
Proof.
  unfold get_auto_docu_path, bind, Os.is_file, first_part, Os.mkdir_parents_exist_ok.
  destruct (negb _); [by intros [= <- _]|].
  destruct (PosixPath.parts src) as [|part0 parts]; [by intros [= <- _]|]. unfold ret at 1.
  destruct (PosixPath.relative_to _ _) as [rel|]; [|by intros [= <- _]]. unfold ret at 1.
  destruct (Os.mkdir_chain _ _ _ _) as [c|[m made]]; [|done].
  by destruct c; intros [= <- _].
Qed.



(** X8. [get_auto_docu_path] can be called again: once it has returned a
    path, a second call with the same arguments returns the same path and
    changes nothing, not even the trace, since every directory is there
    ([exist_ok]). *)
Theorem get_auto_docu_path_again (w w1 : World) (src new_branch_root p : Path) :
  get_auto_docu_path src new_branch_root w = (w1, Ok p) ->
  get_auto_docu_path src new_branch_root w1 = (w1, Ok p).
Proof.
  intros Hrun.
  apply get_auto_docu_path_ok
    in Hrun as (rel & text & part0 & parts & m & made & Hsrc & Hparts & Hrel & Hmk & -> & ->).
  set (w1 := mkWorld m (cwd w) (trace w ++ map EvMkdir made)).
  rewrite (get_auto_docu_path_run w1 src new_branch_root rel text part0 parts m []);
    try done.
  - cbn [map fs cwd trace w1]. by rewrite app_nil_r.
  - rewrite (resolve_cwd w w1) by done.
    by apply (mkdir_chain_preserves _ _ _ _ _ _ Hmk).
  - rewrite (resolve_cwd w w1) by done. apply mkdir_chain_existing.
    intros i Hi. by apply (mkdir_chain_dirs _ _ _ _ _ _ Hmk i).
Qed.

Lemma get_auto_docu_path_again_witness :
  let run := get_auto_docu_path Sample.abc_src Sample.abc_root Sample.abc_world in
  get_auto_docu_path Sample.abc_src Sample.abc_root (fst run) =
    (fst run, Ok (mkPath false ["A"; "D"; "A"; "B"; "C.py"])).
Proof.
  apply (get_auto_docu_path_again Sample.abc_world). reflexivity.
Defined.

(** X9. The path [get_auto_docu_path] returns can be written at once: the
    directory that is to hold it was made by the call, so [open(path, "w")]
    succeeds unless a directory stands at the path itself, and the file
    holds the text afterwards. *)
Theorem get_auto_docu_path_then_write (w w1 : World) (src new_branch_root p : Path)
    (text : string) :
  PosixPath.well_formed src ->
  PosixPath.name src <> ".." ->
  get_auto_docu_path src new_branch_root w = (w1, Ok p) ->
  Os.entry_at (fs w1) (Os.resolve w1 p) <> Some Dir ->
  Os.write_text p text w1 =
    (mkWorld (<[Os.resolve w1 p := File text]> (fs w1)) (cwd w1)
       (trace w1 ++ [EvWrite (Os.resolve w1 p) text]), Ok tt).
Proof.
  intros Hwf Hdots Hrun Hnodir.
  assert (Hne : names src <> []).
  { intros Hnil. by apply (get_auto_docu_path_no_name w src new_branch_root Hnil w1 p). }
  assert (Hfile : Os.is_file_entry (Os.entry_at (fs w) (Os.resolve w src)) = true).
  { apply get_auto_docu_path_ok in Hrun as (? & ? & ? & ? & ? & ? & -> & _). done. }
  rewrite (get_auto_docu_path_file w src new_branch_root Hwf Hne Hfile) in Hrun.
  unfold bind, Os.mkdir_parents_exist_ok, ret in Hrun.
  destruct (Os.mkdir_chain _ _ _ _) as [c|[m made]] eqn:Hmk; [by destruct c|].
  injection Hrun as <- <-.
  set (w1 := mkWorld m (cwd w) (trace w ++ map EvMkdir made)) in *.
  rewrite (resolve_cwd w w1) in * by done.
  rewrite (resolve_mirrored w src new_branch_root Hne Hdots) in *.
  set (kd := Os.resolve w (mirrored_dir src new_branch_root)) in *.
  unfold Os.write_text. rewrite (resolve_cwd w w1) by done.
  rewrite (resolve_mirrored w src new_branch_root Hne Hdots). fold kd.
  destruct (Os.entry_at (fs w1) (kd ++ [PosixPath.name src])) as [[old|]|]; [done|done|].
  rewrite removelast_last.
  assert (Hparent : Os.entry_at (fs w1) kd = Some Dir).
  { destruct kd as [|c kd'] eqn:Ekd; [done|].
    rewrite <- (firstn_all (c :: kd')).
    apply (mkdir_chain_dirs _ _ _ _ _ _ Hmk (length (c :: kd'))). cbn. lia. }
  by rewrite Hparent.
Qed.

Lemma get_auto_docu_path_then_write_witness :
  let run := get_auto_docu_path Sample.abc_src Sample.abc_root Sample.abc_world in
  snd run = Ok (mkPath false ["A"; "D"; "A"; "B"; "C.py"]) /\
  Os.write_text (mkPath false ["A"; "D"; "A"; "B"; "C.py"]) "x = 1" (fst run) =
    (mkWorld (<[ ["A"; "D"; "A"; "B"; "C.py"] := File "x = 1" ]> (fs (fst run))) []
       (trace (fst run) ++ [EvWrite ["A"; "D"; "A"; "B"; "C.py"] "x = 1"]), Ok tt).
Proof.
  split; [reflexivity|].
  refine (get_auto_docu_path_then_write Sample.abc_world
            (fst (get_auto_docu_path Sample.abc_src Sample.abc_root Sample.abc_world))
            Sample.abc_src Sample.abc_root
            (mkPath false ["A"; "D"; "A"; "B"; "C.py"]) "x = 1" _ _ _ _).
  - repeat constructor.
  - vm_compute. discriminate.
  - reflexivity.
  - vm_compute. discriminate.
Defined.

(** ** The fence cleaner, continued *)

Lemma splitlines_plain (s : string) :
  plain_line s = true -> s <> "" -> PyStr.splitlines s = [s].
Proof.
  induction s as [|c s IH]; [done|]. cbn [plain_line PyStr.splitlines].
  intros Hplain _. apply andb_true_iff in Hplain as [Hc Hs].
  apply negb_true_iff in Hc.
  assert (Hcr : PyStr.is_cr c = false).
  { unfold PyStr.is_linebreak, PyStr.is_cr in *.
    destruct (N.eqb_spec (PyStr.ord c) 13) as [E|]; [|done].
    rewrite E in Hc. done. }
  rewrite Hcr, Hc. destruct s as [|c' s']; [done|]. by rewrite IH.
Qed.

Lemma splitlines_plain_nl (l t : string) :
  plain_line l = true -> PyStr.splitlines (l +:+ PyStr.nl +:+ t) = l :: PyStr.splitlines t.
Proof.
  induction l as [|c l IH]; [done|]. cbn [plain_line].
  intros Hplain. apply andb_true_iff in Hplain as [Hc Hl]. apply negb_true_iff in Hc.
  assert (Hcr : PyStr.is_cr c = false).
  { unfold PyStr.is_linebreak, PyStr.is_cr in *.
    destruct (N.eqb_spec (PyStr.ord c) 13) as [E|]; [|done].
    rewrite E in Hc. done. }
  change (String c l +:+ PyStr.nl +:+ t) with (String c (l +:+ PyStr.nl +:+ t)).
  cbn [PyStr.splitlines]. rewrite Hcr, Hc, (IH Hl). done.
Qed.

(** Splitting the lines that were joined gives them back, when each is a
    line and the last is not empty. *)
Lemma splitlines_join (ls : list string) (x : string) :
  Forall (fun l => plain_line l = true) ls -> plain_line x = true -> x <> "" ->
  PyStr.splitlines (PyStr.join PyStr.nl (ls ++ [x])) = ls ++ [x].
Proof.
  intros Hls Hx Hne. induction Hls as [|l ls Hl Hls IH]; cbn [app].
  - by apply splitlines_plain.
  - change (PyStr.join PyStr.nl (l :: ls ++ [x]))
      with (match ls ++ [x] with
            | [] => l
            | _ => l +:+ PyStr.nl +:+ PyStr.join PyStr.nl (ls ++ [x])
            end).
    destruct (ls ++ [x]) as [|y rest] eqn:E; [by destruct ls|].
    rewrite splitlines_plain_nl by done. by rewrite IH.
Qed.

(** Reading a text without a carriage return leaves it as it is. *)
Lemma universal_newlines_join (ls : list string) :
  Forall (fun l => plain_line l = true) ls ->
  PyStr.universal_newlines (PyStr.join PyStr.nl ls) = PyStr.join PyStr.nl ls.
Proof.
  assert (Hplain : forall l t,
    plain_line l = true -> PyStr.universal_newlines t = t ->
    PyStr.universal_newlines (l +:+ t) = l +:+ t).
  { induction l as [|c l IH]; intros t Hl Ht; [done|].
    cbn [plain_line] in Hl. apply andb_true_iff in Hl as [Hc Hl].
    apply negb_true_iff in Hc.
    assert (Hcr : PyStr.is_cr c = false).
    { unfold PyStr.is_linebreak, PyStr.is_cr in *.
      destruct (N.eqb_spec (PyStr.ord c) 13) as [E|]; [|done].
      rewrite E in Hc. done. }
    change (String c l +:+ t) with (String c (l +:+ t)).
    cbn [PyStr.universal_newlines]. by rewrite Hcr, (IH t Hl Ht). }
  assert (Hnil : forall l : string, l +:+ "" = l).
  { induction l as [|c l IH]; [done|].
    change (String c (l +:+ "") = String c l). by rewrite IH. }
  induction 1 as [|l ls Hl Hls IH]; [done|].
  destruct ls as [|y rest].
  - cbn [PyStr.join]. rewrite <- (Hnil l). by apply Hplain.
  - change (PyStr.join PyStr.nl (l :: y :: rest))
      with (l +:+ String PyStr.LF (PyStr.join PyStr.nl (y :: rest))).
    set (tail := PyStr.join PyStr.nl (y :: rest)) in *.
    apply Hplain; [done|].
    cbn [PyStr.universal_newlines]. change (PyStr.is_cr PyStr.LF) with false.
    cbv iota. by rewrite IH.
Qed.

(** X10. What the model returns inside a fence is what the file holds
    after [clean_markdown_code_fence]: when the file is made of an opening
    fence line, the lines of the code and a closing fence line, the file is
    rewritten with the lines of the code alone, each followed by a newline
    (a single newline when there is no line between the fences). *)
Theorem clean_markdown_code_fence_unwraps (w : World) (file_path : Path)
    (opening closing : string) (code : list string) :
  Os.entry_at (fs w) (Os.resolve w file_path) =
    Some (File (text_of_lines (opening :: code ++ [closing]))) ->
  PyStr.lower (PyStr.strip opening) = "```python" ->
  PyStr.strip closing = "```" ->
  plain_line opening = true ->
  plain_line closing = true ->
  Forall (fun l => plain_line l = true) code ->
  let k := Os.resolve w file_path in
  let text := text_of_lines code +:+ PyStr.nl in
  clean_markdown_code_fence file_path w =
    (mkWorld (<[k := File text]> (fs w)) (cwd w) (trace w ++ [EvRead k; EvWrite k text]),
     Ok tt).
Proof.
  intros Hfile Hopen Hclose Hpo Hpc Hcode k text.
  rewrite (clean_markdown_code_fence_run w file_path _ Hfile). fold k.
  assert (Hall : Forall (fun l => plain_line l = true) (opening :: code ++ [closing])).
  { constructor; [done|]. apply Forall_app. by split; [|constructor]. }
  unfold text_of_lines. rewrite (universal_newlines_join _ Hall).
  assert (Hclean : cleaned_text (PyStr.join PyStr.nl (opening :: code ++ [closing])) = text).
  { unfold cleaned_text.
    change (opening :: code ++ [closing]) with ((opening :: code) ++ [closing]).
    rewrite (splitlines_join (opening :: code) closing); [|by constructor|done|].
    2:{ intros ->. done. }
    cbn [app opens_fence]. rewrite Hopen, String.eqb_refl.
    change (PyList.drop_first (opening :: code ++ [closing])) with (code ++ [closing]).
    unfold closes_fence. rewrite last_snoc, Hclose, String.eqb_refl.
    by rewrite drop_last_snoc. }
  by rewrite Hclean.
Qed.

Lemma clean_markdown_code_fence_unwraps_witness :
  clean_markdown_code_fence Sample.fenced_path Sample.fenced_world =
    (mkWorld (<[ ["out"; "C.py"] := File (text_of_lines ["x = 1"; ""]) ]>
                (fs Sample.fenced_world)) []
       [EvRead ["out"; "C.py"]; EvWrite ["out"; "C.py"] (text_of_lines ["x = 1"; ""])],
     Ok tt).
Proof.
  apply (clean_markdown_code_fence_unwraps Sample.fenced_world Sample.fenced_path
           "```Python" "  ```  " ["x = 1"]).
  - reflexivity.
  - reflexivity.
  - reflexivity.
  - reflexivity.
  - reflexivity.
  - repeat constructor.
Defined.

(** ** The comment normaliser, continued *)

(** X11. When the model finds the styles different and then fails on the
    request to remove the comments, [auto_comment] prints the error and goes
    on to read [new_path], which was never assigned: it raises
    UnboundLocalError. Three model calls were made and nothing was written
    or made. *)
Theorem auto_comment_removal_failure
    (ollama_chat : list event -> string -> string -> result string)
    (w : World) (file_path auto_docu_root : Path) (model style raw : string) (e : exn) :
  Os.entry_at (fs w) (Os.resolve w file_path) = Some (File raw) ->
  (forall tr existing,
     verdict (ollama_chat tr model (compare_prompt existing style)) = true) ->
  (forall tr,
     ollama_chat tr model (uncomment_prompt (PyStr.universal_newlines raw)) = Raise e) ->
  exists w',
    auto_comment ollama_chat file_path auto_docu_root model style w =
      (w', Raise unbound_new_path) /\
    fs w' = fs w /\
    writes_of (trace w') = writes_of (trace w) /\
    length (chats_of (trace w')) = length (chats_of (trace w)) + 3 /\
    last (trace w') = Some (EvPrint (error_commenting file_path e)).
Proof.
  intros Hfile Hdiff Hfail.
  set (code := PyStr.universal_newlines raw) in *.
  set (w0 := mkWorld (fs w) (cwd w) (trace w ++ [EvRead (Os.resolve w file_path)])).
  destruct (classify_comments_run ollama_chat w0 file_path model code)
    as (existing & line & Hclass).
  set (w1 := mkWorld (fs w0) (cwd w0) _) in Hclass.
  destruct (decide_needs_commenting_run ollama_chat w1 file_path model existing style)
    as (lines & Hdec).
  rewrite Hdiff in Hdec.
  set (w2 := mkWorld (fs w1) (cwd w1) _) in Hdec.
  eexists. split.
  - unfold auto_comment. unfold bind at 1, Os.read_text. rewrite Hfile. fold w0 code.
    unfold bind at 1. rewrite Hclass.
    unfold bind at 1. rewrite Hdec.
    unfold bind at 1, remove_comments, try_except_binding.
    unfold bind at 1, chat at 1. rewrite Hfail.
    unfold bind at 1, print, emit, ret. cbn [fs cwd trace].
    unfold bind. cbn [fmap option_fmap option_map read_local]. unfold raise. reflexivity.
  - cbn [fs cwd trace w2 w1 w0].
    rewrite !writes_of_app, !chats_of_app, !length_app. cbn [writes_of chats_of length app].
    rewrite writes_of_prints, chats_of_prints, !app_nil_r, last_snoc.
    cbn [length]. repeat split; lia.
Qed.

Lemma auto_comment_removal_failure_witness :
  exists w',
    auto_comment Inputs.no_removal_oracle Sample.abc_src Sample.abc_root
      "llama3.1:8b" "moderate" Sample.abc_world = (w', Raise unbound_new_path) /\
    fs w' = fs Sample.abc_world /\
    writes_of (trace w') = writes_of (trace Sample.abc_world) /\
    length (chats_of (trace w')) = length (chats_of (trace Sample.abc_world)) + 3 /\
    last (trace w') =
      Some (EvPrint (error_commenting Sample.abc_src
                       (mkExn ModelError "connection refused"))).
Proof.
  apply (auto_comment_removal_failure Inputs.no_removal_oracle Sample.abc_world
           Sample.abc_src Sample.abc_root "llama3.1:8b" "moderate" "x = 1").
  - reflexivity.
  - intros tr existing. reflexivity.
  - intros tr. reflexivity.
Defined.

(** The third [try] statement when the model answers [reply] and the
    directories can be made: the world it leaves. *)
Lemma remove_comments_reply
    (ollama_chat : list event -> string -> string -> result string)
    (w : World) (file_path auto_docu_root : Path) (model code reply : string)
    (m : gmap (list string) entry) (made : list (list string)) :
  PosixPath.well_formed file_path ->
  names file_path <> [] ->
  PosixPath.name file_path <> ".." ->
  Os.is_file_entry (Os.entry_at (fs w) (Os.resolve w file_path)) = true ->
  ollama_chat (trace w) model (uncomment_prompt code) = Ok reply ->
  Os.mkdir_chain (fs w) [] (Os.resolve w (mirrored_dir file_path auto_docu_root)) [] =
    inr (m, made) ->
  Os.entry_at m (Os.resolve w (mirrored file_path auto_docu_root)) <> Some Dir ->
  let k := Os.resolve w (mirrored file_path auto_docu_root) in
  let cleaned := cleaned_text (PyStr.universal_newlines reply) in
  exists tr,
    remove_comments ollama_chat file_path auto_docu_root model code w =
      (mkWorld (<[k := File cleaned]> m) (cwd w) (trace w ++ tr),
       Ok (Some (reply, mirrored file_path auto_docu_root))) /\
    writes_of tr = [k; k] /\
    length (chats_of tr) = 1.
Proof.
  intros Hwf Hne Hdots Hfile Hreply Hmk Hnodir k cleaned.
  set (w3 := mkWorld (fs w) (cwd w) (trace w ++ [EvChat model (uncomment_prompt code)])).
  set (w4 := mkWorld m (cwd w) (trace w3 ++ map EvMkdir made)).
  assert (Hpath : get_auto_docu_path file_path auto_docu_root w3 =
                  (w4, Ok (mirrored file_path auto_docu_root))).
  { by apply (get_auto_docu_path_mkdir file_path auto_docu_root Hwf Hne w3). }
  assert (Hs4 : settled file_path auto_docu_root w4).
  { by apply (settled_after_mkdir file_path auto_docu_root w m made). }
  destruct (write_and_clean file_path auto_docu_root Hne Hdots w4 reply
              ("Original comments removed from " +:+
               PosixPath.name (mirrored file_path auto_docu_root)) Hs4)
    as [Hrun _].
  rewrite (resolve_cwd w w4) in Hrun by done. fold k cleaned in Hrun.
  eexists. split; [|split].
  - unfold remove_comments, try_except_binding.
    unfold bind at 1, chat at 1. rewrite Hreply. fold w3.
    unfold bind at 1. rewrite Hpath. unfold ret at 1.
    cbv beta iota. rewrite Hrun. cbn [fs cwd trace w4 w3].
    rewrite <- !app_assoc. reflexivity.
  - rewrite !writes_of_app, writes_of_mkdirs. done.
  - rewrite !chats_of_app, chats_of_mkdirs. done.
Qed.

(** X12. When the model finds the styles different, returns the code
    without comments and then fails on the request to add comments,
    [auto_comment] prints the error and returns: the mirrored file was
    written twice, and it holds the reply to the removal request, cleaned of
    its fence. *)
Theorem auto_comment_recomment_failure
    (ollama_chat : list event -> string -> string -> result string)
    (w : World) (file_path auto_docu_root : Path) (model style raw reply : string)
    (e : exn) (m : gmap (list string) entry) (made : list (list string)) :
  PosixPath.well_formed file_path ->
  names file_path <> [] ->
  PosixPath.name file_path <> ".." ->
  Os.entry_at (fs w) (Os.resolve w file_path) = Some (File raw) ->
  (forall tr existing,
     verdict (ollama_chat tr model (compare_prompt existing style)) = true) ->
  (forall tr,
     ollama_chat tr model (uncomment_prompt (PyStr.universal_newlines raw)) = Ok reply) ->
  (forall tr text, ollama_chat tr model (recomment_prompt style text) = Raise e) ->
  Os.mkdir_chain (fs w) [] (Os.resolve w (mirrored_dir file_path auto_docu_root)) [] =
    inr (m, made) ->
  Os.entry_at m (Os.resolve w (mirrored file_path auto_docu_root)) <> Some Dir ->
  let k := Os.resolve w (mirrored file_path auto_docu_root) in
  exists w',
    auto_comment ollama_chat file_path auto_docu_root model style w = (w', Ok tt) /\
    fs w' = <[k := File (cleaned_text (PyStr.universal_newlines reply))]> m /\
    writes_of (trace w') = writes_of (trace w) ++ [k; k] /\
    length (chats_of (trace w')) = length (chats_of (trace w)) + 4 /\
    last (trace w') = Some (EvPrint (error_commenting file_path e)).
Proof.
  intros Hwf Hne Hdots Hfile Hdiff Hremove Hfail Hmk Hnodir k.
  set (code := PyStr.universal_newlines raw) in *.
  set (w0 := mkWorld (fs w) (cwd w) (trace w ++ [EvRead (Os.resolve w file_path)])).
  destruct (classify_comments_run ollama_chat w0 file_path model code)
    as (existing & line & Hclass).
  set (w1 := mkWorld (fs w0) (cwd w0) _) in Hclass.
  destruct (decide_needs_commenting_run ollama_chat w1 file_path model existing style)
    as (lines & Hdec).
  rewrite Hdiff in Hdec.
  set (w2 := mkWorld (fs w1) (cwd w1) _) in Hdec.
  destruct (remove_comments_reply ollama_chat w2 file_path auto_docu_root model code reply
              m made Hwf Hne Hdots) as (tr & Hrm & Hwr & Hch); try done.
  { rewrite (resolve_cwd w w2) by done. change (fs w2) with (fs w). by rewrite Hfile. }
  rewrite (resolve_cwd w w2) in Hrm by done. fold k in Hrm. cbn [cwd w2 w1 w0] in Hrm.
  set (cleaned := cleaned_text (PyStr.universal_newlines reply)) in *.
  set (w3 := mkWorld (<[k := File cleaned]> m) (cwd w) (trace w2 ++ tr)) in Hrm.
  assert (Hknil : k <> []).
  { unfold k. rewrite resolve_mirrored by done.
    by destruct (Os.resolve w (mirrored_dir file_path auto_docu_root)). }
  eexists. split.
  - unfold auto_comment. unfold bind at 1, Os.read_text. rewrite Hfile. fold w0 code.
    unfold bind at 1. rewrite Hclass.
    unfold bind at 1. rewrite Hdec.
    unfold bind at 1. rewrite Hrm.
    unfold bind at 1. cbn [fmap option_fmap option_map snd read_local]. unfold ret at 1.
    unfold bind at 1, Os.read_text. rewrite (resolve_cwd w w3) by done. fold k.
    cbn [fs w3]. rewrite entry_at_insert by done. rewrite decide_True by done.
    unfold add_comments, try_except, bind at 1, chat at 1. rewrite Hfail.
    unfold print, emit. cbn [fs cwd trace]. reflexivity.
  - cbn [fs cwd trace w3 w2 w1 w0].
    rewrite !writes_of_app, !chats_of_app, !length_app, Hwr, Hch.
    cbn [writes_of chats_of length app].
    rewrite writes_of_prints, chats_of_prints, !app_nil_r, last_snoc.
    cbn [length]. repeat split; lia.
Qed.

Lemma auto_comment_recomment_failure_witness :
  exists w',
    auto_comment Inputs.no_recomment_oracle Sample.abc_src Sample.abc_root
      "llama3.1:8b" "moderate" Sample.abc_world = (w', Ok tt) /\
    fs w' !! ["A"; "D"; "A"; "B"; "C.py"] = Some (File (text_of_lines ["x = 1"; ""])) /\
    writes_of (trace w') =
      [["A"; "D"; "A"; "B"; "C.py"]; ["A"; "D"; "A"; "B"; "C.py"]] /\
    length (chats_of (trace w')) = 4.
Proof.
  destruct (auto_comment_recomment_failure Inputs.no_recomment_oracle Sample.abc_world
              Sample.abc_src Sample.abc_root "llama3.1:8b" "moderate" "x = 1"
              (Sample.fenced "x = 1") (mkExn ModelError "connection refused")
              (<[ ["A"; "D"; "A"; "B"] := Dir ]>
                 (<[ ["A"; "D"; "A"] := Dir ]> (<[ ["A"; "D"] := Dir ]> Sample.abc_fs)))
              [["A"; "D"]; ["A"; "D"; "A"]; ["A"; "D"; "A"; "B"]])
    as (w' & Hrun & Hfs & Hwr & Hch & _).
  - repeat constructor.
  - discriminate.
  - vm_compute. discriminate.
  - reflexivity.
  - intros tr existing. reflexivity.
  - intros tr. reflexivity.
  - intros tr text. reflexivity.
  - reflexivity.
  - vm_compute. discriminate.
  - exists w'. split; [exact Hrun|]. split; [|split; [exact Hwr|exact Hch]].
    rewrite Hfs. apply lookup_insert_eq.
Defined.

(** ** File discovery, continued *)

(** X13. [find_all_python_files] does not fail on a directory that is not
    there: when the path names nothing, or a regular file, the scan finds
    nothing and the list is empty. *)
Theorem find_all_python_files_no_directory (w : World) (directory : pathlike)
    (exclude_dirs : option (list string)) :
  Os.entry_at (fs w) (Os.resolve w (as_path directory)) <> Some Dir ->
  find_all_python_files directory exclude_dirs w =
    (mkWorld (fs w) (cwd w) (trace w ++ [EvGlob (Os.resolve w (as_path directory))]),
     Ok []).
Proof.
  intros Hnodir. unfold find_all_python_files, bind, Os.rglob_suffix, Os.below.
  destruct (Os.is_dir_entry _) eqn:Hd; [|done].
  by apply is_dir_entry_true in Hd.
Qed.

Lemma find_all_python_files_no_directory_witness :
  find_all_python_files (PStr "A/auto_docu_output") None Sample.abc_world =
    (mkWorld (fs Sample.abc_world) [] [EvGlob ["A"; "auto_docu_output"]], Ok []).
Proof.
  apply (find_all_python_files_no_directory Sample.abc_world (PStr "A/auto_docu_output")).
  vm_compute. discriminate.
Defined.

Lemma parts_joinpath (root : Path) (rel : list string) :
  PosixPath.parts (PosixPath.joinpath root (mkPath false rel)) =
  PosixPath.parts root ++ rel.
Proof. unfold PosixPath.parts, PosixPath.joinpath. cbn. by destruct (anchor root). Qed.

(** X14. The exclusion test of [find_all_python_files] looks at every
    component of the path it found, those of the directory it was given
    included: when a component of that directory is in the exclusion list,
    every file is left out and the list is empty. *)
Theorem find_all_python_files_excluded_root (w : World) (directory : pathlike)
    (exclude_dirs : list string) (part : string) :
  part ∈ PosixPath.parts (as_path directory) ->
  part ∈ exclude_dirs ->
  find_all_python_files directory (Some exclude_dirs) w =
    (mkWorld (fs w) (cwd w) (trace w ++ [EvGlob (Os.resolve w (as_path directory))]),
     Ok []).
Proof.
  intros Hpart Hex. unfold find_all_python_files, bind, Os.rglob_suffix, ret.
  cbn [default fs cwd trace]. rewrite filter_none; [done|].
  intros p Hin Hfree. apply list_elem_of_fmap in Hin as (rel & -> & _).
  unfold id in Hfree.
  apply (proj1 (has_excluded_part_false _ _) Hfree part); [|done].
  rewrite parts_joinpath. apply elem_of_app. by left.
Qed.

Lemma find_all_python_files_excluded_root_witness :
  find_all_python_files (PStr "A/B") (Some ["B"]) Sample.abc_world =
    (mkWorld (fs Sample.abc_world) [] [EvGlob ["A"; "B"]], Ok []).
Proof.
  apply (find_all_python_files_excluded_root Sample.abc_world (PStr "A/B") ["B"] "B").
  - vm_compute. set_solver.
  - set_solver.
Defined.

Lemma NoDup_omap_inj {A B} (f : A -> option B) (l : list A) :
  (forall x y z, f x = Some z -> f y = Some z -> x = y) ->
  NoDup l -> NoDup (omap f l).
Proof.
  intros Hinj. induction 1 as [|x l Hnotin Hnodup IH]; [constructor|].
  change (omap f (x :: l))
    with (match f x with Some z => z :: omap f l | None => omap f l end).
  destruct (f x) as [z|] eqn:Hx; [|exact IH].
  constructor; [|exact IH]. intros Hin. apply list_elem_of_omap in Hin as (y & Hy & Hfy).
  by rewrite (Hinj x y z Hx Hfy) in Hnotin.
Qed.

Lemma omap_on_keys {K V B} (g : K -> option B) (l : list (K * V)) :
  omap (fun kv => g (fst kv)) l = omap g l.*1.
Proof.
  induction l as [|[k v] l IH]; [done|].
  change (omap (fun kv => g (fst kv)) ((k, v) :: l))
    with (match g k with
          | Some z => z :: omap (fun kv => g (fst kv)) l
          | None => omap (fun kv => g (fst kv)) l
          end).
  change (omap g ((k, v) :: l).*1)
    with (match g k with Some z => z :: omap g l.*1 | None => omap g l.*1 end).
  by rewrite IH.
Qed.

(** The entries below a directory are listed once each. *)
Lemma NoDup_below (m : gmap (list string) entry) (d : list string) : NoDup (Os.below m d).
Proof.
  unfold Os.below. destruct (Os.is_dir_entry _); [|constructor].
  set (g := fun k : list string =>
              match PosixPath.strip_prefix d k with
              | Some (c :: rel) =>
                  if Os.dirs_along m d (c :: rel) then Some (c :: rel) else None
              | _ => None
              end).
  change (NoDup (omap (fun kv : list string * entry => g (fst kv)) (map_to_list m))).
  rewrite omap_on_keys.
  apply NoDup_omap_inj; [|apply NoDup_fst_map_to_list].
  intros k k' rel. unfold g.
  destruct (PosixPath.strip_prefix d k) as [[|c r]|] eqn:Hk; try done.
  destruct (PosixPath.strip_prefix d k') as [[|c' r']|] eqn:Hk'; try done.
  apply strip_prefix_spec in Hk, Hk'.
  destruct (Os.dirs_along m d (c :: r)); [|done].
  destruct (Os.dirs_along m d (c' :: r')); [|done].
  intros [= <-] [= -> ->]. by rewrite Hk, Hk'.
Qed.

(** X15. [find_all_python_files] returns no path twice, so the loops of
    the orchestrator take every file once. *)
Theorem find_all_python_files_no_duplicates (w w' : World) (directory : pathlike)
    (exclude_dirs : option (list string)) (files : list Path) :
  find_all_python_files directory exclude_dirs w = (w', Ok files) ->
  NoDup files.
Proof.
  unfold find_all_python_files, bind, Os.rglob_suffix, ret. intros [= _ <-].
  apply NoDup_filter, NoDup_fmap_2, NoDup_filter, NoDup_below.
  intros rel rel' Heq. unfold PosixPath.joinpath in Heq. cbn in Heq.
  injection Heq as Heq. by apply app_inv_head in Heq.
Qed.

Lemma find_all_python_files_no_duplicates_witness :
  let run := find_all_python_files (PStr "proj") (Some ["venv"]) Sample.proj_world in
  snd run = Ok [mkPath false ["proj"; "a.py"]] /\
  NoDup [mkPath false ["proj"; "a.py"]].
Proof.
  split; [reflexivity|].
  apply (find_all_python_files_no_duplicates Sample.proj_world
           (fst (find_all_python_files (PStr "proj") (Some ["venv"]) Sample.proj_world))
           (PStr "proj") (Some ["venv"])).
  reflexivity.
Defined.

(** ** The directory listing *)

Lemma walk_dir_step (levels : nat) (exclude_dirs : option (list string))
    (show_file_preview : bool) (preview_lines : Z)
    (current_path : string) (indent_level : nat) (output : list string) :
  walk_dir (S levels) exclude_dirs show_file_preview preview_lines
    current_path indent_level output =
  (listed <- Os.listdir (PosixPath.of_str current_path) ;;
   for_fold (merge_sort String.le listed) output
     (walk_dir_item levels exclude_dirs show_file_preview preview_lines
        current_path indent_level)).
Proof. reflexivity. Qed.

Lemma item_is_dir_same (w w' : World) (current_path item : string) :
  fs w' = fs w -> cwd w' = cwd w ->
  item_is_dir w' current_path item = item_is_dir w current_path item.
Proof. intros Hfs Hcwd. unfold item_is_dir. by rewrite (resolve_cwd w w'), Hfs. Qed.

(** A turn of the loop on something that is not a directory returns, and
    writes nothing. *)
Lemma walk_dir_item_file (levels : nat) (exclude_dirs : option (list string))
    (show_file_preview : bool) (preview_lines : Z)
    (current_path : string) (indent_level : nat) (output : list string)
    (item : string) (w : World) :
  item_is_dir w current_path item = false ->
  exists w' output',
    walk_dir_item levels exclude_dirs show_file_preview preview_lines
      current_path indent_level output item w = (w', Ok output') /\
    fs w' = fs w /\ cwd w' = cwd w /\ writes_of (trace w') = writes_of (trace w).
Proof.
  intros Hd. unfold walk_dir_item, bind at 1, Os.is_dir.
  unfold item_is_dir in Hd. rewrite Hd.
  destruct (PyStr.startswith item "."); [by exists w, output|].
  destruct (show_file_preview && previewable item);
    [|eexists w, _; split; [reflexivity|done]].
  unfold try_except, bind, Os.read_text.
  destruct (Os.entry_at (fs w) _) as [[text|]|];
    [|eexists w, _; split; [reflexivity|done]..].
  destruct (PyStr.nonempty _); eexists _, _; (split; [reflexivity|]);
    cbn [fs cwd trace]; rewrite writes_of_app; cbn; by rewrite app_nil_r.
Qed.

(** With no exclusion list, a turn of the loop on a directory raises. *)
Lemma walk_dir_item_none (levels : nat) (show_file_preview : bool) (preview_lines : Z)
    (current_path : string) (indent_level : nat) (output : list string)
    (item : string) (w : World) :
  item_is_dir w current_path item = true ->
  walk_dir_item levels None show_file_preview preview_lines
    current_path indent_level output item w = (w, Raise none_not_iterable).
Proof.
  intros Hd. unfold walk_dir_item, bind at 1, Os.is_dir.
  unfold item_is_dir in Hd. by rewrite Hd.
Qed.

Lemma walk_dir_items_none (levels : nat) (show_file_preview : bool) (preview_lines : Z)
    (current_path : string) (indent_level : nat) (items : list string) (item : string) :
  item ∈ items ->
  forall (output : list string) (w : World),
    item_is_dir w current_path item = true ->
    exists w',
      for_fold items output
        (walk_dir_item levels None show_file_preview preview_lines
           current_path indent_level) w = (w', Raise none_not_iterable) /\
      fs w' = fs w /\ writes_of (trace w') = writes_of (trace w).
Proof.
  intros Hin. induction items as [|x items IH]; [by apply elem_of_nil in Hin|].
  intros output w Hd. cbn [for_fold]. unfold bind.
  destruct (item_is_dir w current_path x) eqn:Hx.
  - rewrite (walk_dir_item_none _ _ _ _ _ _ _ _ Hx). by exists w.
  - destruct (walk_dir_item_file levels None show_file_preview preview_lines
                current_path indent_level output x w Hx)
      as (w1 & output1 & -> & Hfs & Hcwd & Hwr).
    apply elem_of_cons in Hin as [->|Hin]; [congruence|].
    destruct (IH Hin output1 w1) as (w' & Hrun & Hfs' & Hwr').
    { by rewrite (item_is_dir_same w w1). }
    exists w'. rewrite Hrun. repeat split; congruence.
Qed.

(** X16. With [exclude_dirs] left at its default, [None],
    [describe_directory_structure] cannot list a directory that holds a
    directory: the membership test on [None] raises TypeError at the first
    directory the loop meets, and README_1_directory_structure.txt is not
    written. *)
Theorem describe_directory_structure_without_excludes (w : World)
    (directory output_path : pathlike) (max_depth : Z)
    (show_file_preview : bool) (preview_lines : Z) (item : string) :
  (0 <= max_depth)%Z ->
  Os.entry_at (fs w) (Os.resolve w (PosixPath.of_str (fspath directory))) = Some Dir ->
  item ∈ Os.children (fs w) (Os.resolve w (PosixPath.of_str (fspath directory))) ->
  item_is_dir w (fspath directory) item = true ->
  exists w',
    describe_directory_structure directory output_path None max_depth
      show_file_preview preview_lines w = (w', Raise none_not_iterable) /\
    fs w' = fs w /\
    writes_of (trace w') = writes_of (trace w).
Proof.
  intros Hdepth Hdir Hin Hd.
  unfold describe_directory_structure, bind at 1, Os.abs_basename.
  replace (Z.to_nat (max_depth + 1)) with (S (Z.to_nat max_depth)) by lia.
  rewrite walk_dir_step. unfold bind at 1 2, Os.listdir. rewrite Hdir.
  set (w1 := mkWorld _ _ _).
  destruct (walk_dir_items_none (Z.to_nat max_depth) show_file_preview preview_lines
              (fspath directory) 0
              (merge_sort String.le
                 (Os.children (fs w) (Os.resolve w (PosixPath.of_str (fspath directory)))))
              item) with (output := [listing_header
                 (default "" (last (Os.resolve w (PosixPath.of_str (fspath directory)))))])
                         (w := w1)
    as (w' & Hrun & Hfs & Hwr).
  - by rewrite merge_sort_Permutation.
  - by rewrite (item_is_dir_same w w1).
  - exists w'. unfold listing_header in Hrun. rewrite Hrun.
    split; [done|]. split; [done|].
    rewrite Hwr. subst w1. cbn [trace]. rewrite writes_of_app. cbn. by rewrite app_nil_r.
Qed.

Lemma describe_directory_structure_without_excludes_witness :
  exists w',
    describe_directory_structure (PStr "proj") (PStr "out") None 3 false 3
      Inputs.tree_world = (w', Raise none_not_iterable) /\
    fs w' = fs Inputs.tree_world /\
    writes_of (trace w') = writes_of (trace Inputs.tree_world).
Proof.
  apply (describe_directory_structure_without_excludes Inputs.tree_world
           (PStr "proj") (PStr "out") 3 false 3 "pkg").
  - lia.
  - reflexivity.
  - vm_compute. set_solver.
  - reflexivity.
Defined.

(** Without previews, a turn of the loop on something that is not a
    directory adds its line, unless the name is hidden, and does nothing
    else. *)
Lemma walk_dir_item_plain (levels : nat) (exclude_dirs : option (list string))
    (preview_lines : Z) (current_path : string) (indent_level : nat)
    (output : list string) (item : string) (w : World) :
  item_is_dir w current_path item = false ->
  walk_dir_item levels exclude_dirs false preview_lines
    current_path indent_level output item w =
    (w, Ok (if PyStr.startswith item "." then output
            else output ++ [PyStr.repeat_str "  " indent_level +:+ "- " +:+ item])).
Proof.
  intros Hd. unfold walk_dir_item, bind at 1, Os.is_dir.
  unfold item_is_dir in Hd. rewrite Hd.
  by destruct (PyStr.startswith item ".").
Qed.

Lemma walk_dir_items_flat (levels : nat) (exclude_dirs : option (list string))
    (preview_lines : Z) (current_path : string) (indent_level : nat) (w : World)
    (items : list string) :
  (forall item, item ∈ items -> item_is_dir w current_path item = false) ->
  forall output,
    for_fold items output
      (walk_dir_item levels exclude_dirs false preview_lines current_path indent_level) w =
      (w, Ok (output ++
              map (fun item => PyStr.repeat_str "  " indent_level +:+ "- " +:+ item)
                  (filter (fun item => PyStr.startswith item "." = false) items))).
Proof.
  induction items as [|x items IH]; intros Hfiles output.
  - cbn. by rewrite app_nil_r.
  - cbn [for_fold]. unfold bind.
    rewrite walk_dir_item_plain by (apply Hfiles; by left).
    rewrite IH by (intros item Hin; apply Hfiles; by right).
    rewrite filter_cons. destruct (PyStr.startswith x ".") eqn:Hx.
    + by rewrite decide_False.
    + rewrite decide_True by done. cbn [map]. by rewrite <- app_assoc.
Qed.

(** X17. For a directory that holds no directory, the listing
    [describe_directory_structure] writes is the header followed by one
    line per entry, in the sorted order of the names and without the names
    that start with a dot; this holds whatever the exclusion list is, [None]
    included, since only directories are tested against it. *)
Theorem describe_directory_structure_flat (w : World)
    (directory output_path : pathlike) (exclude_dirs : option (list string))
    (max_depth preview_lines : Z) :
  (0 <= max_depth)%Z ->
  let d := Os.resolve w (PosixPath.of_str (fspath directory)) in
  Os.entry_at (fs w) d = Some Dir ->
  (forall item, item ∈ Os.children (fs w) d -> item_is_dir w (fspath directory) item = false) ->
  describe_directory_structure directory output_path exclude_dirs max_depth
    false preview_lines w =
    Os.write_text
      (PosixPath.joinstr (as_path output_path) "README_1_directory_structure.txt")
      (text_of_lines
         (listing_header (default "" (last d)) ::
          map (fun item => "- " +:+ item)
              (filter (fun item => PyStr.startswith item "." = false)
                      (merge_sort String.le (Os.children (fs w) d)))))
      (mkWorld (fs w) (cwd w) (trace w ++ [EvListdir d])).
Proof.
  intros Hdepth d Hdir Hfiles.
  unfold describe_directory_structure, bind at 1, Os.abs_basename.
  replace (Z.to_nat (max_depth + 1)) with (S (Z.to_nat max_depth)) by lia.
  rewrite walk_dir_step. unfold bind at 1 2, Os.listdir. fold d. rewrite Hdir.
  set (w1 := mkWorld _ _ _).
  rewrite (walk_dir_items_flat _ _ _ _ _ w1).
  - reflexivity.
  - intros item Hin. rewrite (item_is_dir_same w w1) by done.
    apply Hfiles. by rewrite merge_sort_Permutation in Hin.
Qed.

Lemma describe_directory_structure_flat_witness :
  describe_directory_structure (PStr "flat") (PStr "out") None 3 false 3
    Inputs.flat_world =
    Os.write_text (mkPath false ["out"; "README_1_directory_structure.txt"])
      (text_of_lines ["# Directory structure for `flat`"; "- a.txt"; "- b.py"])
      (mkWorld (fs Inputs.flat_world) [] [EvListdir ["flat"]]).
Proof.
  refine (describe_directory_structure_flat Inputs.flat_world (PStr "flat") (PStr "out")
            None 3 3 _ _ _).
  - lia.
  - reflexivity.
  - intros item Hin. vm_compute in Hin.
    repeat (apply elem_of_cons in Hin as [->|Hin]; [reflexivity|]).
    by apply elem_of_nil in Hin.
Defined.

(** *** What the listing holds *)






(** ** The summariser and the README, continued *)

(** X19. The loop body of [summarize_directory] cannot add an entry for a
    file: [py_file] is a [Path], whose [replace] method takes the target
    alone, so the call with two arguments raises TypeError where the entry
    is built; the handler makes the same call and raises in turn. Whatever
    the file and the model do, the turn ends in that TypeError, and it
    renames and writes nothing. *)
Theorem summarize_one_raises
    (ollama_chat : list event -> string -> string -> result string)
    (model summary_txt : string) (py_file : Path) (w : World) :
  exists w',
    summarize_one ollama_chat model summary_txt py_file w = (w', Raise replace_arity) /\
    fs w' = fs w /\
    writes_of (trace w') = writes_of (trace w).
Proof.
  unfold summarize_one, try_except, bind at 1, Os.read_text.
  destruct (Os.entry_at (fs w) (Os.resolve w py_file)) as [[text|]|];
    [|by exists w..].
  unfold bind at 1, chat at 1. cbn [fs cwd trace].
  destruct (ollama_chat _ model (summary_prompt _)) as [r1|e1].
  2:{ eexists. split; [reflexivity|]. cbn [fs trace].
      rewrite !writes_of_app. cbn. by rewrite !app_nil_r. }
  unfold bind at 1, chat at 1. cbn [fs cwd trace].
  destruct (ollama_chat _ model (processes_prompt _)) as [r2|e2];
    (eexists; split; [reflexivity|]; cbn [fs trace];
     rewrite !writes_of_app; cbn; by rewrite !app_nil_r).
Qed.

(** X20. On a directory that can be listed and holds no name ending in
    [.txt], [generate_readme] raises ValueError: no file is read, no model
    call is made and nothing is written. *)
Theorem generate_readme_no_txt
    (ollama_chat : list event -> string -> string -> result string)
    (w : World) (txt_dir output_path : pathlike) (model : string) :
  let d := Os.resolve w (as_path txt_dir) in
  Os.entry_at (fs w) d = Some Dir ->
  (forall filename, filename ∈ Os.children (fs w) d ->
     PyStr.endswith filename ".txt" = false) ->
  generate_readme ollama_chat txt_dir output_path model w =
    (mkWorld (fs w) (cwd w) (trace w ++ [EvListdir d]), Raise no_txt_files).
Proof.
  intros d Hdir Hnone.
  unfold generate_readme, bind at 1, Os.listdir. fold d. rewrite Hdir.
  set (w1 := mkWorld _ _ _).
  assert (Hloop : forall (items : list string),
    (forall filename, filename ∈ items -> PyStr.endswith filename ".txt" = false) ->
    for_fold items []
      (fun (txt_contents : list string) filename =>
         if PyStr.endswith filename ".txt" then
           text <- Os.read_text
                     (PosixPath.of_str (Os.path_join (fspath txt_dir) filename)) ;;
           ret (txt_contents ++ [text])
         else ret txt_contents) w1 = (w1, Ok [])).
  { induction items as [|x items IH]; intros Hitems; [done|].
    cbn [for_fold]. unfold bind at 1. rewrite (Hitems x) by by left.
    unfold ret at 1. apply IH. intros filename Hin. apply Hitems. by right. }
  unfold bind. rewrite Hloop; [done|].
  intros filename Hin. apply Hnone. by rewrite merge_sort_Permutation in Hin.
Qed.

Lemma generate_readme_no_txt_witness :
  generate_readme Sample.similar_oracle (PStr "A/B") (PStr "A") "llama3.1:8b"
    Sample.abc_world =
    (mkWorld (fs Sample.abc_world) [] [EvListdir ["A"; "B"]], Raise no_txt_files).
Proof.
  refine (generate_readme_no_txt Sample.similar_oracle Sample.abc_world
            (PStr "A/B") (PStr "A") "llama3.1:8b" _ _).
  - reflexivity.
  - intros filename Hin. vm_compute in Hin.
    repeat (apply elem_of_cons in Hin as [->|Hin]; [reflexivity|]).
    by apply elem_of_nil in Hin.
Defined.

Lemma quiet_chat (ollama_chat : list event -> string -> string -> result string)
    (model prompt : string) : quiet (chat ollama_chat model prompt).
Proof.
  intros w w' r [= <- _]. cbn [fs cwd trace]. rewrite writes_of_app. cbn.
  by rewrite app_nil_r.
Qed.

(** X21. Given a [Path] as [output_path], as the orchestrator gives it,
    [generate_readme] never writes README.md and never returns: every run
    ends in an exception (the TypeError of adding a string to a path, when
    the run gets as far as the model's reply), and nothing was written. *)
Theorem generate_readme_path_output
    (ollama_chat : list event -> string -> string -> result string)
    (w w' : World) (txt_dir : pathlike) (output_path : Path) (model : string)
    (r : result unit) :
  generate_readme ollama_chat txt_dir (PPath output_path) model w = (w', r) ->
  (exists e, r = Raise e) /\
  fs w' = fs w /\
  writes_of (trace w') = writes_of (trace w).
Proof.
  unfold generate_readme, bind at 1.
  destruct (Os.listdir _ w) as [w1 [listed|e1]] eqn:Hlist;
    destruct (quiet_listdir _ _ _ _ Hlist) as (Hfs1 & Hcwd1 & Hwr1);
    [|intros [= <- <-]; split; [by eexists|done]].
  unfold bind at 1.
  destruct (for_fold _ _ _ w1) as [w2 [txt_contents|e2]] eqn:Hloop.
  2:{ intros [= <- <-]. split; [by eexists|].
      eapply quiet_for_fold in Hloop as (Hfs2 & _ & Hwr2); [split; congruence|].
      intros acc x _. destruct (PyStr.endswith x ".txt"); [|apply quiet_ret].
      apply quiet_bind; [apply quiet_read_text|]. intros text. apply quiet_ret. }
  eapply quiet_for_fold in Hloop as (Hfs2 & _ & Hwr2).
  2:{ intros acc x _. destruct (PyStr.endswith x ".txt"); [|apply quiet_ret].
      apply quiet_bind; [apply quiet_read_text|]. intros text. apply quiet_ret. }
  destruct txt_contents as [|text rest].
  { intros [= <- <-]. split; [by eexists|split; congruence]. }
  unfold bind at 1.
  destruct (chat _ _ _ w2) as [w3 [reply|e3]] eqn:Hchat;
    destruct (quiet_chat _ _ _ _ _ _ Hchat) as (Hfs3 & _ & Hwr3).
  - unfold bind, add_str, raise. intros [= <- <-].
    split; [by eexists|split; congruence].
  - intros [= <- <-]. split; [by eexists|split; congruence].
Qed.

Lemma generate_readme_path_output_witness :
  let run := generate_readme Sample.similar_oracle (PStr "flat")
               (PPath (mkPath false ["out"])) "llama3.1:8b" Inputs.flat_world in
  snd run = Raise path_plus_str /\
  (exists e, snd run = Raise e) /\
  fs (fst run) = fs Inputs.flat_world /\
  writes_of (trace (fst run)) = writes_of (trace Inputs.flat_world).
Proof.
  split; [reflexivity|].
  apply (generate_readme_path_output Sample.similar_oracle Inputs.flat_world _
           (PStr "flat") (mkPath false ["out"]) "llama3.1:8b").
  reflexivity.
Defined.

(** *** The README that is written *)

Lemma rstrip_rstrip (s : string) : PyStr.rstrip (PyStr.rstrip s) = PyStr.rstrip s.
Proof.
  induction s as [|c s IH]; [done|]. cbn [PyStr.rstrip].
  destruct (PyStr.rstrip s) as [|c' r] eqn:Hr.
  - destruct (PyStr.isspace c) eqn:Hc; [done|]. cbn [PyStr.rstrip]. by rewrite Hc.
  - change (PyStr.rstrip (String c (String c' r)))
      with (match PyStr.rstrip (String c' r) with
            | EmptyString => if PyStr.isspace c then EmptyString else String c EmptyString
            | r' => String c r'
            end).
    by rewrite IH.
Qed.

Lemma lstrip_rstrip_lstrip (s : string) :
  PyStr.lstrip (PyStr.rstrip (PyStr.lstrip s)) = PyStr.rstrip (PyStr.lstrip s).
Proof.
  induction s as [|c s IH]; [done|]. cbn [PyStr.lstrip].
  destruct (PyStr.isspace c) eqn:Hc; [exact IH|].
  cbn [PyStr.rstrip]. destruct (PyStr.rstrip s) as [|c' r]; rewrite ?Hc;
    cbn [PyStr.lstrip]; by rewrite Hc.
Qed.

(** Stripping twice is stripping once. *)
Lemma strip_strip (s : string) : PyStr.strip (PyStr.strip s) = PyStr.strip s.
Proof. unfold PyStr.strip. by rewrite lstrip_rstrip_lstrip, rstrip_rstrip. Qed.

(** The loop of [generate_readme]: the .txt files are read in the order of
    the list, and nothing else happens. *)
Lemma read_txt_files (txt_dir : pathlike) (text_of : string -> string) (w : World)
    (items : list string) :
  (forall filename, filename ∈ items -> PyStr.endswith filename ".txt" = true ->
     Os.entry_at (fs w)
       (Os.resolve w (PosixPath.of_str (Os.path_join (fspath txt_dir) filename))) =
     Some (File (text_of filename))) ->
  forall (tr : list event) (txt_contents : list string),
    let names := filter (fun filename => PyStr.endswith filename ".txt" = true) items in
    for_fold items txt_contents
      (fun (txt_contents : list string) filename =>
         if PyStr.endswith filename ".txt" then
           text <- Os.read_text
                     (PosixPath.of_str (Os.path_join (fspath txt_dir) filename)) ;;
           ret (txt_contents ++ [text])
         else ret txt_contents)
      (mkWorld (fs w) (cwd w) tr) =
      (mkWorld (fs w) (cwd w)
         (tr ++ map (fun filename =>
                       EvRead (Os.resolve w
                                 (PosixPath.of_str
                                    (Os.path_join (fspath txt_dir) filename)))) names),
       Ok (txt_contents ++
           map (fun filename => PyStr.universal_newlines (text_of filename)) names)).
Proof.
  induction items as [|x items IH]; intros Hfiles tr txt_contents names; subst names.
  - cbn. by rewrite !app_nil_r.
  - cbn [for_fold]. unfold bind at 1. rewrite filter_cons.
    destruct (PyStr.endswith x ".txt") eqn:Hx.
    + rewrite decide_True by done.
      unfold bind at 1, Os.read_text.
      rewrite (resolve_cwd w (mkWorld (fs w) (cwd w) tr)) by done. cbn [fs cwd trace].
      rewrite (Hfiles x) by (done || by left). unfold ret at 1.
      rewrite IH by (intros filename Hin; apply Hfiles; by right).
      cbn [map]. by rewrite <- !app_assoc.
    + rewrite decide_False by done. unfold ret at 1.
      apply IH. intros filename Hin. apply Hfiles. by right.
Qed.

(** X22. Given a directory that holds .txt files and a [str] as
    [output_path], [generate_readme] reads the .txt files in the sorted
    order of their names, sends the model one prompt that holds their texts
    joined by blank lines, and writes the reply, stripped, to
    [output_path + "/README.md"]. *)
Theorem generate_readme_writes
    (ollama_chat : list event -> string -> string -> result string)
    (w : World) (txt_dir : pathlike) (output_path model reply : string)
    (text_of : string -> string) :
  let d := Os.resolve w (as_path txt_dir) in
  let names :=
    filter (fun filename => PyStr.endswith filename ".txt" = true)
           (merge_sort String.le (Os.children (fs w) d)) in
  let file_of filename :=
    Os.resolve w (PosixPath.of_str (Os.path_join (fspath txt_dir) filename)) in
  let prompt :=
    readme_prompt
      (PyStr.join (PyStr.nl +:+ PyStr.nl)
         (map (fun filename => PyStr.universal_newlines (text_of filename)) names)) in
  let tr := trace w ++ EvListdir d :: map (fun filename => EvRead (file_of filename)) names in
  Os.entry_at (fs w) d = Some Dir ->
  names <> [] ->
  (forall filename, filename ∈ names ->
     Os.entry_at (fs w) (file_of filename) = Some (File (text_of filename))) ->
  ollama_chat tr model prompt = Ok reply ->
  generate_readme ollama_chat txt_dir (PStr output_path) model w =
    (Os.write_text (PosixPath.of_str (output_path +:+ "/README.md")) (PyStr.strip reply) ;;
     print ("README generated at " +:+ output_path))
      (mkWorld (fs w) (cwd w) (tr ++ [EvChat model prompt])).
Proof.
  intros d names file_of prompt tr Hdir Hne Hfiles Hreply.
  unfold generate_readme, bind at 1, Os.listdir. fold d. rewrite Hdir.
  unfold bind at 1.
  rewrite (read_txt_files txt_dir text_of w).
  2:{ intros filename Hin Htxt. apply Hfiles. by apply list_elem_of_filter. }
  fold names. cbn [app].
  destruct (map _ names) as [|text rest] eqn:Hmap.
  { destruct names; [done|discriminate]. }
  rewrite <- Hmap. fold prompt.
  unfold bind at 1, chat at 1. cbn [fs cwd trace].
  replace ((trace w ++ [EvListdir d]) ++
           map (fun filename =>
                  EvRead (Os.resolve w (PosixPath.of_str
                                          (Os.path_join (fspath txt_dir) filename)))) names)
    with tr by (subst tr; by rewrite <- app_assoc).
  subst prompt. rewrite <- Hmap in Hreply. rewrite Hreply.
  unfold bind at 1, add_str, ret at 1. by rewrite strip_strip, Hmap.
Qed.

Lemma generate_readme_writes_witness :
  generate_readme Sample.similar_oracle (PStr "flat") (PStr "out") "llama3.1:8b"
    Inputs.flat_world =
    (mkWorld (<[ ["out"; "README.md"] := File "similar" ]> (fs Inputs.flat_world)) []
       [EvListdir ["flat"]; EvRead ["flat"; "a.txt"];
        EvChat "llama3.1:8b" (readme_prompt "notes");
        EvWrite ["out"; "README.md"] "similar";
        EvPrint "README generated at out"],
     Ok tt).
Proof.
  refine (generate_readme_writes Sample.similar_oracle Inputs.flat_world (PStr "flat")
            "out" "llama3.1:8b" "similar" (fun _ => "notes") _ _ _ _).
  - reflexivity.
  - vm_compute. discriminate.
  - intros filename Hin. vm_compute in Hin.
    repeat (apply elem_of_cons in Hin as [->|Hin]; [reflexivity|]).
    by apply elem_of_nil in Hin.
  - reflexivity.
Defined.

(** ** The orchestrator, continued *)

Lemma bind_Ok_inv {A B} (m : Py A) (k : A -> Py B) (w w' : World) (b : B) :
  bind m k w = (w', Ok b) ->
  exists w1 a, m w = (w1, Ok a) /\ k a w1 = (w', Ok b).
Proof.
  unfold bind. destruct (m w) as [w1 [a|e]]; [|done]. intros H. by exists w1, a.
Qed.

(** X23. [orchestrate_all] never runs to its end: whatever the directory,
    the exclusion list, the files and the model, every run ends in an
    exception, since the run that gets as far as [summarize_directory]
    fails there. *)
Theorem orchestrate_all_never_completes
    (ollama_chat : list event -> string -> string -> result string)
    (ast_parse : string -> result ast)
    (w w' : World) (directory : string) (exclude_dirs : option (list string))
    (commenting_style model : string) (r : result unit) :
  orchestrate_all ollama_chat ast_parse directory exclude_dirs commenting_style model w =
    (w', r) ->
  exists e, r = Raise e.
Proof.
  destruct r as [[]|e]; [|by eexists]. intros Hrun. exfalso.
  unfold orchestrate_all in Hrun.
  do 12 (apply bind_Ok_inv in Hrun as (? & ? & _ & Hrun); cbv beta in Hrun).
  apply bind_Ok_inv in Hrun as (? & ? & Hsum & _).
  unfold summarize_directory, bind, call_describe_directory_structure, raise in Hsum.
  discriminate.
Qed.

Lemma orchestrate_all_never_completes_witness :
  exists e,
    snd (orchestrate_all Sample.eager_oracle Sample.class_parse
           "proj" (Some []) "moderate" "llama3.1:8b" Sample.proj_world) = Raise e.
Proof.
  apply (orchestrate_all_never_completes Sample.eager_oracle Sample.class_parse
           Sample.proj_world
           (fst (orchestrate_all Sample.eager_oracle Sample.class_parse
                   "proj" (Some []) "moderate" "llama3.1:8b" Sample.proj_world))
           "proj" (Some []) "moderate" "llama3.1:8b").
  vm_compute. reflexivity.
Defined.

(** ** Where the normaliser writes *)

Lemma quiet_print (line : string) : quiet (print line).
Proof.
  intros w w' r [= <- _]. cbn [fs cwd trace]. rewrite writes_of_app. cbn.
  by rewrite app_nil_r.
Qed.

Lemma stays_within_refl (p : Path) (w : World) : stays_within p w w.
Proof. split; [done|]. split; [done|]. exists []. by rewrite app_nil_r. Qed.

Lemma stays_within_trans (p : Path) (w w1 w2 : World) :
  stays_within p w w1 -> stays_within p w1 w2 -> stays_within p w w2.
Proof.
  intros (Hcwd & Hfs & ks & Hwr & Hks) (Hcwd' & Hfs' & ks' & Hwr' & Hks').
  rewrite (resolve_cwd w w1) in Hfs', Hks' by done.
  split; [congruence|]. split; [by auto|].
  exists (ks ++ ks'). rewrite Hwr', Hwr, <- app_assoc. split; [done|].
  by apply Forall_app.
Qed.

Lemma confined_quiet {A} (p : Path) (m : Py A) : quiet m -> confined p m.
Proof.
  intros Hq w w' r Hrun. destruct (Hq _ _ _ Hrun) as (Hfs & Hcwd & Hwr).
  split; [done|]. split; [by rewrite Hfs|].
  exists []. by rewrite app_nil_r.
Qed.

Lemma confined_bind {A B} (p : Path) (m : Py A) (k : A -> Py B) :
  confined p m ->
  (forall a, (exists w w1, m w = (w1, Ok a)) -> confined p (k a)) ->
  confined p (bind m k).
Proof.
  intros Hm Hk w w' r. unfold bind.
  destruct (m w) as [w1 [a|e]] eqn:E; pose proof (Hm _ _ _ E) as H1.
  - intros Hrun. apply (stays_within_trans p w w1 w' H1).
    by apply (Hk a ltac:(by exists w, w1) _ _ _ Hrun).
  - by intros [= <- _].
Qed.

Lemma confined_try_except {A} (p : Path) (body : Py A) (handler : exn -> Py A) :
  confined p body -> (forall e, confined p (handler e)) ->
  confined p (try_except body handler).
Proof.
  intros Hb Hh w w' r. unfold try_except.
  destruct (body w) as [w1 [a|e]] eqn:E; pose proof (Hb _ _ _ E) as H1.
  - by intros [= <- _].
  - intros Hrun. apply (stays_within_trans p w w1 w' H1). by apply (Hh e _ _ _ Hrun).
Qed.

Lemma confined_try_except_binding {A} (p : Path) (upto : Py A) (rest : A -> Py unit)
    (handler : exn -> Py unit) :
  confined p upto ->
  (forall a, (exists w w1, upto w = (w1, Ok a)) -> confined p (rest a)) ->
  (forall e, confined p (handler e)) ->
  confined p (try_except_binding upto rest handler).
Proof.
  intros Hu Hr Hh w w' r. unfold try_except_binding.
  assert (Hafter : forall (b : option A) e w1 w' r,
    (handler e ;; ret b) w1 = (w', r) -> stays_within p w1 w').
  { intros b e w1 w2 r'. apply confined_bind; [apply Hh|].
    intros _ _. apply confined_quiet, quiet_ret. }
  destruct (upto w) as [w1 [a|e]] eqn:E; pose proof (Hu _ _ _ E) as H1.
  - destruct (rest a w1) as [w2 [[]|e]] eqn:E2;
      pose proof (Hr a ltac:(by exists w, w1) _ _ _ E2) as H2.
    + intros [= <- _]. by apply (stays_within_trans p w w1 w2).
    + intros Hrun. apply (stays_within_trans p w w1 w' H1).
      apply (stays_within_trans p w1 w2 w' H2). by apply (Hafter _ _ _ _ _ Hrun).
  - intros Hrun. apply (stays_within_trans p w w1 w' H1). by apply (Hafter _ _ _ _ _ Hrun).
Qed.

Lemma confined_write_text (p : Path) (text : string) : confined p (Os.write_text p text).
Proof.
  intros w w' r. unfold Os.write_text.
  assert (Hwritten : Os.resolve w p <> [] ->
    stays_within p w
      (mkWorld (<[Os.resolve w p := File text]> (fs w)) (cwd w)
               (trace w ++ [EvWrite (Os.resolve w p) text]))).
  { intros Hk. split; [done|]. cbn [fs trace]. split.
    - intros k e Hne He. rewrite entry_at_insert by done. by rewrite decide_False.
    - exists [Os.resolve w p]. rewrite writes_of_app. split; [done|]. by constructor. }
  destruct (Os.entry_at (fs w) (Os.resolve w p)) as [[old|]|] eqn:E.
  - intros [= <- _]. apply Hwritten. intros Hnil. by rewrite Hnil in E.
  - intros [= <- _]. apply stays_within_refl.
  - destruct (Os.entry_at (fs w) (removelast _)) as [[old|]|];
      intros [= <- _]; try apply stays_within_refl.
    apply Hwritten. intros Hnil. by rewrite Hnil in E.
Qed.

Lemma confined_clean_markdown_code_fence (p : Path) :
  confined p (clean_markdown_code_fence p).
Proof.
  apply confined_bind; [apply confined_quiet, quiet_read_text|].
  intros text _. apply confined_write_text.
Qed.

Lemma confined_get_auto_docu_path (p src new_branch_root : Path) :
  confined p (get_auto_docu_path src new_branch_root).
Proof.
  intros w w' [p'|e] Hrun.
  - apply get_auto_docu_path_ok in Hrun as (? & ? & ? & ? & m & made & _ & _ & _ & Hmk & -> & _).
    split; [done|]. cbn [fs trace]. split.
    + intros k e _. by apply (mkdir_chain_preserves _ _ _ _ _ _ Hmk).
    + exists []. by rewrite writes_of_app, writes_of_mkdirs.
  - apply get_auto_docu_path_raise in Hrun as ->. apply stays_within_refl.
Qed.

(** The path [get_auto_docu_path] returns for a well-formed source. *)
Lemma get_auto_docu_path_mirrored (w w1 : World) (src new_branch_root p : Path) :
  PosixPath.well_formed src ->
  get_auto_docu_path src new_branch_root w = (w1, Ok p) ->
  p = mirrored src new_branch_root.
Proof.
  intros Hwf Hrun.
  assert (Hne : names src <> []).
  { intros Hnil. by apply (get_auto_docu_path_no_name w src new_branch_root Hnil w1 p). }
  assert (Hfile : Os.is_file_entry (Os.entry_at (fs w) (Os.resolve w src)) = true).
  { apply get_auto_docu_path_ok in Hrun as (? & ? & ? & ? & ? & ? & -> & _). done. }
  rewrite (get_auto_docu_path_file w src new_branch_root Hwf Hne Hfile) in Hrun.
  unfold bind, ret in Hrun.
  destruct (Os.mkdir_parents_exist_ok _ w) as [w2 [[]|e]]; [|done].
  by injection Hrun as _ <-.
Qed.

(** X24. [auto_comment] touches nothing but directories it makes and
    the mirrored output file: whatever the model answers and however the
    run ends, every write went to the mirrored path, and every other entry
    of the file system that was there, the source file included when it is
    not its own mirror, is there afterwards and holds what it held. *)
Theorem auto_comment_writes_only_mirrored
    (ollama_chat : list event -> string -> string -> result string)
    (w w' : World) (file_path auto_docu_root : Path) (model style : string)
    (r : result unit) :
  PosixPath.well_formed file_path ->
  auto_comment ollama_chat file_path auto_docu_root model style w = (w', r) ->
  let k := Os.resolve w (mirrored file_path auto_docu_root) in
  (forall k' e, k' <> k ->
     Os.entry_at (fs w) k' = Some e -> Os.entry_at (fs w') k' = Some e) /\
  exists ks,
    writes_of (trace w') = writes_of (trace w) ++ ks /\
    Forall (fun k' => k' = k) ks.
Proof.
  intros Hwf Hrun k.
  set (p := mirrored file_path auto_docu_root) in *.
  assert (Hpath : forall (A B : Type) (m : Py A) (rest : A -> Path -> Py B),
    confined p m ->
    (forall a, confined p (rest a p)) ->
    confined p (a <- m ;; new_path <- get_auto_docu_path file_path auto_docu_root ;;
                rest a new_path)).
  { intros A B m rest Hm Hrest. apply confined_bind; [done|]. intros a _.
    apply confined_bind; [apply confined_get_auto_docu_path|].
    intros new_path (w0 & w1 & Hget).
    rewrite (get_auto_docu_path_mirrored _ _ _ _ _ Hwf Hget). apply Hrest. }
  assert (Hwrite : forall text line,
    confined p (Os.write_text p text ;; clean_markdown_code_fence p ;; print line)).
  { intros text line. apply confined_bind; [apply confined_write_text|]. intros _ _.
    apply confined_bind; [apply confined_clean_markdown_code_fence|]. intros _ _.
    apply confined_quiet, quiet_print. }
  assert (Hconf : confined p (auto_comment ollama_chat file_path auto_docu_root model style)).
  { apply confined_bind; [apply confined_quiet, quiet_read_text|]. intros code _.
    apply confined_bind.
    { apply confined_quiet, quiet_try_except.
      - apply quiet_bind; [apply quiet_chat|]. intros reply.
        apply quiet_bind; [apply quiet_print|]. intros _. apply quiet_ret.
      - intros e. apply quiet_bind; [apply quiet_print|]. intros _. apply quiet_ret. }
    intros existing _. apply confined_bind.
    { apply confined_quiet, quiet_try_except.
      - apply quiet_bind; [apply quiet_chat|]. intros reply.
        apply quiet_bind; [apply quiet_print|]. intros _.
        apply quiet_bind; [apply quiet_print|]. intros _. apply quiet_ret.
      - intros e. apply quiet_bind; [apply quiet_print|]. intros _. apply quiet_ret. }
    intros [] _.
    - apply confined_bind.
      { apply confined_try_except_binding.
        - apply (Hpath string (string * Path)%type
                   (chat ollama_chat model (uncomment_prompt code))
                   (fun reply new_path => ret (reply, new_path))).
          + apply confined_quiet, quiet_chat.
          + intros reply. apply confined_quiet, quiet_ret.
        - intros [reply new_path] (w0 & w1 & Hupto).
          apply bind_Ok_inv in Hupto as (w2 & reply' & _ & Hupto).
          apply bind_Ok_inv in Hupto as (w3 & new_path' & Hget & Hret).
          injection Hret as _ _ <-.
          rewrite (get_auto_docu_path_mirrored _ _ _ _ _ Hwf Hget). apply Hwrite.
        - intros e. apply confined_quiet, quiet_print. }
      intros bound _. apply confined_bind.
      { apply confined_quiet. destruct bound; [apply quiet_ret|apply quiet_raise]. }
      intros new_path _.
      apply confined_bind; [apply confined_quiet, quiet_read_text|]. intros text _.
      apply confined_try_except.
      + apply (Hpath string unit (chat ollama_chat model (recomment_prompt style text))
                 (fun reply new_path =>
                    Os.write_text new_path reply ;;
                    clean_markdown_code_fence new_path ;;
                    print ("New comments added to " +:+ PosixPath.name new_path))).
        * apply confined_quiet, quiet_chat.
        * intros reply. apply Hwrite.
      + intros e. apply confined_quiet, quiet_print.
    - intros w0 w1 r0 Hkeep. rewrite keep_comments_raises in Hkeep.
      injection Hkeep as <- _. apply stays_within_refl. }
  destruct (Hconf _ _ _ Hrun) as (_ & Hfs & Hwr). by split.
Qed.

Lemma auto_comment_writes_only_mirrored_witness :
  let run := auto_comment Sample.different_oracle Sample.proj_src Sample.proj_out
               "llama3.1:8b" "moderate" Sample.proj_world in
  (forall k' e, k' <> ["proj"; "auto_docu_output"; "proj"; "a.py"] ->
     Os.entry_at (fs Sample.proj_world) k' = Some e ->
     Os.entry_at (fs (fst run)) k' = Some e) /\
  exists ks,
    writes_of (trace (fst run)) = writes_of (trace Sample.proj_world) ++ ks /\
    Forall (fun k' => k' = ["proj"; "auto_docu_output"; "proj"; "a.py"]) ks.
Proof.
  refine (auto_comment_writes_only_mirrored Sample.different_oracle Sample.proj_world
            (fst (auto_comment Sample.different_oracle Sample.proj_src Sample.proj_out
                    "llama3.1:8b" "moderate" Sample.proj_world))
            Sample.proj_src Sample.proj_out "llama3.1:8b" "moderate"
            (snd (auto_comment Sample.different_oracle Sample.proj_src Sample.proj_out
                    "llama3.1:8b" "moderate" Sample.proj_world)) _ _).
  - repeat constructor.
  - vm_compute. reflexivity.
Defined.

(** ** The requests for docstrings *)

Lemma suggest_one_chat
    (ollama_chat : list event -> string -> string -> result string)
    (w : World) (model : string) (docstrings : list string) (item : ast * string) :
  exists w' docstrings',
    suggest_one ollama_chat model docstrings item w = (w', Ok docstrings') /\
    chats_of (trace w') = chats_of (trace w) ++ [(model, docstring_prompt item.2)].
Proof.
  destruct item as [node func_src].
  unfold suggest_one, suggest_docstring_with_ollama, try_except, bind, chat, print, emit, ret.
  cbn [fs cwd trace snd].
  destruct (ollama_chat _ model (docstring_prompt func_src)) as [doc|e];
    cbn [fs cwd trace]; eexists _, _; (split; [reflexivity|]); cbn [trace];
    rewrite !chats_of_app; cbn; by rewrite !app_nil_r.
Qed.

Lemma suggest_all_chats
    (ollama_chat : list event -> string -> string -> result string)
    (model : string) (missing : list (ast * string)) :
  forall (w : World) (docstrings : list string),
  exists w' docstrings',
    for_fold missing docstrings (suggest_one ollama_chat model) w = (w', Ok docstrings') /\
    chats_of (trace w') =
      chats_of (trace w) ++ map (fun item => (model, docstring_prompt item.2)) missing.
Proof.
  induction missing as [|item missing IH]; intros w docstrings.
  - exists w, docstrings. by rewrite app_nil_r.
  - destruct (suggest_one_chat ollama_chat w model docstrings item)
      as (w1 & docs1 & Hone & Hch1).
    destruct (IH w1 docs1) as (w' & docs' & Hall & Hch).
    exists w', docs'. cbn [for_fold]. unfold bind. rewrite Hone, Hall.
    split; [done|]. rewrite Hch, Hch1, <- app_assoc. done.
Qed.

(** X25. On a file that can be read and parses,
    [generate_docstring_suggestions] sends the model one request for each
    function without a docstring, in the order of the list, each holding
    the source text of its function, and no other request, however the run
    ends. *)
Theorem generate_docstring_suggestions_requests
    (ollama_chat : list event -> string -> string -> result string)
    (ast_parse : string -> result ast)
    (w : World) (file_path auto_docu_root model raw : string) (tree : ast) :
  Os.entry_at (fs w) (Os.resolve w (PosixPath.of_str file_path)) = Some (File raw) ->
  ast_parse (PyStr.universal_newlines raw) = Ok tree ->
  exists w' r,
    generate_docstring_suggestions ollama_chat ast_parse file_path auto_docu_root model w =
      (w', r) /\
    chats_of (trace w') =
      chats_of (trace w) ++
      map (fun item => (model, docstring_prompt item.2))
          (functions_missing_docstrings (PyStr.universal_newlines raw) tree).
Proof.
  intros Hfile Hparse.
  unfold generate_docstring_suggestions, bind at 1.
  unfold extract_functions_missing_docstrings, bind at 1, Os.read_text. rewrite Hfile.
  unfold bind at 1, parse. rewrite Hparse. unfold ret at 1.
  set (w0 := mkWorld _ _ _).
  set (missing := functions_missing_docstrings _ tree).
  destruct (suggest_all_chats ollama_chat model missing w0 []) as (w1 & docs & Hall & Hch).
  assert (Hch1 : chats_of (trace w1) =
                 chats_of (trace w) ++ map (fun item => (model, docstring_prompt item.2)) missing).
  { rewrite Hch. subst w0. cbn [trace]. rewrite chats_of_app. cbn. by rewrite app_nil_r. }
  unfold bind at 1. rewrite Hall.
  destruct missing as [|item rest] eqn:Hmissing.
  { unfold print, emit. eexists _, _. split; [reflexivity|]. cbn [trace].
    rewrite chats_of_app, Hch1. cbn. by rewrite !app_nil_r. }
  unfold bind at 1, lift_result.
  destruct (insert_docstrings _ _ _) as [new_source|e]; [|by eexists _, _].
  unfold bind, Os.write_text, print, emit.
  destruct (Os.entry_at (fs w1) _) as [[old|]|]; [|by eexists _, _|].
  - eexists _, _. split; [reflexivity|]. cbn [trace].
    rewrite !chats_of_app, Hch1. cbn. by rewrite !app_nil_r.
  - destruct (Os.entry_at (fs w1) (removelast _)) as [[old|]|];
      [by eexists _, _| |by eexists _, _].
    eexists _, _. split; [reflexivity|]. cbn [trace].
    rewrite !chats_of_app, Hch1. cbn. by rewrite !app_nil_r.
Qed.

Lemma generate_docstring_suggestions_requests_witness :
  exists w' r,
    generate_docstring_suggestions Sample.failing_oracle Sample.class_parse
      "out/a.py" "out" "llama3.1:8b" Sample.class_world = (w', r) /\
    chats_of (trace w') =
      [("llama3.1:8b", docstring_prompt (text_of_lines ["def f():"; "    return 2"]));
       ("llama3.1:8b",
        docstring_prompt (text_of_lines ["    def m(self):"; "        return 1"]))].
Proof.
  exact (generate_docstring_suggestions_requests Sample.failing_oracle Sample.class_parse
           Sample.class_world "out/a.py" "out" "llama3.1:8b"
           Sample.class_source Sample.class_tree eq_refl eq_refl).
Defined.

(** ** A project without Python files *)

Lemma prefix_sep_cons (a : ascii) (l : string) :
  String.prefix "/" (String a l) = Ascii.eqb a "/".
Proof.
  cbn [String.prefix]. destruct (ascii_dec "/" a) as [<-|Hne].
  - by destruct l.
  - by rewrite (proj2 (Ascii.eqb_neq a "/")) by congruence.
Qed.

Lemma contains_sep_cons (a : ascii) (l : string) :
  PyStr.contains "/" (String a l) = Ascii.eqb a "/" || PyStr.contains "/" l.
Proof. cbn [PyStr.contains]. by rewrite prefix_sep_cons. Qed.

Lemma split_on_components (s c : string) :
  c ∈ PyStr.split_on "/" s -> PyStr.contains "/" c = false.
Proof.
  revert c. induction s as [|a s IH]; intros c; cbn [PyStr.split_on].
  - intros Hin. apply list_elem_of_singleton in Hin as ->. done.
  - destruct (Ascii.eqb a "/") eqn:Ha.
    + intros Hin. apply elem_of_cons in Hin as [->|Hin]; [done|by apply IH].
    + destruct (PyStr.split_on "/" s) as [|l ls] eqn:Hs.
      * intros Hin. apply list_elem_of_singleton in Hin as ->.
        by rewrite contains_sep_cons, Ha.
      * intros Hin. apply elem_of_cons in Hin as [->|Hin].
        -- rewrite contains_sep_cons, Ha. apply IH. by left.
        -- apply IH. by right.
Qed.

Lemma split_on_sep_app (l t : string) :
  PyStr.contains "/" l = false ->
  PyStr.split_on "/" (l +:+ String "/" t) = l :: PyStr.split_on "/" t.
Proof.
  induction l as [|a l IH]; [done|].
  rewrite contains_sep_cons. intros Hc. apply orb_false_iff in Hc as [Ha Hl].
  change (String a l +:+ String "/" t) with (String a (l +:+ String "/" t)).
  cbn [PyStr.split_on]. by rewrite Ha, (IH Hl).
Qed.

Lemma split_on_join (ns : list string) :
  Forall (fun c => PyStr.contains "/" c = false) ns -> ns <> [] ->
  PyStr.split_on "/" (PyStr.join "/" ns) = ns.
Proof.
  induction 1 as [|c ns Hc Hns IH]; [done|]. intros _.
  destruct ns as [|c' ns'].
  - cbn [PyStr.join]. by apply split_on_no_sep.
  - change (PyStr.join "/" (c :: c' :: ns'))
      with (c +:+ String "/" (PyStr.join "/" (c' :: ns'))).
    rewrite split_on_sep_app by done. by rewrite IH.
Qed.

(** A path read back from its text is the same path. *)
Lemma of_str_to_str (s : string) :
  PosixPath.of_str (PosixPath.to_str (PosixPath.of_str s)) = PosixPath.of_str s.
Proof.
  set (p := PosixPath.of_str s).
  assert (Hnames : Forall (fun c => PosixPath.real_component c = true /\
                                    PyStr.contains "/" c = false) (names p)).
  { apply Forall_forall. intros c Hin. unfold p, PosixPath.of_str in Hin. cbn in Hin.
    apply list_elem_of_filter in Hin as [Hreal Hin]. split; [done|].
    by apply (split_on_components s). }
  assert (Hsep : Forall (fun c => PyStr.contains "/" c = false) (names p)).
  { eapply Forall_impl; [exact Hnames|]. by intros c [_ ?]. }
  assert (Hfilter : filter (fun c => PosixPath.real_component c = true) (names p) = names p).
  { clear Hsep. induction Hnames as [|c ns [Hreal _] _ IH]; [done|].
    rewrite filter_cons, decide_True by done. by rewrite IH. }
  clearbody p. destruct p as [a ns]. cbn [names] in *.
  unfold PosixPath.to_str, PosixPath.of_str. cbn [anchor names].
  destruct a.
  - unfold PyStr.startswith.
    change ("/" +:+ PyStr.join "/" ns) with (String "/" (PyStr.join "/" ns)).
    rewrite prefix_sep_cons. cbn [PyStr.split_on]. change (Ascii.eqb "/" "/") with true.
    cbv iota. rewrite filter_cons, decide_False by done.
    destruct ns as [|c ns']; [done|].
    by rewrite split_on_join, Hfilter.
  - destruct ns as [|c ns']; [done|].
    rewrite split_on_join, Hfilter by done. f_equal.
    apply Forall_cons in Hnames as [[Hreal Hc] _].
    unfold PyStr.startswith.
    destruct c as [|a c]; [done|].
    rewrite contains_sep_cons in Hc. apply orb_false_iff in Hc as [Ha _].
    destruct ns' as [|c' ns''].
    + cbn [PyStr.join]. by rewrite prefix_sep_cons.
    + change (PyStr.join "/" (String a c :: c' :: ns''))
        with (String a (c +:+ "/" +:+ PyStr.join "/" (c' :: ns''))).
      by rewrite prefix_sep_cons.
Qed.

Lemma world_scans_nil (w : World) :
  w = mkWorld (fs w) (cwd w) (trace w ++ map EvListdir []).
Proof. destruct w. cbn. by rewrite app_nil_r. Qed.

Lemma for_fold_scans {A S} (body : S -> A -> Py S) (l : list A) :
  (forall acc x w, exists acc' scans,
     body acc x w =
       (mkWorld (fs w) (cwd w) (trace w ++ map EvListdir scans), Ok acc')) ->
  forall acc w, exists acc' scans,
    for_fold l acc body w =
      (mkWorld (fs w) (cwd w) (trace w ++ map EvListdir scans), Ok acc').
Proof.
  intros Hbody. induction l as [|x l IH]; intros acc w; cbn [for_fold].
  - exists acc, []. unfold ret. by rewrite <- world_scans_nil.
  - destruct (Hbody acc x w) as (acc1 & scans1 & Hx).
    destruct (IH acc1 (mkWorld (fs w) (cwd w) (trace w ++ map EvListdir scans1)))
      as (acc' & scans2 & Hrest).
    exists acc', (scans1 ++ scans2). unfold bind. rewrite Hx, Hrest.
    cbn [fs cwd trace]. by rewrite map_app, app_assoc.
Qed.

(** With an exclusion list and without previews, [walk_dir] returns on
    every directory: it scans directories and does nothing else. *)
Lemma walk_dir_returns (exclude_dirs : list string) (preview_lines : Z) (levels : nat) :
  forall (current_path : string) (indent_level : nat) (output : list string) (w : World),
    Os.entry_at (fs w) (Os.resolve w (PosixPath.of_str current_path)) = Some Dir ->
    exists output' scans,
      walk_dir levels (Some exclude_dirs) false preview_lines
        current_path indent_level output w =
        (mkWorld (fs w) (cwd w) (trace w ++ map EvListdir scans), Ok output').
Proof.
  induction levels as [|levels IH]; intros current_path indent_level output w Hdir.
  - exists output, []. cbn [walk_dir]. unfold ret. by rewrite <- world_scans_nil.
  - rewrite walk_dir_step. unfold bind at 1, Os.listdir. rewrite Hdir.
    set (d := Os.resolve w (PosixPath.of_str current_path)).
    edestruct (for_fold_scans
                 (walk_dir_item levels (Some exclude_dirs) false preview_lines
                    current_path indent_level)
                 (merge_sort String.le (Os.children (fs w) d)))
      as (output' & scans & Hloop).
    2:{ exists output', (d :: scans). rewrite Hloop. cbn [fs cwd trace map].
        by rewrite <- app_assoc. }
    intros acc item w2.
    destruct (item_is_dir w2 current_path item) eqn:Hd.
    + unfold walk_dir_item, bind at 1, Os.is_dir.
      unfold item_is_dir in Hd. rewrite Hd.
      unfold bind, member_of_optional, ret.
      destruct (bool_decide (item ∈ exclude_dirs) || PyStr.startswith item ".").
      * exists acc, []. by rewrite <- world_scans_nil.
      * apply IH. by apply is_dir_entry_true.
    + rewrite walk_dir_item_plain by done. eexists _, []. by rewrite <- world_scans_nil.
Qed.

Lemma resolve_joinstr_name (w : World) (p : Path) (name : string) :
  PosixPath.valid_name name = true -> name <> ".." ->
  Os.resolve w (PosixPath.joinstr p name) = Os.resolve w p ++ [name].
Proof.
  intros Hname Hdots. unfold PosixPath.joinstr. rewrite (of_str_valid_name _ Hname).
  unfold Os.resolve, PosixPath.joinpath. cbn [anchor names]. by apply walk_snoc.
Qed.

(** X26. On a project directory without a file matching [*.py], the
    pipeline stops with FileNotFoundError: no file is mirrored, so the
    output directory is never made, and [describe_directory_structure]
    cannot open README_1_directory_structure.txt below it. By then the run
    has printed its headings, scanned twice for files and listed the
    project; it has made no model call, and the file system is as it
    was. *)
Theorem orchestrate_all_without_python_files
    (ollama_chat : list event -> string -> string -> result string)
    (ast_parse : string -> result ast)
    (w : World) (directory : string) (exclude_dirs : list string)
    (commenting_style model : string) :
  let auto_docu_path := PosixPath.of_str (directory +:+ "/auto_docu_output") in
  let d := Os.resolve w (PosixPath.of_str directory) in
  Os.entry_at (fs w) d = Some Dir ->
  (forall rel, rel ∈ Os.below (fs w) d -> Os.matches_suffix ".py" rel = false) ->
  (forall rel, Os.entry_at (fs w) (Os.resolve w auto_docu_path ++ rel) = None) ->
  exists w' scans,
    orchestrate_all ollama_chat ast_parse directory (Some exclude_dirs)
      commenting_style model w =
      (w', Raise (Os.no_such_file
                    (PosixPath.joinstr auto_docu_path
                       "README_1_directory_structure.txt"))) /\
    fs w' = fs w /\
    trace w' =
      trace w ++
      [EvPrint ("Scanning directory: " +:+ directory);
       EvGlob d;
       EvPrint (PyStr.nl +:+ "Adding {" +:+
                PyStr.replace commenting_style "commenting" "" +:+ "} comments...");
       EvPrint (PyStr.nl +:+ "Generating docstrings...");
       EvGlob (Os.resolve w auto_docu_path);
       EvPrint (PyStr.nl +:+ " Describing directory...")] ++
      map EvListdir scans.
Proof.
  intros auto_docu_path d Hdir Hnopy Hmissing.
  assert (Hfind1 : forall tr excluded,
    find_all_python_files (PStr directory) excluded (mkWorld (fs w) (cwd w) tr) =
      (mkWorld (fs w) (cwd w) (tr ++ [EvGlob d]), Ok [])).
  { intros tr excluded. unfold find_all_python_files, bind, Os.rglob_suffix, ret.
    cbn [fs cwd trace as_path].
    rewrite (resolve_cwd w (mkWorld (fs w) (cwd w) tr)) by done. fold d.
    rewrite (filter_none _ (Os.below (fs w) d)); [done|].
    intros rel Hin. by rewrite (Hnopy rel Hin). }
  assert (Hfind2 : forall tr,
    find_all_python_files (PStr (PosixPath.to_str auto_docu_path)) None
      (mkWorld (fs w) (cwd w) tr) =
      (mkWorld (fs w) (cwd w) (tr ++ [EvGlob (Os.resolve w auto_docu_path)]), Ok [])).
  { intros tr.
    assert (Hback : PosixPath.of_str (PosixPath.to_str auto_docu_path) = auto_docu_path)
      by apply of_str_to_str.
    unfold find_all_python_files, bind, Os.rglob_suffix, ret, Os.below.
    cbn [fs cwd trace as_path]. rewrite !Hback.
    rewrite !(resolve_cwd w (mkWorld (fs w) (cwd w) tr)) by done.
    specialize (Hmissing []). rewrite app_nil_r in Hmissing. by rewrite Hmissing. }
  set (tr5 := trace w ++
      [EvPrint ("Scanning directory: " +:+ directory);
       EvGlob d;
       EvPrint (PyStr.nl +:+ "Adding {" +:+
                PyStr.replace commenting_style "commenting" "" +:+ "} comments...");
       EvPrint (PyStr.nl +:+ "Generating docstrings...");
       EvGlob (Os.resolve w auto_docu_path);
       EvPrint (PyStr.nl +:+ " Describing directory...")]).
  set (w5 := mkWorld (fs w) (cwd w) tr5).
  destruct (walk_dir_returns (exclude_dirs ++ ["venv"; "__pycache__"]) 3 4
              directory 0
              [listing_header (default "" (last (Os.resolve w5 (PosixPath.of_str directory))))]
              w5)
    as (output & scans & Hwalk).
  { by rewrite (resolve_cwd w w5). }
  set (w6 := mkWorld (fs w) (cwd w) (tr5 ++ map EvListdir scans)).
  exists w6, scans.
  split; [|split; [done|subst w6 tr5; cbn [trace]; by rewrite <- app_assoc]].
  unfold orchestrate_all.
  unfold bind at 1, print at 1, emit. cbn [fs cwd trace].
  unfold bind at 1, add_default_excludes, ret at 1.
  unfold bind at 1. rewrite Hfind1. cbn [for_each].
  unfold bind at 1, ret at 1.
  unfold bind at 1, print at 1, emit. cbn [fs cwd trace].
  unfold bind at 1, ret at 1.
  unfold bind at 1, print at 1, emit. cbn [fs cwd trace].
  unfold bind at 1. rewrite Hfind2. cbn [for_each].
  unfold bind at 1, ret at 1.
  unfold bind at 1, print at 1, emit. cbn [fs cwd trace].
  rewrite <- !app_assoc. cbn [app]. fold tr5. fold w5.
  unfold bind at 1, call_describe_directory_structure, describe_directory_structure.
  unfold bind at 1, Os.abs_basename. cbn [fspath].
  unfold bind at 1. unfold listing_header in Hwalk.
  change (Z.to_nat (3 + 1)) with 4. rewrite Hwalk. cbn [fs cwd trace w5]. fold w6.
  unfold bind at 1, Os.write_text. cbn [as_path].
  rewrite (resolve_cwd w w6) by done.
  rewrite (resolve_joinstr_name w auto_docu_path) by done.
  cbn [fs w6]. rewrite (Hmissing ["README_1_directory_structure.txt"]), removelast_last.
  specialize (Hmissing []). rewrite app_nil_r in Hmissing. by rewrite Hmissing.
Qed.

Lemma orchestrate_all_without_python_files_witness :
  exists w',
    orchestrate_all Sample.similar_oracle Sample.class_parse "docs" (Some [])
      "moderate" "llama3.1:8b" Inputs.docs_world =
      (w', Raise (Os.no_such_file
                    (mkPath false ["docs"; "auto_docu_output";
                                   "README_1_directory_structure.txt"]))) /\
    fs w' = fs Inputs.docs_world /\
    chats_of (trace w') = [].
Proof.
  destruct (orchestrate_all_without_python_files Sample.similar_oracle Sample.class_parse
              Inputs.docs_world "docs" [] "moderate" "llama3.1:8b")
    as (w' & scans & Hrun & Hfs & Htrace).
  - reflexivity.
  - intros rel Hin. vm_compute in Hin.
    repeat (apply elem_of_cons in Hin as [->|Hin]; [reflexivity|]).
    by apply elem_of_nil in Hin.
  - intros rel.
    change (Os.resolve Inputs.docs_world (PosixPath.of_str ("docs" +:+ "/auto_docu_output")))
      with ["docs"; "auto_docu_output"].
    cbn [app Os.entry_at fs Inputs.docs_world].
    rewrite !lookup_insert_ne by (intros [=]; discriminate).
    apply lookup_empty.
  - exists w'. split; [exact Hrun|]. split; [exact Hfs|].
    rewrite Htrace. cbn [trace Inputs.docs_world app chats_of].
    clear. induction scans as [|k scans IH]; [done|exact IH].
Defined.
